(** * OpsBeacon Python SDK: a shallow embedding of [opsbeacon/client.py]
    and [opsbeacon/exceptions.py], with the properties of the client that
    the specification states.

    Python values that travel as JSON are modelled by the type [json];
    the dynamically typed operations the client applies to them
    ([.get], [x[k]], [k in x], truthiness, iteration) are total functions
    that return a Python exception where Python raises one.  HTTP traffic
    is a transition function on an abstract world, threaded through a
    state-and-exception monad that also records every request sent. *)

From Stdlib Require Import String Ascii List ZArith Lia Bool Permutation.
From Stdlib Require Import QArith_base DecimalString.
Import ListNotations.

Local Open Scope string_scope.
Local Open Scope Z_scope.
Set Warnings "-register-all".

(* ===================================================================== *)
(** ** Python strings *)
(* ===================================================================== *)

Module PyStr.

(** [bool(s)] for a string. *)
Definition truthy (s : string) : bool :=
  match s with EmptyString => false | String _ _ => true end.

(** Decimal rendering, as [str(n)] and f-string interpolation of an int. *)
Definition of_Z (n : Z) : string := NilZero.string_of_int (Z.to_int n).

(** Characters [int()] skips around a literal, restricted to code points
    below 256 (HTTP header values are Latin-1): the ASCII whitespace
    (tab to carriage return, and the space) and the two whitespace
    characters above 127, which [int()] turns into spaces first.  The
    separators 28 to 31 are not skipped. *)
Definition is_space (c : ascii) : bool :=
  let n := Z.of_nat (nat_of_ascii c) in
  ((9 <=? n) && (n <=? 13)) || (n =? 32) || (n =? 133) || (n =? 160).

Definition digit_val (c : ascii) : option Z :=
  let n := Z.of_nat (nat_of_ascii c) in
  if (48 <=? n) && (n <=? 57) then Some (n - 48) else None.

Fixpoint lstrip (s : string) : string :=
  match s with
  | String c r => if is_space c then lstrip r else s
  | EmptyString => EmptyString
  end.

(** [rstrip] drops the maximal whitespace suffix. *)
Fixpoint rstrip (s : string) : string :=
  match s with
  | EmptyString => EmptyString
  | String c r =>
      match rstrip r with
      | EmptyString => if is_space c then EmptyString else String c EmptyString
      | r' => String c r'
      end
  end.

Definition strip (s : string) : string := rstrip (lstrip s).

(** Digits of a decimal literal: [digit ("_"? digit)*].  [prev] tells
    whether the previous character was a digit (an underscore is legal
    only between two digits). *)
Fixpoint int_digits (s : string) (prev : bool) (acc : Z) : option Z :=
  match s with
  | EmptyString => if prev then Some acc else None
  | String c r =>
      match digit_val c with
      | Some d => int_digits r true (10 * acc + d)
      | None =>
          if (Ascii.eqb c "_"%char) && prev then int_digits r false acc
          else None
      end
  end.

(** The number of digit characters of [s]. *)
Fixpoint digit_count (s : string) : Z :=
  match s with
  | EmptyString => 0
  | String c r =>
      (match digit_val c with Some _ => 1 | None => 0 end) + digit_count r
  end.

(** [sys.int_info.default_max_str_digits]: a longer literal is refused. *)
Definition max_str_digits : Z := 4300.

(** [int(s)] in base ten: surrounding whitespace, one optional sign,
    then the digits, at most [max_str_digits] of them.  [None] stands
    for [ValueError]. *)
Definition to_int (s : string) : option Z :=
  let literal (r : string) : option Z :=
    if digit_count r <=? max_str_digits then int_digits r false 0 else None in
  match strip s with
  | String "+"%char r => literal r
  | String "-"%char r => option_map Z.opp (literal r)
  | r => literal r
  end.

(** [str.lower()] on code points below 256. *)
Definition lower_char (c : ascii) : ascii :=
  let n := nat_of_ascii c in
  if ((65 <=? n) && (n <=? 90))%nat
     || ((192 <=? n) && (n <=? 222) && negb (n =? 215))%nat
  then ascii_of_nat (n + 32) else c.

Fixpoint lower (s : string) : string :=
  match s with
  | EmptyString => EmptyString
  | String c r => String (lower_char c) (lower r)
  end.

(** [needle in hay] for two strings. *)
Fixpoint contains (needle hay : string) : bool :=
  prefix needle hay ||
  match hay with
  | EmptyString => false
  | String _ r => contains needle r
  end.

(** The one-character strings of [s], as iteration over a [str] yields. *)
Fixpoint chars (s : string) : list string :=
  match s with
  | EmptyString => []
  | String c r => String c EmptyString :: chars r
  end.

End PyStr.

(* ===================================================================== *)
(** ** Exceptions ([opsbeacon/exceptions.py] and the built-in ones) *)
(* ===================================================================== *)

(** Built-in exceptions that the dynamically typed operations raise.
    [JSONDecodeError] is the one of [requests]: a [ValueError] and a
    [requests.RequestException] at once. *)
Inductive builtin_exc :=
| ValueError | JSONDecodeError | AttributeError | KeyError | TypeError
| IndexError | OSError.

(** The hierarchy of [exceptions.py].  [RateLimitError] derives from
    [APIError]; every other class derives from [OpsBeaconError] directly. *)
Inductive exn :=
| Builtin (k : builtin_exc)
| AuthenticationError (message : string)
| APIError (message : string) (status_code : option Z)
           (response_body : option string)
| RateLimitError (message : string) (retry_after : option Z)
| ConnectionError (message : string)
| TimeoutError (message : string) (timeout : option Q)
| ValidationError (message : string) (field : option string)
| ResourceNotFoundError (resource_type resource_id : string)
| CommandExecutionError (message : string) (command connection : option string)
| FileOperationError (message : string) (file_name operation : option string)
| MCPError (message : string) (trigger_name : option string).

Module Exn.

Definition default_auth_message := "Authentication failed. Check your API token.".
Definition default_rate_message := "Rate limit exceeded. Please retry later.".
Definition default_timeout_message := "Request timed out.".

(** [isinstance(e, APIError)]. *)
Definition is_APIError (e : exn) : bool :=
  match e with
  | APIError _ _ _ | RateLimitError _ _ => true
  | _ => false
  end.

Definition is_ResourceNotFound (e : exn) : bool :=
  match e with ResourceNotFoundError _ _ => true | _ => false end.

Definition is_ValidationError (e : exn) : bool :=
  match e with ValidationError _ _ => true | _ => false end.

(** [isinstance(e, ValueError)]. *)
Definition is_ValueError (e : exn) : bool :=
  match e with
  | Builtin ValueError | Builtin JSONDecodeError => true
  | _ => false
  end.

(** [APIError.__init__]'s [status_code]; [RateLimitError] passes 429. *)
Definition status_code (e : exn) : option Z :=
  match e with
  | APIError _ sc _ => sc
  | RateLimitError _ _ => Some 429
  | _ => None
  end.

(** The [message] attribute set by [OpsBeaconError.__init__]. *)
Definition message (e : exn) : string :=
  match e with
  | Builtin _ => ""
  | AuthenticationError m | APIError m _ _ | RateLimitError m _
  | ConnectionError m | TimeoutError m _ | ValidationError m _
  | CommandExecutionError m _ _ | FileOperationError m _ _
  | MCPError m _ => m
  | ResourceNotFoundError ty id => ty ++ " '" ++ id ++ "' not found"
  end.

(** [str(e)] for the classes of this SDK: [APIError.__str__] appends the
    status when it is truthy, the others return the message.  (Never
    applied to a built-in exception by the client.) *)
Definition str (e : exn) : string :=
  match status_code e with
  | Some sc =>
      if sc =? 0 then message e
      else message e ++ " " ++ "(status: " ++ PyStr.of_Z sc ++ ")"
  | None => message e
  end.

End Exn.

(* ===================================================================== *)
(** ** Results *)
(* ===================================================================== *)

Inductive res (A : Type) :=
| Ok (a : A)
| Raise (e : exn).
Arguments Ok {A} a.
Arguments Raise {A} e.

Definition res_bind {A B} (r : res A) (k : A -> res B) : res B :=
  match r with Ok a => k a | Raise e => Raise e end.


(* ===================================================================== *)
(** ** JSON values and the Python operations applied to them *)
(* ===================================================================== *)

(** What [response.json()] returns and what request bodies are made of.
    A [dict] keeps its keys in insertion order, each key once.  Numbers
    are the integers (no float reaches a decision of the client). *)
Inductive json :=
| JNull
| JBool (b : bool)
| JNum (n : Z)
| JStr (s : string)
| JArr (items : list json)
| JObj (fields : list (string * json)).

Module Py.

Definition dict := list (string * json).

Fixpoint lookup (k : string) (d : dict) : option json :=
  match d with
  | [] => None
  | (k', v) :: r => if String.eqb k' k then Some v else lookup k r
  end.

(** [d[k] = v]: the value is replaced where the key stands, a new key
    goes last. *)
Fixpoint store (k : string) (v : json) (d : dict) : dict :=
  match d with
  | [] => [(k, v)]
  | (k', v') :: r =>
      if String.eqb k' k then (k', v) :: r else (k', v') :: store k v r
  end.

(** [bool(x)]. *)
Definition truthy (j : json) : bool :=
  match j with
  | JNull => false
  | JBool b => b
  | JNum n => negb (n =? 0)
  | JStr s => PyStr.truthy s
  | JArr l => match l with [] => false | _ => true end
  | JObj d => match d with [] => false | _ => true end
  end.

(** [x == s] for a string [s]: only an equal string is equal to it. *)
Definition eq_str (j : json) (s : string) : bool :=
  match j with JStr s' => String.eqb s' s | _ => false end.

(** [x.get(k, dflt)]: only a [dict] has the method. *)
Definition get (j : json) (k : string) (dflt : json) : res json :=
  match j with
  | JObj d => Ok (match lookup k d with Some v => v | None => dflt end)
  | _ => Raise (Builtin AttributeError)
  end.

(** [x[k]] for a string key. *)
Definition getitem (j : json) (k : string) : res json :=
  match j with
  | JObj d =>
      match lookup k d with Some v => Ok v | None => Raise (Builtin KeyError) end
  | _ => Raise (Builtin TypeError)
  end.

(** [x[0]]. *)
Definition getitem0 (j : json) : res json :=
  match j with
  | JArr (x :: _) => Ok x
  | JArr [] => Raise (Builtin IndexError)
  | JStr (String c _) => Ok (JStr (String c EmptyString))
  | JStr EmptyString => Raise (Builtin IndexError)
  | JObj _ => Raise (Builtin KeyError)
  | _ => Raise (Builtin TypeError)
  end.

(** [k in x] for a string [k]: key of a dict, element of a list,
    substring of a string. *)
Definition contains (k : string) (j : json) : res bool :=
  match j with
  | JObj d => Ok (match lookup k d with Some _ => true | None => false end)
  | JArr l => Ok (existsb (fun x => eq_str x k) l)
  | JStr s => Ok (PyStr.contains k s)
  | _ => Raise (Builtin TypeError)
  end.

(** The elements a [for] loop or [list(x)] visits. *)
Definition iter (j : json) : res (list json) :=
  match j with
  | JArr l => Ok l
  | JObj d => Ok (map (fun kv => JStr (fst kv)) d)
  | JStr s => Ok (map JStr (PyStr.chars s))
  | _ => Raise (Builtin TypeError)
  end.

(** [x[k] = v]. *)
Definition setitem (j : json) (k : string) (v : json) : res json :=
  match j with
  | JObj d => Ok (JObj (store k v d))
  | _ => Raise (Builtin TypeError)
  end.

(** [isinstance(x, dict)]. *)
Definition is_object (j : json) : bool :=
  match j with JObj _ => true | _ => false end.

(** The value under [k] in an object, [None] when the key is missing:
    what [x.get(k)] returns when [x] is a dict. *)
Definition field (j : json) (k : string) : json :=
  match j with
  | JObj d => match lookup k d with Some v => v | None => JNull end
  | _ => JNull
  end.

(** [x.get(k, dflt)] when [x] is a dict. *)
Definition get_or (j : json) (k : string) (dflt : json) : json :=
  match j with
  | JObj d => match lookup k d with Some v => v | None => dflt end
  | _ => dflt
  end.

(** Elements a [set] accepts. *)
Definition hashable (j : json) : bool :=
  match j with JArr _ | JObj _ => false | _ => true end.

(** Equality of hashable values, as a [set] compares them:
    [True == 1] and [False == 0]. *)
Definition hash_eqb (a b : json) : bool :=
  match a, b with
  | JNull, JNull => true
  | JBool x, JBool y => Bool.eqb x y
  | JBool x, JNum n | JNum n, JBool x => n =? (if x then 1 else 0)
  | JNum n, JNum m => n =? m
  | JStr s, JStr t => String.eqb s t
  | _, _ => false
  end.

(** The distinct elements in order of first insertion: of two equal
    elements a [set] keeps the one inserted first. *)
Fixpoint dedup_from (seen l : list json) : list json :=
  match l with
  | [] => []
  | x :: r =>
      if existsb (hash_eqb x) seen then dedup_from seen r
      else x :: dedup_from (x :: seen) r
  end.

Definition dedup (l : list json) : list json := dedup_from [] l.

Definition strs (l : list string) : json := JArr (map JStr l).

(** [x or dflt] for an optional string: [None] and the empty string are
    both falsy. *)
Definition str_truthy (o : option string) : bool :=
  match o with Some s => PyStr.truthy s | None => false end.

End Py.

(* ===================================================================== *)
(** ** [shlex.split] (POSIX mode, [whitespace_split], no comment chars) *)
(* ===================================================================== *)

Module Shlex.

(** The lexer's [state]: [' '], ['a'], an open quote, or the escape
    character together with the state to go back to ([escapedstate]:
    ['a'], or the double quote). *)
Inductive state :=
| Space
| Word
| Quote (q : ascii)
| Escape (in_dquote : bool).

Definition is_whitespace (c : ascii) : bool :=
  Ascii.eqb c " "%char || Ascii.eqb c "009"%char
  || Ascii.eqb c "013"%char || Ascii.eqb c "010"%char.

(** The double quote character. *)
Definition dquote : ascii := "034"%char.

Definition is_quote (c : ascii) : bool :=
  Ascii.eqb c "'"%char || Ascii.eqb c dquote.

Definition is_escape (c : ascii) : bool := Ascii.eqb c "\"%char.

Definition snoc (tok : string) (c : ascii) : string :=
  tok ++ String c EmptyString.

(** [emit] is the end of one [read_token]: an unquoted empty token is
    [None] and is not part of the result. *)
Definition emit (tok : string) (quoted : bool) (acc : list string) :=
  if PyStr.truthy tok || quoted then tok :: acc else acc.

(** The loop of [read_token], run over the whole input; [acc] holds the
    tokens read so far, last first. *)
Fixpoint lex (s : string) (st : state) (tok : string) (quoted : bool)
    (acc : list string) : res (list string) :=
  match s with
  | EmptyString =>
      match st with
      | Space => Ok (rev acc)
      | Word => Ok (rev (emit tok quoted acc))
      | Quote _ | Escape _ => Raise (Builtin ValueError)
      end
  | String c r =>
      match st with
      | Space =>
          if is_whitespace c then lex r Space tok quoted acc
          else if is_escape c then lex r (Escape false) tok quoted acc
          else if is_quote c then lex r (Quote c) tok quoted acc
          else lex r Word (String c EmptyString) quoted acc
      | Quote q =>
          if Ascii.eqb c q then lex r Word tok true acc
          else if is_escape c && Ascii.eqb q dquote
               then lex r (Escape true) tok true acc
          else lex r (Quote q) (snoc tok c) true acc
      | Escape dq =>
          let tok1 :=
            if dq && negb (is_escape c) && negb (Ascii.eqb c dquote)
            then snoc tok "\"%char else tok in
          lex r (if dq then Quote dquote else Word) (snoc tok1 c) quoted acc
      | Word =>
          if is_whitespace c then
            if PyStr.truthy tok || quoted
            then lex r Space EmptyString false (tok :: acc)
            else lex r Space tok quoted acc
          else if is_quote c then lex r (Quote c) tok quoted acc
          else if is_escape c then lex r (Escape false) tok quoted acc
          else lex r Word (snoc tok c) quoted acc
      end
  end.

Definition split (s : string) : res (list string) :=
  lex s Space EmptyString false [].

End Shlex.


(* ===================================================================== *)
(** ** HTTP requests, responses and the transport *)
(* ===================================================================== *)

(** The second component of a [files] entry: a string held in memory, or
    the handle [Path.open("rb")] returns. *)
Inductive upload_source :=
| Content (text : string)
| OpenFile (path : string).

Record Upload := mkUpload {
  up_name : string;
  up_source : upload_source;
  up_mime : string }.

(** The keyword arguments of [Session.request] / [requests.post]. *)
Record Request := mkRequest {
  req_method : string;
  req_url : string;
  req_json : option json;
  req_data : option (list (string * string));
  req_files : option (list (string * Upload));
  req_headers : option (list (string * string)) }.

(** [json_body] is what [response.json()] parses out of the body
    ([None]: the body is not JSON). *)
Record Response := mkResponse {
  status_code : Z;
  headers : list (string * string);
  text : string;
  json_body : option json }.

(** What the [requests] library does with a request: one of its
    exceptions, or a response.  [ConnectionFailed] is
    [requests.exceptions.ConnectionError] (which [ConnectTimeout] derives
    from), [TimedOut] any other [Timeout], [RequestFailed] any other
    [RequestException]; each carries [str(e)]. *)
Inductive outcome :=
| ConnectionFailed (msg : string)
| TimedOut (msg : string)
| RequestFailed (msg : string)
| Responded (r : Response).

Module Http.

(** [headers.get(name)] on the case-insensitive mapping of [requests]. *)
Fixpoint header (name : string) (hs : list (string * string)) : option string :=
  match hs with
  | [] => None
  | (k, v) :: r =>
      if String.eqb (PyStr.lower k) (PyStr.lower name) then Some v
      else header name r
  end.

(** [response.ok]: [raise_for_status] raises for 400..599. *)
Definition is_error_status (sc : Z) : bool := (400 <=? sc) && (sc <? 600).

Definition ok (r : Response) : bool := negb (is_error_status (status_code r)).

(** [response.json()]. *)
Definition json (r : Response) : res json :=
  match json_body r with
  | Some j => Ok j
  | None => Raise (Builtin JSONDecodeError)
  end.

Definition is_GET (r : Request) : bool := String.eqb (req_method r) "GET".
Definition is_PUT (r : Request) : bool := String.eqb (req_method r) "PUT".

End Http.

(** Session configuration, as [OpsBeaconClient.__init__] stores it. *)
Record Client := mkClient {
  api_domain : string;
  api_token : string;
  timeout : Q;
  debug : bool }.

Definition SDK_VERSION := "1.3.0".

(** [base_url] property. *)
Definition base_url (c : Client) : string := "https://" ++ api_domain c.

(** What [pathlib] finds at a path: nothing, something [open] fails on,
    or a file that opens. *)
Inductive file_status := Missing | Unreadable | Readable.

(* ===================================================================== *)
(** ** A scripted world *)
(* ===================================================================== *)

(** A stateless stand-in for the remote service, in the manner of the
    mocked transport of [tests/test_client.py]: a table from method and
    URL to what the transport answers, and a table of local files.  The
    general statements below hold for every world; this one serves to run
    the client on concrete inputs. *)
Module Mock.

Record world := mkWorld {
  routes : list (string * string * outcome);
  rpc_routes : list (string * string * outcome);
  files : list (string * file_status) }.

Definition not_found : Response := mkResponse 404 [] "Not Found" None.

Fixpoint route (method url : string) (rs : list (string * string * outcome))
    : outcome :=
  match rs with
  | [] => Responded not_found
  | (m, u, o) :: r =>
      if String.eqb m method && String.eqb u url then o else route method url r
  end.

(** The JSON-RPC method of a request body, when it has one. *)
Definition rpc_method (req : Request) : option string :=
  match req_json req with
  | Some (JObj d) =>
      match Py.lookup "method" d with
      | Some (JStr m) => Some m
      | _ => None
      end
  | _ => None
  end.

(** A JSON-RPC request is answered from [rpc_routes], by URL and
    JSON-RPC method; any other request from [routes], by HTTP method and
    URL. *)
Definition send (req : Request) (w : world) : outcome * world :=
  (match rpc_method req with
   | Some m => route (req_url req) m (rpc_routes w)
   | None => route (req_method req) (req_url req) (routes w)
   end, w).

Fixpoint file_in (path : string) (fs : list (string * file_status)) : file_status :=
  match fs with
  | [] => Missing
  | (p, s) :: r => if String.eqb p path then s else file_in path r
  end.

Definition file_at (path : string) (w : world) : file_status :=
  file_in path (files w).

Definition path_name (path : string) : string := path.
Definition py_repr (j : json) : string := "<value>".
Definition http_error_str (r : Response) : string :=
  PyStr.of_Z (status_code r) ++ " Error".
Definition json_error_str (r : Response) : string := "Expecting value".

(** Iteration order of a set: here, insertion order. *)
Definition set_order (l : list json) : list json := l.

Definition client : Client := mkClient "api.example.com" "token" (30 # 1) false.

Definition api (path : string) : string := base_url client ++ path.

(** A 200 response carrying [j]. *)
Definition replies (j : json) : outcome := Responded (mkResponse 200 [] "" (Some j)).

(** A 200 response with a plain-text body. *)
Definition says (body : string) : outcome :=
  Responded (mkResponse 200 [] body None).

End Mock.

(** Concrete data for the examples: two triggers, the second not an MCP
    one, and a service that lists them, accepts updates, creations,
    uploads and executions, and serves an MCP endpoint with two tools. *)
Module Scenario.

Definition tool (name connection command : string) : json :=
  JObj [("instanceId", JStr name); ("templateId", JStr name);
        ("overrides", JObj [("name", JStr name);
                            ("description", JStr "");
                            ("connection", JStr connection);
                            ("command", JStr command);
                            ("argumentOverrides", JObj [])])].

Definition tool_a : json := tool "a" "x" "c1".
Definition tool_b : json := tool "b" "x" "c2".

Definition t1_fields : Py.dict :=
  [("name", JStr "t1"); ("kind", JStr "mcp"); ("description", JStr "first");
   ("triggerUrl", JStr "https://mcp.example.com/t1");
   ("commands", Py.strs ["c1"; "c2"]); ("connections", Py.strs ["x"]);
   ("policies", Py.strs ["p"]);
   ("mcpTriggerInfo", JObj [("toolInstances", JArr [tool_a; tool_b])])].

Definition t1 : json := JObj t1_fields.
Definition t2 : json := JObj [("name", JStr "t2"); ("kind", JStr "webHook")].

Definition mcp_url : string := "https://mcp.example.com/t1".

Definition disk : json := JObj [("name", JStr "disk")].
Definition mem : json := JObj [("name", JStr "mem")].
Definition handshake : json := JObj [("result", JObj [])].
Definition listing : json := JObj [("result", JObj [("tools", JArr [disk; mem])])].
Definition executed : json := JObj [("result", JObj [("content", JArr [])])].

Definition service : Mock.world :=
  Mock.mkWorld
    [("GET", Mock.api "/workspace/v2/triggers",
      Mock.replies (JObj [("triggers", JArr [t1; t2])]));
     ("PUT", Mock.api "/workspace/v2/triggers/t1",
      Mock.replies (JObj [("name", JStr "t1")]));
     ("POST", Mock.api "/workspace/v2/triggers",
      Mock.replies (JObj [("url", JStr "https://mcp.example.com/t3");
                          ("apiToken", JStr "secret")]));
     ("POST", Mock.api "/workspace/v2/files", Mock.says "stored");
     ("POST", Mock.api "/trigger/v1/api",
      Mock.replies (JObj [("output", JStr "done")]))]
    [(mcp_url, "initialize", Mock.replies handshake);
     (mcp_url, "tools/list", Mock.replies listing);
     (mcp_url, "tools/call", Mock.replies executed)]
    [("/data/in.csv", Readable)].

(** The end-to-end scenario of the specification: the service lists
    [t1] (mcp) and [t2] (webHook), with those two fields only. *)
Definition s1 : json := JObj [("name", JStr "t1"); ("kind", JStr "mcp")].
Definition s2 : json := JObj [("name", JStr "t2"); ("kind", JStr "webHook")].

Definition listing_service : Mock.world :=
  Mock.mkWorld
    [("GET", Mock.api "/workspace/v2/triggers",
      Mock.replies (JObj [("triggers", JArr [s1; s2])]))]
    [] [].

(** The payload [update_mcp_trigger] sends for [t1] when nothing is
    overridden. *)
Definition t1_unchanged : Py.dict :=
  [("name", JStr "t1"); ("kind", JStr "mcp"); ("description", JStr "first");
   ("commands", Py.strs ["c1"; "c2"]); ("connections", Py.strs ["x"]);
   ("mcpTriggerInfo", JObj [("toolInstances", JArr [tool_a; tool_b])])].

End Scenario.

(* ===================================================================== *)
(** ** Constructing the client *)
(* ===================================================================== *)

Module Session.

(** [s.rstrip("/")]: drops the maximal suffix of slashes. *)
Fixpoint rstrip_slash (s : string) : string :=
  match s with
  | EmptyString => EmptyString
  | String c r =>
      match rstrip_slash r with
      | EmptyString =>
          if Ascii.eqb c "/"%char then EmptyString else String c EmptyString
      | r' => String c r'
      end
  end.

(** [OpsBeaconClient.__init__] (the HTTP session it opens and the logging
    set-up are not part of the record). *)
Definition init (api_domain api_token : string) (timeout : Q) (debug : bool)
    : res Client :=
  if negb (PyStr.truthy api_domain) then
    Raise (ValidationError "api_domain is required" (Some "api_domain"))
  else if negb (PyStr.truthy api_token) then
    Raise (ValidationError "api_token is required" (Some "api_token"))
  else Ok (mkClient (rstrip_slash api_domain) api_token timeout debug).

(** [k] slashes. *)
Fixpoint slashes (k : nat) : string :=
  match k with
  | O => EmptyString
  | S k' => String "/"%char (slashes k')
  end.

(** The last character of [s] is [ch]. *)
Fixpoint ends_with (ch : ascii) (s : string) : bool :=
  match s with
  | EmptyString => false
  | String c EmptyString => Ascii.eqb c ch
  | String _ r => ends_with ch r
  end.

End Session.

(** Additions to the scripted world: a fixed identifier generator and a
    file system that records the paths written. *)
Module MockExt.

Definition uuid4 (w : Mock.world) : string * Mock.world :=
  ("123e4567-e89b-42d3-a456-426614174000", w).

Definition response_content (r : Response) : string := text r.

Definition write_bytes (path data : string) (w : Mock.world)
    : option Mock.world :=
  Some (Mock.mkWorld (Mock.routes w) (Mock.rpc_routes w)
          ((path, Readable) :: Mock.files w)).

(** A response with the given status, headers and body, not JSON. *)
Definition answers (sc : Z) (hs : list (string * string)) (body : string)
    : outcome :=
  Responded (mkResponse sc hs body None).

End MockExt.

(** More concrete data: a service that is rate limiting executions and
    refusing the lookup of "t1", and that serves a file, a download URL
    for it and one policy. *)
Module Scenario2.

Definition file_url : string := "https://files.example.com/report.csv".

Definition policy : json :=
  JObj [("name", JStr "default-policy");
        ("description", JStr "Default execution policy")].

Definition outage : Mock.world :=
  Mock.mkWorld
    [("POST", Mock.api "/trigger/v1/api",
      MockExt.answers 429 [("Retry-After", "60")] "slow down");
     ("GET", Mock.api "/workspace/v2/triggers/t1",
      MockExt.answers 401 [] "unauthorized");
     ("GET", Mock.api "/workspace/v2/file-url/report.csv",
      Mock.replies (JObj [("success", JBool true); ("url", JStr file_url)]));
     ("GET", file_url, Mock.says "a,b");
     ("GET", Mock.api "/workspace/v2/policy",
      Mock.replies (JObj [("policies", JArr [policy])]))]
    [] [].

(** A 500 answer with a JSON error body. *)
Definition failure : Response :=
  mkResponse 500 [] "boom" (Some (JObj [("error", JStr "bad")])).

(** A tool configuration. *)
Definition uptime : Py.dict :=
  [("name", JStr "uptime"); ("connection", JStr "x"); ("command", JStr "c3")].

End Scenario2.

(* ===================================================================== *)
(** ** The client *)
(* ===================================================================== *)

Section Sdk.

(** The world outside the process: the remote service, the MCP endpoint
    and the local file system.  [send] is the [requests] library. *)
Variable World : Type.
Variable send : Request -> World -> outcome * World.
Variable file_at : string -> World -> file_status.

(** Library renderings the client interpolates into messages:
    [Path(p).name], [str(x)] of a JSON value that is not a string,
    [str(e)] of the [HTTPError] of [raise_for_status] and of a JSON
    decoding error. *)
Variable path_name : string -> string.
Variable py_repr : json -> string.
Variable http_error_str : Response -> string.
Variable json_error_str : Response -> string.

(** The order in which iterating a [set] yields its elements, given the
    distinct elements in insertion order.  Python leaves it unspecified;
    all that is known is that each element comes out once. *)
Variable set_order : list json -> list json.
Hypothesis set_order_perm : forall l, Permutation (set_order l) l.

(** The state a call runs in: the world, and the requests handed to the
    transport so far, oldest first. *)
Record state := mkState {
  world : World;
  sent : list Request }.

(** *** State and exceptions

    A raised exception keeps the state reached: requests already sent
    stay sent. *)
Definition M (A : Type) : Type := state -> res A * state.

Definition ret {A} (a : A) : M A := fun st => (Ok a, st).

Definition raise {A} (e : exn) : M A := fun st => (Raise e, st).

Definition lift {A} (r : res A) : M A := fun st => (r, st).

Definition bind {A B} (c : M A) (k : A -> M B) : M B :=
  fun st =>
    match c st with
    | (Ok a, st') => k a st'
    | (Raise e, st') => (Raise e, st')
    end.

(** [try: c  except <classes> as e: h e]. *)
Definition try_except {A} (c : M A) (catches : exn -> bool)
    (h : exn -> M A) : M A :=
  fun st =>
    match c st with
    | (Ok a, st') => (Ok a, st')
    | (Raise e, st') => if catches e then h e st' else (Raise e, st')
    end.

Notation "x <- c ;; k" := (bind c (fun x => k))
  (at level 61, c at next level, right associativity).
Notation "x <~ c ;; k" := (res_bind c (fun x => k))
  (at level 61, c at next level, right associativity).

(** A list comprehension [[x for x in l if p x]] whose test may raise. *)
Fixpoint filter_res {A} (p : A -> res bool) (l : list A) : res (list A) :=
  match l with
  | [] => Ok []
  | x :: r =>
      b <~ p x ;;
      kept <~ filter_res p r ;;
      Ok (if b then x :: kept else kept)
  end.

Definition py_str (j : json) : string :=
  match j with JStr s => s | _ => py_repr j end.

(** *** Transport layer *)

(** Hands the request to the transport and records it. *)
Definition transmit (req : Request) : state -> outcome * state :=
  fun st =>
    let (o, w) := send req (world st) in
    (o, mkState w (sent st ++ [req])).

(** [_handle_response_error]: returns normally below 400. *)
Definition _handle_response_error (response : Response) : res unit :=
  let sc := status_code response in
  if sc =? 401 then Raise (AuthenticationError Exn.default_auth_message)
  else if sc =? 403 then
    Raise (AuthenticationError
             "Access forbidden. Check your API token permissions.")
  else if sc =? 404 then
    Raise (APIError "Resource not found" (Some 404) (Some (text response)))
  else if sc =? 429 then
    let retry_after := Http.header "Retry-After" (headers response) in
    match retry_after with
    | Some v =>
        if PyStr.truthy v then
          match PyStr.to_int v with
          | Some n => Raise (RateLimitError Exn.default_rate_message (Some n))
          | None => Raise (Builtin ValueError)
          end
        else Raise (RateLimitError Exn.default_rate_message None)
    | None => Raise (RateLimitError Exn.default_rate_message None)
    end
  else if 400 <=? sc then
    error_msg <~
      match Http.json response with
      | Ok error_body =>
          inner <~ Py.get error_body "error" (JStr (text response)) ;;
          Py.get error_body "err" inner
      | Raise e =>
          if Exn.is_ValueError e then Ok (JStr (text response)) else Raise e
      end ;;
    Raise (APIError ("API error: " ++ py_str error_msg) (Some sc)
                    (Some (text response)))
  else Ok tt.

(** [_request] (the debug log is not modelled). *)
Definition _request (c : Client) (method endpoint : string)
    (json_data : option json) (data : option (list (string * string)))
    (files : option (list (string * Upload)))
    (hdrs : option (list (string * string))) : M Response :=
  fun st =>
    let url := base_url c ++ endpoint in
    let (o, st') := transmit (mkRequest method url json_data data files hdrs) st in
    match o with
    | ConnectionFailed _ =>
        (Raise (ConnectionError ("Failed to connect to " ++ url)), st')
    | TimedOut _ =>
        (Raise (TimeoutError Exn.default_timeout_message (Some (timeout c))), st')
    | RequestFailed m =>
        (Raise (APIError ("Request failed: " ++ m) None None), st')
    | Responded response =>
        if Http.ok response then (Ok response, st')
        else
          match _handle_response_error response with
          | Raise e => (Raise e, st')
          | Ok _ => (Ok response, st')
          end
    end.

(** *** Files *)

Definition file_upload (c : Client) (file_content file_name input_file : option string)
    : M string :=
  form <-
    match file_content with
    | Some content =>
        match file_name with
        | Some fname =>
            if PyStr.truthy fname then
              ret ([("file", mkUpload fname (Content content) "text/csv")],
                   [("filename", fname)])
            else raise (ValidationError
                          "file_name is required when uploading content"
                          (Some "file_name"))
        | None => raise (ValidationError
                           "file_name is required when uploading content"
                           (Some "file_name"))
        end
    | None =>
        match input_file with
        | Some path =>
            let actual_file_name :=
              match file_name with
              | Some fname => if PyStr.truthy fname then fname else path_name path
              | None => path_name path
              end in
            fun st =>
              match file_at path (world st) with
              | Missing =>
                  (Raise (FileOperationError ("File not found: " ++ path)
                            (Some path) (Some "upload")), st)
              | Unreadable => (Raise (Builtin OSError), st)
              | Readable =>
                  (Ok ([("file", mkUpload actual_file_name (OpenFile path)
                                  "application/octet-stream")],
                       [("filename", actual_file_name)]), st)
              end
        | None =>
            raise (ValidationError
                     "Either file_content or input_file must be provided" None)
        end
    end ;;
  try_except
    (response <- _request c "POST" "/workspace/v2/files" None
                   (Some (snd form)) (Some (fst form)) None ;;
     ret (text response))
    Exn.is_APIError
    (fun e => raise (FileOperationError ("Failed to upload file: " ++ Exn.str e)
                       file_name (Some "upload"))).

(** *** Command execution *)

(** The [args] parameter: [Union[list[str], str]]. *)
Inductive run_args :=
| ArgsStr (s : string)
| ArgsList (l : list string).

(** Lines 554-557: the token list. *)
Definition args_list (args : option run_args) : res (list string) :=
  match args with
  | Some (ArgsStr s) => if PyStr.truthy s then Shlex.split s else Ok []
  | Some (ArgsList l) => Ok l
  | None => Ok []
  end.

(** [a or b] on optional strings. *)
Definition or_else (a b : option string) : option string :=
  if Py.str_truthy a then a else b.

Definition run (c : Client) (command_text connection command : option string)
    (args : option run_args) : M json :=
  let invalid : M json :=
    raise (ValidationError
             "Either command_text or both connection and command are required"
             None) in
  let structured : M json :=
    match command, connection with
    | Some cmd, Some conn =>
        if PyStr.truthy cmd && PyStr.truthy conn then
          toks <- lift (args_list args) ;;
          ret (JObj [("command", JStr cmd); ("connection", JStr conn);
                     ("arguments", Py.strs toks)])
        else invalid
    | _, _ => invalid
    end in
  body <-
    match command_text with
    | Some txt =>
        if PyStr.truthy txt then ret (JObj [("commandLine", JStr txt)])
        else structured
    | None => structured
    end ;;
  try_except
    (response <- _request c "POST" "/trigger/v1/api" (Some body) None None None ;;
     lift (Http.json response))
    Exn.is_APIError
    (fun e => raise (CommandExecutionError
                       ("Command execution failed: " ++ Exn.str e)
                       (or_else command command_text) connection)).

(** *** Triggers *)

(** [t.get("kind") == kind]. *)
Definition kind_is (kind : string) (t : json) : res bool :=
  k <~ Py.get t "kind" JNull ;; Ok (Py.eq_str k kind).

Definition triggers (c : Client) (kind : option string) : M json :=
  response <- _request c "GET" "/workspace/v2/triggers" None None None None ;;
  body <- lift (Http.json response) ;;
  all <- lift (Py.get body "triggers" (JArr [])) ;;
  match kind with
  | Some k =>
      if PyStr.truthy k then
        items <- lift (Py.iter all) ;;
        kept <- lift (filter_res (kind_is k) items) ;;
        ret (JArr kept)
      else ret all
  | None => ret all
  end.

Definition mcp_triggers (c : Client) : M json := triggers c (Some "mcp").

(** The loop of [get_trigger]: the first entry whose name is [name]. *)
Fixpoint scan_by_name (name : string) (l : list json) : res (option json) :=
  match l with
  | [] => Ok None
  | trigger :: r =>
      n <~ Py.get trigger "name" JNull ;;
      if Py.eq_str n name then Ok (Some trigger) else scan_by_name name r
  end.

Definition get_trigger (c : Client) (name : string) : M json :=
  if negb (PyStr.truthy name) then
    raise (ValidationError "name is required" (Some "name"))
  else
    try_except
      (response <- _request c "GET" ("/workspace/v2/triggers/" ++ name)
                     None None None None ;;
       lift (Http.json response))
      Exn.is_APIError
      (fun _ =>
         all_triggers <- triggers c None ;;
         items <- lift (Py.iter all_triggers) ;;
         found <- lift (scan_by_name name items) ;;
         match found with
         | Some trigger => ret trigger
         | None => raise (ResourceNotFoundError "Trigger" name)
         end).

(** The loop over the tool instances that gathers [overrides.command]
    and [overrides.connection]. *)
Fixpoint collect (tools : list json) (commands connections : list json)
    : res (list json * list json) :=
  match tools with
  | [] => Ok (commands, connections)
  | tool :: r =>
      overrides <~ Py.get tool "overrides" (JObj []) ;;
      cmd <~ Py.get overrides "command" JNull ;;
      commands' <~ (if Py.truthy cmd
                    then v <~ Py.getitem overrides "command" ;; Ok (commands ++ [v])%list
                    else Ok commands) ;;
      conn <~ Py.get overrides "connection" JNull ;;
      connections' <~ (if Py.truthy conn
                       then v <~ Py.getitem overrides "connection" ;;
                            Ok (connections ++ [v])%list
                       else Ok connections) ;;
      collect r commands' connections'
  end.

(** [list(set(l))]. *)
Definition list_set (l : list json) : res (list json) :=
  if forallb Py.hashable l then Ok (set_order (Py.dedup l))
  else Raise (Builtin TypeError).

(** [x or []] for an optional list. *)
Definition or_nil {A} (o : option (list A)) : list A :=
  match o with Some l => l | None => [] end.

(** The [payload] of [create_mcp_trigger] (lines 679-702). *)
Definition create_payload (name description : string)
    (tool_instances : option (list json)) (policies : option (list string))
    : res json :=
  p <~ collect (or_nil tool_instances) [] [] ;;
  commands <~ list_set (fst p) ;;
  connections <~ list_set (snd p) ;;
  Ok (JObj [("name", JStr name);
            ("description", JStr description);
            ("kind", JStr "mcp");
            ("commands", JArr commands);
            ("connections", JArr connections);
            ("policies", Py.strs (or_nil policies));
            ("mcpTriggerInfo",
             JObj [("toolInstances", JArr (or_nil tool_instances))])]).

Definition create_mcp_trigger (c : Client) (name description : string)
    (tool_instances : option (list json)) (policies : option (list string))
    : M json :=
  if negb (PyStr.truthy name) then
    raise (ValidationError "name is required" (Some "name"))
  else
    payload <- lift (create_payload name description tool_instances policies) ;;
    try_except
      (response <- _request c "POST" "/workspace/v2/triggers" (Some payload)
                     None None None ;;
       result <- lift (Http.json response) ;;
       url <- lift (Py.get result "url" JNull) ;;
       if Py.truthy url then
         apiToken <- lift (Py.get result "apiToken" JNull) ;;
         ret (JObj [("success", JBool true);
                    ("name", JStr name);
                    ("url", url);
                    ("apiToken", apiToken);
                    ("message",
                     JStr ("MCP trigger '" ++ name ++ "' created successfully"))])
       else
         err <- lift (Py.get result "err" JNull) ;;
         if Py.truthy err then
           err' <- lift (Py.getitem result "err") ;;
           raise (MCPError (py_str err') (Some name))
         else ret result)
      Exn.is_APIError
      (fun e => raise (MCPError ("Failed to create MCP trigger: " ++ Exn.str e)
                         (Some name))).

(** The [payload] of [update_mcp_trigger] (lines 755-781), built from the
    trigger fetched. *)
Definition update_payload (name : string) (description : option string)
    (tool_instances : option (list json)) (existing : json) : res json :=
  cc <~ match tool_instances with
        | Some tools =>
            p <~ collect tools [] [] ;;
            commands <~ list_set (fst p) ;;
            connections <~ list_set (snd p) ;;
            Ok (JArr commands, JArr connections)
        | None =>
            commands <~ Py.get existing "commands" (JArr []) ;;
            connections <~ Py.get existing "connections" (JArr []) ;;
            Ok (commands, connections)
        end ;;
  descr <~ match description with
           | Some d => Ok (JStr d)
           | None => Py.get existing "description" (JStr "")
           end ;;
  info <~ Py.get existing "mcpTriggerInfo" (JObj []) ;;
  info' <~ match tool_instances with
           | Some tools => Py.setitem info "toolInstances" (JArr tools)
           | None => Ok info
           end ;;
  Ok (JObj [("name", JStr name);
            ("kind", JStr "mcp");
            ("description", descr);
            ("commands", fst cc);
            ("connections", snd cc);
            ("mcpTriggerInfo", info')]).

Definition not_mcp (name : string) : exn :=
  MCPError ("'" ++ name ++ "' is not an MCP trigger") (Some name).

Definition update_mcp_trigger (c : Client) (name : string)
    (description : option string) (tool_instances : option (list json)) : M json :=
  if negb (PyStr.truthy name) then
    raise (ValidationError "name is required" (Some "name"))
  else
    existing <- get_trigger c name ;;
    kind <- lift (Py.get existing "kind" JNull) ;;
    if negb (Py.eq_str kind "mcp") then raise (not_mcp name)
    else
      payload <- lift (update_payload name description tool_instances existing) ;;
      try_except
        (response <- _request c "PUT" ("/workspace/v2/triggers/" ++ name)
                       (Some payload) None None None ;;
         lift (Http.json response))
        Exn.is_APIError
        (fun e => raise (MCPError ("Failed to update MCP trigger: " ++ Exn.str e)
                           (Some name))).

Definition get_mcp_trigger_url (c : Client) (name : string) : M json :=
  if negb (PyStr.truthy name) then
    raise (ValidationError "name is required" (Some "name"))
  else
    try_except
      (trigger <- get_trigger c name ;;
       kind <- lift (Py.get trigger "kind" JNull) ;;
       if Py.eq_str kind "mcp" then lift (Py.get trigger "triggerUrl" JNull)
       else ret JNull)
      Exn.is_ResourceNotFound
      (fun _ => ret JNull).

(** [t.get("overrides", {}).get("name") != tool_name]. *)
Definition other_tool (tool_name : string) (t : json) : res bool :=
  overrides <~ Py.get t "overrides" (JObj []) ;;
  n <~ Py.get overrides "name" JNull ;;
  Ok (negb (Py.eq_str n tool_name)).

Definition remove_tool_from_mcp_trigger (c : Client)
    (trigger_name tool_name : string) : M json :=
  if negb (PyStr.truthy trigger_name) then
    raise (ValidationError "trigger_name is required" (Some "trigger_name"))
  else if negb (PyStr.truthy tool_name) then
    raise (ValidationError "tool_name is required" (Some "tool_name"))
  else
    trigger <- get_trigger c trigger_name ;;
    kind <- lift (Py.get trigger "kind" JNull) ;;
    if negb (Py.eq_str kind "mcp") then raise (not_mcp trigger_name)
    else
      mcp_info <- lift (Py.get trigger "mcpTriggerInfo" (JObj [])) ;;
      tool_instances <- lift (Py.get mcp_info "toolInstances" (JArr [])) ;;
      items <- lift (Py.iter tool_instances) ;;
      updated_tools <- lift (filter_res (other_tool tool_name) items) ;;
      if (length updated_tools =? length items)%nat then
        raise (ResourceNotFoundError "Tool" tool_name)
      else update_mcp_trigger c trigger_name None (Some updated_tools).

(** *** MCP protocol test *)

Definition rpc (id : Z) (method : string) (params : json) : json :=
  JObj [("jsonrpc", JStr "2.0"); ("method", JStr method);
        ("params", params); ("id", JNum id)].

Definition init_request : json :=
  rpc 1 "initialize"
    (JObj [("protocolVersion", JStr "0.1.0");
           ("capabilities", JObj []);
           ("clientInfo", JObj [("name", JStr "OpsBeacon Python SDK");
                                ("version", JStr SDK_VERSION)])]).

Definition list_request : json := rpc 2 "tools/list" (JObj []).

Definition exec_request (tool_name : json) : json :=
  rpc 3 "tools/call" (JObj [("name", tool_name); ("arguments", JObj [])]).

Definition mcp_request (c : Client) (mcp_url api_token : string) (body : json)
    : Request :=
  mkRequest "POST" mcp_url (Some body) None None
    (Some [("Authorization", "Bearer " ++ api_token);
           ("Content-Type", "application/json")]).

(** One step of the exchange: [requests.post], [raise_for_status],
    [response.json()].  [inl msg] is a [requests.RequestException] with
    [str(e) = msg] (the [except] clause of each step catches it), [inr j]
    the parsed body. *)
Definition mcp_post (c : Client) (mcp_url api_token : string) (body : json)
    : M (string + json) :=
  fun st =>
    let (o, st') := transmit (mcp_request c mcp_url api_token body) st in
    match o with
    | ConnectionFailed m | TimedOut m | RequestFailed m => (Ok (inl m), st')
    | Responded r =>
        if Http.is_error_status (status_code r)
        then (Ok (inl (http_error_str r)), st')
        else
          match json_body r with
          | Some j => (Ok (inr j), st')
          | None => (Ok (inl (json_error_str r)), st')
          end
    end.

Definition error_entry (msg : string) : json := JObj [("error", JStr msg)].

Definition no_tools_entry : json :=
  JObj [("message", JStr "No tools available to execute")].

(** The initial [results] dictionary. *)
Definition results0 : Py.dict :=
  [("initialize", JNull); ("tools", JNull);
   ("execution", JNull); ("success", JBool false)].

(** Lines 1002-1004: [result.tools] when both keys are there. *)
Definition listed_tools (tools_response : json) : res json :=
  has_result <~ Py.contains "result" tools_response ;;
  if has_result then
    result <~ Py.getitem tools_response "result" ;;
    has_tools <~ Py.contains "tools" result ;;
    if has_tools then Py.getitem result "tools" else Ok (JArr [])
  else Ok (JArr []).

(** [next((t for t in tools if t["name"] == tool_name), None)]. *)
Fixpoint first_named (tool_name : string) (l : list json) : res (option json) :=
  match l with
  | [] => Ok None
  | t :: r =>
      n <~ Py.getitem t "name" ;;
      if Py.eq_str n tool_name then Ok (Some t) else first_named tool_name r
  end.

(** Lines 1011-1015: the tool to execute, for a truthy [tools]. *)
Definition select_tool (tool_name : option string) (tools : json) : res json :=
  candidate <~
    (if Py.str_truthy tool_name then
       match tool_name with
       | Some n => items <~ Py.iter tools ;; first_named n items
       | None => Ok None
       end
     else Ok None) ;;
  match candidate with
  | Some t => if Py.truthy t then Ok t else Py.getitem0 tools
  | None => Py.getitem0 tools
  end.

Definition test_mcp_protocol (c : Client) (mcp_url api_token : string)
    (tool_name : option string) : M json :=
  if negb (PyStr.truthy mcp_url) then
    raise (ValidationError "mcp_url is required" (Some "mcp_url"))
  else if negb (PyStr.truthy api_token) then
    raise (ValidationError "api_token is required" (Some "api_token"))
  else
    let post := mcp_post c mcp_url api_token in
    r1 <- post init_request ;;
    match r1 with
    | inl msg => ret (JObj (Py.store "initialize" (error_entry msg) results0))
    | inr init_response =>
        let results := Py.store "initialize" init_response results0 in
        r2 <- post list_request ;;
        match r2 with
        | inl msg => ret (JObj (Py.store "tools" (error_entry msg) results))
        | inr tools_response =>
            let results := Py.store "tools" tools_response results in
            tools <- lift (listed_tools tools_response) ;;
            if Py.truthy tools then
              tool_to_execute <- lift (select_tool tool_name tools) ;;
              if Py.truthy tool_to_execute then
                name <- lift (Py.getitem tool_to_execute "name") ;;
                r3 <- post (exec_request name) ;;
                match r3 with
                | inl msg =>
                    ret (JObj (Py.store "execution" (error_entry msg) results))
                | inr execution =>
                    let results := Py.store "execution" execution results in
                    success <- lift (Py.contains "result" execution) ;;
                    ret (JObj (Py.store "success" (JBool success) results))
                end
              else ret (JObj results)
            else ret (JObj (Py.store "execution" no_tools_entry results))
        end
    end.

(* ===================================================================== *)
(** ** The rest of the client *)
(* ===================================================================== *)

(** Two more doors to the outside: [uuid.uuid4()] rendered by [str], and
    the local write of [Path.write_bytes] ([None]: the write fails with
    [OSError]).  [response_content] is [response.content], the raw body. *)
Variable uuid4 : World -> string * World.
Variable response_content : Response -> string.
Variable write_bytes : string -> string -> World -> option World.

(** *** Resource accessors *)

Definition commands (c : Client) : M json :=
  response <- _request c "GET" "/workspace/v2/commands" None None None None ;;
  body <- lift (Http.json response) ;;
  lift (Py.get body "commands" (JArr [])).

Definition connections (c : Client) : M json :=
  response <- _request c "GET" "/workspace/v2/connections" None None None None ;;
  body <- lift (Http.json response) ;;
  lift (Py.get body "connections" (JArr [])).

Definition users (c : Client) : M json :=
  response <- _request c "GET" "/workspace/v2/users" None None None None ;;
  body <- lift (Http.json response) ;;
  lift (Py.get body "users" (JArr [])).

Definition add_user (c : Client) (user : json) : M json :=
  if negb (Py.truthy user) then
    raise (ValidationError "User data is required" (Some "user"))
  else
    response <- _request c "POST" "/workspace/v2/users" (Some user)
                  None None None ;;
    lift (Http.json response).

Definition delete_user (c : Client) (user_id : string) : M bool :=
  if negb (PyStr.truthy user_id) then
    raise (ValidationError "user_id is required" (Some "user_id"))
  else
    _ <- _request c "DELETE" ("/workspace/v2/users/" ++ user_id)
           None None None None ;;
    ret true.

Definition groups (c : Client) : M json :=
  response <- _request c "GET" "/workspace/v2/policy/group" None None None None ;;
  body <- lift (Http.json response) ;;
  lift (Py.get body "groups" (JArr [])).

Definition add_group (c : Client) (group : json) : M json :=
  if negb (Py.truthy group) then
    raise (ValidationError "Group data is required" (Some "group"))
  else
    response <- _request c "POST" "/workspace/v2/policy/group" (Some group)
                  None None None ;;
    lift (Http.json response).

Definition delete_group (c : Client) (group_name : string) : M bool :=
  if negb (PyStr.truthy group_name) then
    raise (ValidationError "group_name is required" (Some "group_name"))
  else
    _ <- _request c "DELETE" ("/workspace/v2/policy/group/" ++ group_name)
           None None None None ;;
    ret true.

Definition delete_trigger (c : Client) (name : string) : M bool :=
  if negb (PyStr.truthy name) then
    raise (ValidationError "name is required" (Some "name"))
  else
    _ <- _request c "DELETE" ("/workspace/v2/triggers/" ++ name)
           None None None None ;;
    ret true.

(** *** Files: download *)

Definition get_file_download_url (c : Client) (file_id : string) : M json :=
  if negb (PyStr.truthy file_id) then
    raise (ValidationError "file_id is required" (Some "file_id"))
  else
    response <- _request c "GET" ("/workspace/v2/file-url/" ++ file_id)
                  None None None None ;;
    result <- lift (Http.json response) ;;
    success <- lift (Py.get result "success" (JBool false)) ;;
    if negb (Py.truthy success) then
      error_msg <- lift (Py.get result "err" (JStr "Unknown error")) ;;
      raise (FileOperationError (py_str error_msg) (Some file_id)
               (Some "get_download_url"))
    else lift (Py.getitem result "url").

(** [requests.get(url)] followed by [raise_for_status()]: [inl msg] is a
    [requests.RequestException] with [str(e) = msg].  The URL is handed to
    the library as it is ([str] of it when it is not a string). *)
Definition fetch (download_url : json) : M (string + Response) :=
  fun st =>
    let (o, st') :=
      transmit (mkRequest "GET" (py_str download_url) None None None None) st in
    match o with
    | ConnectionFailed m | TimedOut m | RequestFailed m => (Ok (inl m), st')
    | Responded r =>
        if Http.is_error_status (status_code r)
        then (Ok (inl (http_error_str r)), st')
        else (Ok (inr r), st')
    end.

Definition file_download (c : Client) (file_name : string)
    (destination_path : option string) : M bool :=
  if negb (PyStr.truthy file_name) then
    raise (ValidationError "file_name is required" (Some "file_name"))
  else
    download_url <- get_file_download_url c file_name ;;
    let dest :=
      match destination_path with
      | Some p => if PyStr.truthy p then p else file_name
      | None => file_name
      end in
    fetched <- fetch download_url ;;
    match fetched with
    | inl msg =>
        raise (FileOperationError ("Failed to download file: " ++ msg)
                 (Some file_name) (Some "download"))
    | inr response =>
        fun st =>
          match write_bytes dest (response_content response) (world st) with
          | Some w => (Ok true, mkState w (sent st))
          | None => (Raise (Builtin OSError), st)
          end
    end.

(** *** Adding a tool *)

(** The tool instance [add_tool_to_mcp_trigger] builds; [count] is the
    number of tool instances the trigger has. *)
Definition new_tool (instance_id : string) (count : nat) (tool_config : json)
    : res json :=
  name <~ Py.get tool_config "name"
            (JStr ("tool_" ++ PyStr.of_Z (Z.of_nat count + 1))) ;;
  description <~ Py.get tool_config "description" (JStr "") ;;
  connection <~ Py.get tool_config "connection" (JStr "") ;;
  command <~ Py.get tool_config "command" (JStr "") ;;
  arguments <~ Py.get tool_config "arguments" (JObj []) ;;
  Ok (JObj [("instanceId", JStr instance_id);
            ("templateId", JStr instance_id);
            ("overrides", JObj [("name", name);
                                ("description", description);
                                ("connection", connection);
                                ("command", command);
                                ("argumentOverrides", arguments)])]).

Definition add_tool_to_mcp_trigger (c : Client) (trigger_name : string)
    (tool_config : json) : M json :=
  if negb (PyStr.truthy trigger_name) then
    raise (ValidationError "trigger_name is required" (Some "trigger_name"))
  else if negb (Py.truthy tool_config) then
    raise (ValidationError "tool_config is required" (Some "tool_config"))
  else
    trigger <- get_trigger c trigger_name ;;
    kind <- lift (Py.get trigger "kind" JNull) ;;
    if negb (Py.eq_str kind "mcp") then raise (not_mcp trigger_name)
    else
      mcp_info <- lift (Py.get trigger "mcpTriggerInfo" (JObj [])) ;;
      stored <- lift (Py.get mcp_info "toolInstances" (JArr [])) ;;
      tool_instances <- lift (Py.iter stored) ;;
      instance_id <- (fun st =>
                        let (id, w) := uuid4 (world st) in
                        (Ok id, mkState w (sent st))) ;;
      tool <- lift (new_tool instance_id (length tool_instances) tool_config) ;;
      update_mcp_trigger c trigger_name None
        (Some (tool_instances ++ [tool])%list).

(** *** Policies *)

Definition policies (c : Client) : M json :=
  response <- _request c "GET" "/workspace/v2/policy" None None None None ;;
  body <- lift (Http.json response) ;;
  lift (Py.get body "policies" (JArr [])).

Definition create_policy (c : Client) (name description : string)
    (cmds conns : option (list string)) : M json :=
  if negb (PyStr.truthy name) then
    raise (ValidationError "name is required" (Some "name"))
  else
    response <- _request c "POST" "/workspace/v2/policy"
                  (Some (JObj [("name", JStr name);
                               ("description", JStr description);
                               ("commands", Py.strs (or_nil cmds));
                               ("connections", Py.strs (or_nil conns))]))
                  None None None ;;
    lift (Http.json response).

Definition get_policy (c : Client) (name : string) : M json :=
  if negb (PyStr.truthy name) then
    raise (ValidationError "name is required" (Some "name"))
  else
    try_except
      (response <- _request c "GET" ("/workspace/v2/policy/" ++ name)
                     None None None None ;;
       lift (Http.json response))
      Exn.is_APIError
      (fun _ =>
         all_policies <- policies c ;;
         items <- lift (Py.iter all_policies) ;;
         found <- lift (scan_by_name name items) ;;
         match found with
         | Some policy => ret policy
         | None => raise (ResourceNotFoundError "Policy" name)
         end).

Definition delete_policy (c : Client) (name : string) : M bool :=
  if negb (PyStr.truthy name) then
    raise (ValidationError "name is required" (Some "name"))
  else
    _ <- _request c "DELETE" ("/workspace/v2/policy/" ++ name)
           None None None None ;;
    ret true.

(** *** [examples/lambda_handler.py] *)

(** [x is False]. *)
Definition is_False (j : json) : bool :=
  match j with JBool false => true | _ => false end.

(** The values of an event as [run] takes them.  [run] is modelled with
    the types of its signature, so the handler is modelled for events whose
    fields have the documented types: a string for [commandLine], [command]
    and [connection], a string or a list of strings for [arguments]. *)
Definition as_text (j : json) : option string :=
  match j with JStr s => Some s | _ => None end.

Fixpoint texts (l : list json) : list string :=
  match l with
  | [] => []
  | JStr s :: r => s :: texts r
  | _ :: r => texts r
  end.

Definition as_args (j : json) : option run_args :=
  match j with
  | JStr s => Some (ArgsStr s)
  | JArr l => Some (ArgsList (texts l))
  | _ => None
  end.

(** Lines 34-37: the answer to an event without command or connection. *)
Definition missing_parameters : json :=
  JObj [("statusCode", JNum 400);
        ("body",
         JObj [("error",
                JStr "Missing required parameters: command and connection")])].

(** Lines 45-73: what the handler makes of the response of [run]. *)
Definition respond (response : json) : res json :=
  has_error <~ Py.contains "error" response ;;
  if has_error then
    error <~ Py.getitem response "error" ;;
    Ok (JObj [("statusCode", JNum 500);
              ("body", JObj [("error", error);
                             ("message", JStr "Command execution failed")])])
  else
    success <~ Py.get response "success" JNull ;;
    if is_False success then
      detail <~ Py.get response "response" (JStr "Command execution failed") ;;
      Ok (JObj [("statusCode", JNum 400);
                ("body",
                 JObj [("error", detail);
                       ("message", JStr "Command execution was not successful");
                       ("result", response)])])
    else
      Ok (JObj [("statusCode", JNum 200);
                ("body", JObj [("message", JStr "Command executed successfully");
                               ("result", response)])]).

Definition lambda_handler (ob : Client) (event : json) : M json :=
  command_line <- lift (Py.get event "commandLine" JNull) ;;
  if Py.truthy command_line then
    response <- run ob (as_text command_line) None None None ;;
    lift (respond response)
  else
    command <- lift (Py.get event "command" (JStr "")) ;;
    connection <- lift (Py.get event "connection" (JStr "")) ;;
    arguments <- lift (Py.get event "arguments" (JArr [])) ;;
    if negb (Py.truthy command) || negb (Py.truthy connection) then
      ret missing_parameters
    else
      response <- run ob None (as_text connection) (as_text command)
                    (as_args arguments) ;;
      lift (respond response).

(* ===================================================================== *)
(** ** Vocabulary of the statements *)
(* ===================================================================== *)

(** Every element is a JSON object (a Python [dict]). *)
Definition objects (l : list json) : Prop :=
  Forall (fun t => Py.is_object t = true) l.

(** [t]'s [kind] is [K]. *)
Definition has_kind (K : string) (t : json) : bool :=
  Py.eq_str (Py.field t "kind") K.

(** [t]'s [name] is [n]. *)
Definition has_name (n : string) (t : json) : bool :=
  Py.eq_str (Py.field t "name") n.

(** The exceptions the transport layer raises: its own classes, or a
    built-in exception. *)
Definition transport_error (e : exn) : bool :=
  match e with
  | Builtin _ | AuthenticationError _ | APIError _ _ _ | RateLimitError _ _
  | ConnectionError _ | TimeoutError _ _ => true
  | _ => false
  end.

(** A pure computation that raises nothing but built-in exceptions. *)
Definition raises_builtin {A} (r : res A) : Prop :=
  forall e, r = Raise e -> exists k, e = Builtin k.

(** The direct lookup [get_trigger] starts with. *)
Definition direct_get (c : Client) (name : string) : Request :=
  mkRequest "GET" (base_url c ++ "/workspace/v2/triggers/" ++ name)
    None None None None.

(** The request of [triggers]. *)
Definition list_get (c : Client) : Request :=
  mkRequest "GET" (base_url c ++ "/workspace/v2/triggers") None None None None.

(** The [overrides] of a tool instance, [{}] when it has none. *)
Definition overrides_of (t : json) : json := Py.get_or t "overrides" (JObj []).

(** A tool instance as the data model has it: an object whose
    [overrides], when present, is an object. *)
Definition tool_shape (t : json) : bool :=
  Py.is_object t && Py.is_object (overrides_of t).

Definition tools_shaped (tools : list json) : Prop :=
  Forall (fun t => tool_shape t = true) tools.

(** The tool instance is exposed under the name [n]. *)
Definition tool_named (n : string) (t : json) : bool :=
  Py.eq_str (Py.field (overrides_of t) "name") n.

(** The non-empty values the tool instances give to an [overrides] key,
    in order, with repetitions. *)
Definition collected (key : string) (tools : list json) : list json :=
  filter Py.truthy (map (fun t => Py.field (overrides_of t) key) tools).

(** The [mcpTriggerInfo] of a trigger, [{}] when it has none, and the
    tool instances in it, [[]] when it has none. *)
Definition mcp_info_of (trigger : json) : json :=
  Py.get_or trigger "mcpTriggerInfo" (JObj []).

Definition tool_instances_of (trigger : json) : json :=
  Py.get_or (mcp_info_of trigger) "toolInstances" (JArr []).

(** The update request of [update_mcp_trigger]. *)
Definition put_request (c : Client) (name : string) (payload : json) : Request :=
  mkRequest "PUT" (base_url c ++ "/workspace/v2/triggers/" ++ name)
    (Some payload) None None None.

(** The body of [r] carries [tools] as its whole tool-instance list. *)
Definition carries_tools (tools : list json) (r : Request) : Prop :=
  exists payload,
    req_json r = Some payload
    /\ Py.field (Py.field payload "mcpTriggerInfo") "toolInstances" = JArr tools.

(** The creation request of [create_mcp_trigger]. *)
Definition post_trigger (c : Client) (payload : json) : Request :=
  mkRequest "POST" (base_url c ++ "/workspace/v2/triggers")
    (Some payload) None None None.

(** A tool instance with the given connection and command. *)
Definition tool_with (connection command : string) : json :=
  JObj [("overrides", JObj [("connection", JStr connection);
                            ("command", JStr command)])].

(** The tool instances kept when the tool [n] is removed. *)
Definition without_tool (n : string) (tools : list json) : list json :=
  filter (fun t => negb (tool_named n t)) tools.

(** The upload request for content held in memory. *)
Definition content_upload (c : Client) (fname content : string) : Request :=
  mkRequest "POST" (base_url c ++ "/workspace/v2/files") None
    (Some [("filename", fname)])
    (Some [("file", mkUpload fname (Content content) "text/csv")]) None.

(** The execution request of [run] in structured mode. *)
Definition run_request (c : Client) (connection command : string)
    (tokens : list string) : Request :=
  mkRequest "POST" (base_url c ++ "/trigger/v1/api")
    (Some (JObj [("command", JStr command); ("connection", JStr connection);
                 ("arguments", Py.strs tokens)]))
    None None None.

(** The character [q] does not occur in [w]. *)
Fixpoint lacks (q : ascii) (w : string) : bool :=
  match w with
  | EmptyString => true
  | String c r => negb (Ascii.eqb c q) && lacks q r
  end.

(** A listed tool as the protocol has it: an object with a [name]. *)
Definition named_tool (t : json) : bool :=
  match t with
  | JObj d => match Py.lookup "name" d with Some _ => true | None => false end
  | _ => false
  end.

(** The object has the key [k]. *)
Definition has_key (k : string) (j : json) : bool :=
  match j with
  | JObj d => match Py.lookup k d with Some _ => true | None => false end
  | _ => false
  end.

(** The tool the tester is to execute: the first one with the requested
    name when a (non-empty) name is given and some tool has it, else the
    first listed. *)
Definition chosen_tool (tool_name : option string) (t0 : json) (ts : list json)
    : json :=
  match tool_name with
  | Some n =>
      if PyStr.truthy n then
        match find (has_name n) (t0 :: ts) with
        | Some t => t
        | None => t0
        end
      else t0
  | None => t0
  end.

(** The [results] dictionary returned. *)
Definition results_of (initialize tools execution : json) (success : bool) : json :=
  JObj [("initialize", initialize); ("tools", tools);
        ("execution", execution); ("success", JBool success)].

(** A request made with [requests] directly fails, with [str(e) = msg]:
    the library raises one of its exceptions, or the status answered is
    one of 400 to 599, on which [raise_for_status] raises. *)
Inductive request_fails : outcome -> string -> Prop :=
| fails_connection (m : string) : request_fails (ConnectionFailed m) m
| fails_timeout (m : string) : request_fails (TimedOut m) m
| fails_other (m : string) : request_fails (RequestFailed m) m
| fails_status (r : Response) :
    400 <= status_code r < 600 ->
    request_fails (Responded r) (http_error_str r).

(** The request is answered by [r], whose status is not an error. *)
Definition delivers (o : outcome) (r : Response) : Prop :=
  o = Responded r /\ (status_code r < 400 \/ 600 <= status_code r).

(** A step of the protocol test fails: the request fails, or the body
    answered is not JSON. *)
Definition step_fails (o : outcome) (msg : string) : Prop :=
  request_fails o msg
  \/ exists r, delivers o r /\ json_body r = None /\ msg = json_error_str r.

(** A step of the protocol test is answered with the JSON value [j]. *)
Definition step_answers (o : outcome) (j : json) : Prop :=
  exists r, delivers o r /\ json_body r = Some j.

(** A JSON-RPC call as the protocol test makes it: the call is posted
    to the endpoint as JSON, with the bearer token. *)
Definition rpc_post (mcp_url api_token : string) (id : Z) (method : string)
    (params : json) : Request :=
  mkRequest "POST" mcp_url
    (Some (JObj [("jsonrpc", JStr "2.0"); ("method", JStr method);
                 ("params", params); ("id", JNum id)]))
    None None
    (Some [("Authorization", "Bearer " ++ api_token);
           ("Content-Type", "application/json")]).

(** The three calls of the protocol test; the tool is called with empty
    arguments. *)
Definition initialize_post (mcp_url api_token : string) : Request :=
  rpc_post mcp_url api_token 1 "initialize"
    (JObj [("protocolVersion", JStr "0.1.0");
           ("capabilities", JObj []);
           ("clientInfo", JObj [("name", JStr "OpsBeacon Python SDK");
                                ("version", JStr "1.3.0")])]).

Definition tools_list_post (mcp_url api_token : string) : Request :=
  rpc_post mcp_url api_token 2 "tools/list" (JObj []).

Definition tools_call_post (mcp_url api_token : string) (tool : json) : Request :=
  rpc_post mcp_url api_token 3 "tools/call"
    (JObj [("name", tool); ("arguments", JObj [])]).

(** The tools a tools/list answer announces: the [tools] of its
    [result], no tool when the answer has no [result] or the result no
    [tools]. *)
Inductive discovers : json -> json -> Prop :=
| discovers_tools (d r : Py.dict) (tools : json) :
    Py.lookup "result" d = Some (JObj r) ->
    Py.lookup "tools" r = Some tools ->
    discovers (JObj d) tools
| discovers_no_result (d : Py.dict) :
    Py.lookup "result" d = None ->
    discovers (JObj d) (JArr [])
| discovers_no_tools (d r : Py.dict) :
    Py.lookup "result" d = Some (JObj r) ->
    Py.lookup "tools" r = None ->
    discovers (JObj d) (JArr []).


(** The request [_request] hands to the transport. *)
Definition api_request (c : Client) (method endpoint : string)
    (json_data : option json) : Request :=
  mkRequest method (base_url c ++ endpoint) json_data None None None.

(** The message field of an error body: [err], else [error], else the
    raw text. *)
Definition error_field (d : Py.dict) (raw : string) : json :=
  match Py.lookup "err" d with
  | Some v => v
  | None =>
      match Py.lookup "error" d with
      | Some v => v
      | None => JStr raw
      end
  end.

(** The call raises a validation error and leaves the state as it was:
    nothing was sent. *)
Definition rejected {A} (m : M A) (st : state) : Prop :=
  exists msg field, m st = (Raise (ValidationError msg field), st).

(** [f] is a list accessor: one GET to [endpoint], and the value under
    [key] of the JSON object returned, the empty list when the key is
    missing; a failure of the request is passed on as it is. *)
Definition reads_array (f : Client -> M json) (endpoint key : string) : Prop :=
  forall c st,
    sent (snd (f c st)) = (sent st ++ [api_request c "GET" endpoint None])%list
    /\ (forall r st' d,
          _request c "GET" endpoint None None None None st = (Ok r, st') ->
          json_body r = Some (JObj d) ->
          f c st = (Ok (match Py.lookup key d with
                        | Some v => v
                        | None => JArr []
                        end), st'))
    /\ (forall e st',
          _request c "GET" endpoint None None None None st = (Raise e, st') ->
          f c st = (Raise e, st')).

(** [f] deletes by identifier: for a non-empty identifier, one DELETE to
    [prefix] followed by it; [True] for every response the transport
    layer accepts, whatever its body; an error of the request is passed
    on as it is. *)
Definition deletes (f : Client -> string -> M bool) (prefix : string) : Prop :=
  forall c id st,
    PyStr.truthy id = true ->
    sent (snd (f c id st))
    = (sent st ++ [api_request c "DELETE" (prefix ++ id) None])%list
    /\ (forall r st',
          _request c "DELETE" (prefix ++ id) None None None None st = (Ok r, st') ->
          f c id st = (Ok true, st'))
    /\ (forall e st',
          _request c "DELETE" (prefix ++ id) None None None None st
          = (Raise e, st') ->
          f c id st = (Raise e, st')).

(** Where [file_download] writes. *)
Definition download_destination (file_name : string)
    (destination_path : option string) : string :=
  match destination_path with
  | Some p => if PyStr.truthy p then p else file_name
  | None => file_name
  end.

(** The validation error of [run]. *)
Definition run_invalid : exn :=
  ValidationError
    "Either command_text or both connection and command are required" None.

(** The execution request of [run] in free-text mode. *)
Definition text_request (c : Client) (txt : string) : Request :=
  api_request c "POST" "/trigger/v1/api" (Some (JObj [("commandLine", JStr txt)])).

(** The success envelope of [create_mcp_trigger]. *)
Definition created (name : string) (url api_token : json) : json :=
  JObj [("success", JBool true);
        ("name", JStr name);
        ("url", url);
        ("apiToken", api_token);
        ("message", JStr ("MCP trigger '" ++ name ++ "' created successfully"))].

(** The upload request for a local file. *)
Definition path_upload (c : Client) (fname path : string) : Request :=
  mkRequest "POST" (base_url c ++ "/workspace/v2/files") None
    (Some [("filename", fname)])
    (Some [("file", mkUpload fname (OpenFile path) "application/octet-stream")])
    None.

(** The name a local file is uploaded under: the one given, else the last
    component of the path. *)
Definition upload_name (file_name : option string) (path : string) : string :=
  match file_name with
  | Some fname => if PyStr.truthy fname then fname else path_name path
  | None => path_name path
  end.

(** The [overrides] of the tool instance built from a tool configuration
    with the given fields, for a trigger that has [count] tools. *)
Definition new_overrides (count : nat) (cfg : Py.dict) : Py.dict :=
  [("name", Py.get_or (JObj cfg) "name"
              (JStr ("tool_" ++ PyStr.of_Z (Z.of_nat count + 1))));
   ("description", Py.get_or (JObj cfg) "description" (JStr ""));
   ("connection", Py.get_or (JObj cfg) "connection" (JStr ""));
   ("command", Py.get_or (JObj cfg) "command" (JStr ""));
   ("argumentOverrides", Py.get_or (JObj cfg) "arguments" (JObj []))].

(** A character [shlex] gives no meaning to: not whitespace, not a quote,
    not the escape character. *)
Definition plain_char (ch : ascii) : bool :=
  negb (Shlex.is_whitespace ch || Shlex.is_quote ch || Shlex.is_escape ch).

Fixpoint plain (w : string) : bool :=
  match w with
  | EmptyString => true
  | String ch r => plain_char ch && plain r
  end.

(** A token that needs no quoting: not empty, plain characters only. *)
Definition plain_token (w : string) : bool := PyStr.truthy w && plain w.

(** [" ".join(tokens)]. *)
Fixpoint join_spaces (tokens : list string) : string :=
  match tokens with
  | [] => EmptyString
  | [t] => t
  | t :: r => (t ++ String " "%char (join_spaces r))%string
  end.

(** The direct lookup [get_policy] starts with, and the request of
    [policies]. *)
Definition direct_get_policy (c : Client) (name : string) : Request :=
  api_request c "GET" ("/workspace/v2/policy/" ++ name) None.

Definition list_get_policies (c : Client) : Request :=
  api_request c "GET" "/workspace/v2/policy" None.

(** A value of type [Optional[str]]. *)
Definition optional_text (j : json) : bool :=
  match j with JNull | JStr _ => true | _ => false end.

Definition is_text (j : json) : bool :=
  match j with JStr _ => true | _ => false end.

(** A value [run] takes as [args]: nothing, a string, a list of strings. *)
Definition optional_args (j : json) : bool :=
  match j with
  | JNull | JStr _ => true
  | JArr l => forallb is_text l
  | _ => false
  end.

(** An event of the structure the handler documents: each field absent,
    null, or of its type. *)
Definition documented (event : Py.dict) : bool :=
  optional_text (Py.field (JObj event) "commandLine")
  && optional_text (Py.field (JObj event) "command")
  && optional_text (Py.field (JObj event) "connection")
  && optional_args (Py.field (JObj event) "arguments").

(** The answer of the handler: a status code and a body. *)
Definition answer (status : Z) (body : Py.dict) : json :=
  JObj [("statusCode", JNum status); ("body", JObj body)].

(** [m] posts [payload] to [endpoint]: one POST carrying it; the decoded
    body of the answer is returned as it is; an error of the request is
    passed on as it is. *)
Definition posts (m : M json) (c : Client) (endpoint : string) (payload : json)
    : Prop :=
  forall st,
    sent (snd (m st))
    = (sent st ++ [api_request c "POST" endpoint (Some payload)])%list
    /\ (forall r st',
          _request c "POST" endpoint (Some payload) None None None st
          = (Ok r, st') ->
          m st = (Http.json r, st'))
    /\ (forall e st',
          _request c "POST" endpoint (Some payload) None None None st
          = (Raise e, st') ->
          m st = (Raise e, st')).

(* ===================================================================== *)
(** ** Properties of the transport layer *)
(* ===================================================================== *)

Ltac unfold_monad := unfold bind, lift, ret, raise, try_except in *.

Lemma get_object (j : json) (k : string) :
  Py.is_object j = true -> Py.get j k JNull = Ok (Py.field j k).
Proof. destruct j; simpl; intros H; try discriminate; reflexivity. Qed.

Lemma get_ok_object (j : json) (k : string) (d v : json) :
  Py.get j k d = Ok v -> Py.is_object j = true.
Proof. destruct j; simpl; intros H; try discriminate; reflexivity. Qed.

Lemma transmit_sent (req : Request) (st : state) :
  sent (snd (transmit req st)) = (sent st ++ [req])%list.
Proof. unfold transmit. destruct (send req (world st)); reflexivity. Qed.

Lemma _handle_response_error_class (r : Response) (e : exn) :
  _handle_response_error r = Raise e -> transport_error e = true.
Proof.
  unfold _handle_response_error, res_bind, Http.json.
  repeat match goal with
         | |- context [if ?b then _ else _] => destruct b
         | |- context [match ?x with _ => _ end] => destruct x eqn:?
         end; simpl; intros H; inversion H; subst; try reflexivity.
  destruct (json_body r) as [j|]; simpl in *;
    [ destruct j; simpl in *; try discriminate; inversion Heqr0; reflexivity
    | discriminate ].
Qed.

(** [_request] hands exactly one request to the transport. *)
Lemma _request_sent (c : Client) (m e : string) j d f h (st : state) :
  sent (snd (_request c m e j d f h st))
  = (sent st ++ [mkRequest m (base_url c ++ e) j d f h])%list.
Proof.
  unfold _request.
  pose proof (transmit_sent (mkRequest m (base_url c ++ e) j d f h) st) as T.
  destruct (transmit _ st) as [o st']; simpl in T.
  destruct o; simpl; auto.
  destruct (Http.ok r); simpl; auto.
  destruct (_handle_response_error r); simpl; auto.
Qed.

Lemma _request_raises (c : Client) (m e : string) j d f h (st st' : state) x :
  _request c m e j d f h st = (Raise x, st') -> transport_error x = true.
Proof.
  unfold _request.
  destruct (transmit _ st) as [o st1].
  destruct o; try (intros H; inversion H; reflexivity).
  destruct (Http.ok r); try discriminate.
  destruct (_handle_response_error r) eqn:E; intros H; inversion H; subst.
  eapply _handle_response_error_class; eauto.
Qed.

(** A 404 answer surfaces as an [APIError] tagged not-found. *)
Lemma _request_404 (c : Client) (m e : string) j d f h (st : state) r w :
  send (mkRequest m (base_url c ++ e) j d f h) (world st) = (Responded r, w) ->
  status_code r = 404 ->
  fst (_request c m e j d f h st)
  = Raise (APIError "Resource not found" (Some 404) (Some (text r))).
Proof.
  intros S H. unfold _request, transmit. rewrite S.
  unfold Http.ok, Http.is_error_status, _handle_response_error.
  rewrite H. reflexivity.
Qed.

(** *** Rate limiting (status 429) *)

Lemma to_int_truthy (v : string) (n : Z) :
  PyStr.to_int v = Some n -> PyStr.truthy v = true.
Proof. destruct v; [discriminate | reflexivity]. Qed.

(** A numeric [Retry-After] is carried by the error. *)
Lemma rate_limit_numeric (r : Response) (v : string) (n : Z) :
  status_code r = 429 ->
  Http.header "Retry-After" (headers r) = Some v ->
  PyStr.to_int v = Some n ->
  _handle_response_error r
  = Raise (RateLimitError Exn.default_rate_message (Some n)).
Proof.
  intros S H I. unfold _handle_response_error.
  rewrite S, H, I, (to_int_truthy _ _ I). reflexivity.
Qed.

(** No header, or an empty one: the error carries no delay. *)
Lemma rate_limit_absent (r : Response) :
  status_code r = 429 ->
  Http.header "Retry-After" (headers r) = None
  \/ Http.header "Retry-After" (headers r) = Some "" ->
  _handle_response_error r
  = Raise (RateLimitError Exn.default_rate_message None).
Proof.
  intros S [H|H]; unfold _handle_response_error; rewrite S, H; reflexivity.
Qed.

(** A header that is neither empty nor an integer literal: [int()] raises
    and no rate-limit error is built. *)
Lemma rate_limit_non_numeric (r : Response) (v : string) :
  status_code r = 429 ->
  Http.header "Retry-After" (headers r) = Some v ->
  PyStr.truthy v = true ->
  PyStr.to_int v = None ->
  _handle_response_error r = Raise (Builtin ValueError).
Proof.
  intros S H T I. unfold _handle_response_error.
  rewrite S, H, T, I. reflexivity.
Qed.

(** C1.  A 429 response whose [Retry-After] header is an HTTP date (not a
    number) does not produce a rate-limit error with [retry_after] unset:
    [int()] fails on the header and [ValueError] leaves the handler.  The
    same response with [Retry-After: 60] gives the rate-limit error with
    [retry_after = 60], and without the header the error with
    [retry_after] unset. *)
Theorem rate_limit_http_date_escapes :
  _handle_response_error
    (mkResponse 429 [("Retry-After", "Wed, 21 Oct 2015 07:28:00 GMT")] "" None)
  = Raise (Builtin ValueError)
  /\ _handle_response_error (mkResponse 429 [("Retry-After", "60")] "" None)
     = Raise (RateLimitError Exn.default_rate_message (Some 60))
  /\ _handle_response_error (mkResponse 429 [] "" None)
     = Raise (RateLimitError Exn.default_rate_message None).
Proof. repeat split; vm_compute; reflexivity. Qed.

(* ===================================================================== *)
(** ** Listing and fetching triggers *)
(* ===================================================================== *)

Lemma filter_res_kind (K : string) (l : list json) :
  objects l -> filter_res (kind_is K) l = Ok (filter (has_kind K) l).
Proof.
  induction 1 as [|t l Ht _ IH]; simpl; [reflexivity|].
  unfold kind_is at 1. rewrite (get_object _ _ Ht). simpl.
  rewrite IH. simpl. reflexivity.
Qed.

Lemma scan_by_name_find (n : string) (l : list json) :
  objects l -> scan_by_name n l = Ok (find (has_name n) l).
Proof.
  induction 1 as [|t l Ht _ IH]; simpl; [reflexivity|].
  rewrite (get_object _ _ Ht). simpl. unfold has_name at 1.
  destruct (Py.eq_str (Py.field t "name") n); auto.
Qed.

(** C8 (as amended).  For a non-empty kind [K], [triggers(kind=K)] is the
    list [triggers()] returns, filtered to the entries whose [kind] is
    [K], in the same order; [mcp_triggers()] is [triggers(kind="mcp")].
    The empty kind applies no filter: [triggers(kind="")] returns every
    trigger, and behaves as [triggers()] whatever the service answers. *)
Theorem triggers_kind_filter (c : Client) (K : string) (st st' : state)
    (items : list json) :
  triggers c None st = (Ok (JArr items), st') ->
  objects items ->
  (PyStr.truthy K = true ->
   triggers c (Some K) st = (Ok (JArr (filter (has_kind K) items)), st'))
  /\ triggers c (Some "") st = (Ok (JArr items), st')
  /\ (forall s, triggers c (Some "") s = triggers c None s)
  /\ mcp_triggers c st = triggers c (Some "mcp") st.
Proof.
  intros Hall Hobj.
  assert (E : forall s, triggers c (Some "") s = triggers c None s)
    by (intros s; reflexivity).
  split; [|split; [rewrite E; exact Hall | split; [exact E | reflexivity]]].
  intros HK. unfold triggers in *. unfold_monad. rewrite HK.
  destruct (_request c "GET" "/workspace/v2/triggers" None None None None st)
    as [[response|e] st1]; [|discriminate].
  destruct (Http.json response) as [body|e]; [|discriminate].
  destruct (Py.get body "triggers" (JArr [])) as [all|e]; [|discriminate].
  inversion Hall; subst. simpl.
  rewrite (filter_res_kind K items Hobj). reflexivity.
Qed.

Lemma get_raises_builtin (j : json) (k : string) (d : json) :
  raises_builtin (Py.get j k d).
Proof. intros e; destruct j; simpl; intros H; inversion H; eauto. Qed.

Lemma json_raises_builtin (r : Response) : raises_builtin (Http.json r).
Proof.
  intros e; unfold Http.json; destruct (json_body r); intros H; inversion H; eauto.
Qed.

Lemma iter_raises_builtin (j : json) : raises_builtin (Py.iter j).
Proof. intros e; destruct j; simpl; intros H; inversion H; eauto. Qed.

Lemma filter_res_raises_builtin {A} (p : A -> res bool) (l : list A) :
  (forall x, raises_builtin (p x)) -> raises_builtin (filter_res p l).
Proof.
  intros Hp. induction l as [|x l IH]; intros e; simpl; [discriminate|].
  destruct (p x) eqn:E; simpl.
  - destruct (filter_res p l) eqn:F; simpl; [discriminate|].
    intros H; inversion H; subst. apply IH. reflexivity.
  - intros H; inversion H; subst. eapply Hp; eauto.
Qed.

Lemma kind_is_raises_builtin (K : string) (t : json) : raises_builtin (kind_is K t).
Proof.
  intros e. unfold kind_is. destruct (Py.get t "kind" JNull) eqn:E; simpl.
  - discriminate.
  - intros H; inversion H; subst. eapply get_raises_builtin; eauto.
Qed.

Lemma scan_by_name_raises_builtin (n : string) (l : list json) :
  raises_builtin (scan_by_name n l).
Proof.
  induction l as [|t l IH]; intros e; simpl; [discriminate|].
  destruct (Py.get t "name" JNull) eqn:E; simpl.
  - destruct (Py.eq_str a n); [discriminate | apply IH].
  - intros H; inversion H; subst. eapply get_raises_builtin; eauto.
Qed.

Lemma builtin_transport (e : exn) :
  (exists k, e = Builtin k) -> transport_error e = true.
Proof. intros [k ->]; reflexivity. Qed.

(** [triggers] sends its one request, whatever the outcome. *)
Lemma triggers_sent (c : Client) (kind : option string) (st : state) :
  sent (snd (triggers c kind st)) = (sent st ++ [list_get c])%list.
Proof.
  unfold triggers. unfold_monad.
  pose proof (_request_sent c "GET" "/workspace/v2/triggers" None None None None st) as S.
  destruct (_request c "GET" "/workspace/v2/triggers" None None None None st)
    as [[response|e] st1]; simpl in S; [|exact S].
  destruct (Http.json response); [|exact S].
  destruct (Py.get _ _ _); [|exact S].
  destruct kind as [k|]; [|exact S].
  destruct (PyStr.truthy k); [|exact S].
  destruct (Py.iter _); [|exact S].
  destruct (filter_res _ _); exact S.
Qed.

Lemma triggers_raises (c : Client) (kind : option string) (st st' : state) x :
  triggers c kind st = (Raise x, st') -> transport_error x = true.
Proof.
  unfold triggers. unfold_monad.
  destruct (_request c "GET" "/workspace/v2/triggers" None None None None st)
    as [[response|e] st1] eqn:R.
  - destruct (Http.json response) eqn:J.
    + destruct (Py.get a "triggers" (JArr [])) eqn:G.
      * destruct kind as [k|]; [|discriminate].
        destruct (PyStr.truthy k); [|discriminate].
        destruct (Py.iter a0) eqn:I.
        -- destruct (filter_res (kind_is k) a1) eqn:F; [discriminate|].
           intros H; inversion H; subst. apply builtin_transport.
           eapply filter_res_raises_builtin; eauto using kind_is_raises_builtin.
        -- intros H; inversion H; subst. apply builtin_transport.
           eapply iter_raises_builtin; eauto.
      * intros H; inversion H; subst. apply builtin_transport.
        eapply get_raises_builtin; eauto.
    + intros H; inversion H; subst. apply builtin_transport.
      eapply json_raises_builtin; eauto.
  - intros H; inversion H; subst. eapply _request_raises; eauto.
Qed.

(** The scan of the fallback, as a function of what [triggers()] gave. *)
Lemma get_trigger_eq (c : Client) (name : string) (st : state) :
  PyStr.truthy name = true ->
  get_trigger c name st =
  match _request c "GET" ("/workspace/v2/triggers/" ++ name)
          None None None None st with
  | (Ok response, st1) => (Http.json response, st1)
  | (Raise e, st1) =>
      if Exn.is_APIError e then
        match triggers c None st1 with
        | (Ok all, st2) =>
            (match Py.iter all with
             | Ok items =>
                 match scan_by_name name items with
                 | Ok (Some t) => Ok t
                 | Ok None => Raise (ResourceNotFoundError "Trigger" name)
                 | Raise x => Raise x
                 end
             | Raise x => Raise x
             end, st2)
        | (Raise x, st2) => (Raise x, st2)
        end
      else (Raise e, st1)
  end.
Proof.
  intros Hn. unfold get_trigger. rewrite Hn. simpl. unfold_monad.
  destruct (_request c "GET" _ None None None None st) as [[response|e] st1].
  - destruct (Http.json response) eqn:J; [reflexivity|].
    destruct (json_raises_builtin _ _ J) as [k ->]. reflexivity.
  - destruct (Exn.is_APIError e); [|reflexivity].
    destruct (triggers c None st1) as [[all|x] st2]; [|reflexivity].
    destruct (Py.iter all) as [items|x]; [|reflexivity].
    destruct (scan_by_name name items) as [[t|]|x]; reflexivity.
Qed.

(** [get_trigger] only reads: the direct GET, then at most the listing. *)
Lemma get_trigger_sent (c : Client) (name : string) (st : state) :
  exists l, sent (snd (get_trigger c name st)) = (sent st ++ l)%list
            /\ Forall (fun r => Http.is_GET r = true) l
            /\ (PyStr.truthy name = true -> exists rest, l = direct_get c name :: rest).
Proof.
  destruct (PyStr.truthy name) eqn:Hn.
  - rewrite (get_trigger_eq c name st Hn).
    pose proof (_request_sent c "GET" ("/workspace/v2/triggers/" ++ name)
                  None None None None st) as S.
    destruct (_request c "GET" _ None None None None st) as [[response|e] st1];
      simpl in S.
    + exists [direct_get c name]. simpl. repeat split; eauto.
    + destruct (Exn.is_APIError e).
      * pose proof (triggers_sent c None st1) as T.
        destruct (triggers c None st1) as [[all|x] st2]; simpl in T |- *;
          exists [direct_get c name; list_get c];
          (split; [rewrite T, S, <- app_assoc; reflexivity|]);
          repeat split; eauto.
      * exists [direct_get c name]. simpl. repeat split; eauto.
  - exists []. unfold get_trigger. rewrite Hn. simpl.
    rewrite app_nil_r. repeat split; auto. discriminate.
Qed.

Lemma get_trigger_not_found (c : Client) (name : string) (st st' : state) ty id :
  PyStr.truthy name = true ->
  get_trigger c name st = (Raise (ResourceNotFoundError ty id), st') ->
  ty = "Trigger" /\ id = name /\
  exists e st1 all items,
    _request c "GET" ("/workspace/v2/triggers/" ++ name) None None None None st
    = (Raise e, st1)
    /\ Exn.is_APIError e = true
    /\ triggers c None st1 = (Ok all, st')
    /\ Py.iter all = Ok items
    /\ scan_by_name name items = Ok None.
Proof.
  intros Hn. rewrite (get_trigger_eq c name st Hn).
  destruct (_request c "GET" _ None None None None st) as [[response|e] st1] eqn:R.
  - intros H; inversion H; subst.
    destruct (json_raises_builtin response _ H1); discriminate.
  - destruct (Exn.is_APIError e) eqn:A.
    + destruct (triggers c None st1) as [[all|x] st2] eqn:T.
      * destruct (Py.iter all) as [items|x] eqn:I.
        -- destruct (scan_by_name name items) as [[t|]|x] eqn:Sc;
             intros H; inversion H; subst.
           ++ repeat split; auto. exists e, st1, all, items. auto.
           ++ destruct (scan_by_name_raises_builtin _ _ _ Sc); discriminate.
        -- intros H; inversion H; subst.
           destruct (iter_raises_builtin _ _ I); discriminate.
      * intros H; inversion H; subst.
        apply triggers_raises in T. discriminate.
    + intros H; inversion H; subst.
      apply _request_raises in R. discriminate.
Qed.

(** C5.  For a non-empty name, [get_trigger] starts with the direct GET
    by name and returns its body when it succeeds; when that GET fails
    with an API error (a 404 answer is one), it lists all triggers and
    returns the first entry with that name, or raises resource-not-found
    for ("Trigger", name) when the list has none; and resource-not-found
    is raised in no other situation. *)
Theorem get_trigger_fallback (c : Client) (name : string) (st : state) :
  PyStr.truthy name = true ->
  (exists rest,
     sent (snd (get_trigger c name st)) = (sent st ++ direct_get c name :: rest)%list)
  /\ (forall response st1,
        _request c "GET" ("/workspace/v2/triggers/" ++ name)
          None None None None st = (Ok response, st1) ->
        get_trigger c name st = (Http.json response, st1))
  /\ (forall r w,
        send (direct_get c name) (world st) = (Responded r, w) ->
        status_code r = 404 ->
        exists e,
          fst (_request c "GET" ("/workspace/v2/triggers/" ++ name)
                 None None None None st) = Raise e
          /\ Exn.is_APIError e = true)
  /\ (forall e st1 items st2,
        _request c "GET" ("/workspace/v2/triggers/" ++ name)
          None None None None st = (Raise e, st1) ->
        Exn.is_APIError e = true ->
        triggers c None st1 = (Ok (JArr items), st2) ->
        objects items ->
        get_trigger c name st
        = (match find (has_name name) items with
           | Some t => Ok t
           | None => Raise (ResourceNotFoundError "Trigger" name)
           end, st2))
  /\ (forall ty id st',
        get_trigger c name st = (Raise (ResourceNotFoundError ty id), st') ->
        ty = "Trigger" /\ id = name /\
        exists e st1 all items,
          _request c "GET" ("/workspace/v2/triggers/" ++ name)
            None None None None st = (Raise e, st1)
          /\ Exn.is_APIError e = true
          /\ triggers c None st1 = (Ok all, st')
          /\ Py.iter all = Ok items
          /\ scan_by_name name items = Ok None).
Proof.
  intros Hn. repeat apply conj.
  - destruct (get_trigger_sent c name st) as (l & S & _ & F).
    destruct (F Hn) as [rest ->]. eauto.
  - intros response st1 R. rewrite (get_trigger_eq c name st Hn), R. reflexivity.
  - intros r w S H. eexists. split.
    + eapply _request_404; eauto.
    + reflexivity.
  - intros e st1 items st2 R A T O.
    rewrite (get_trigger_eq c name st Hn), R, A, T. simpl.
    rewrite (scan_by_name_find name items O).
    destruct (find (has_name name) items); reflexivity.
  - intros ty id st' H. eapply get_trigger_not_found; eauto.
Qed.

(** C10.  For a non-empty name, [get_mcp_trigger_url] never raises
    resource-not-found: it returns [None] when [get_trigger] raises it and
    when the trigger fetched is not of kind "mcp", and the [triggerUrl]
    field ([None] when absent) of a trigger of kind "mcp"; a result other
    than [None] is the [triggerUrl] of such a trigger. *)
Theorem get_mcp_trigger_url_total (c : Client) (name : string) (st : state) :
  PyStr.truthy name = true ->
  (forall ty id,
     fst (get_mcp_trigger_url c name st) <> Raise (ResourceNotFoundError ty id))
  /\ (forall ty id st1,
        get_trigger c name st = (Raise (ResourceNotFoundError ty id), st1) ->
        get_mcp_trigger_url c name st = (Ok JNull, st1))
  /\ (forall t st1,
        get_trigger c name st = (Ok t, st1) ->
        Py.is_object t = true ->
        get_mcp_trigger_url c name st
        = (Ok (if has_kind "mcp" t then Py.field t "triggerUrl" else JNull), st1))
  /\ (forall v st1,
        get_mcp_trigger_url c name st = (Ok v, st1) ->
        v <> JNull ->
        exists t,
          get_trigger c name st = (Ok t, st1)
          /\ has_kind "mcp" t = true
          /\ v = Py.field t "triggerUrl").
Proof.
  intros Hn. unfold get_mcp_trigger_url. rewrite Hn. simpl. unfold_monad.
  destruct (get_trigger c name st) as [[t|e] st1] eqn:G.
  - destruct (Py.get t "kind" JNull) as [kind|e] eqn:K.
    + pose proof (get_ok_object _ _ _ _ K) as Ot.
      rewrite (get_object _ _ Ot) in K. inversion K; subst kind.
      unfold has_kind.
      destruct (Py.eq_str (Py.field t "kind") "mcp") eqn:E.
      * rewrite (get_object _ _ Ot). simpl. repeat apply conj.
        -- intros ty id; discriminate.
        -- intros ty id st2 H; discriminate.
        -- intros t' st2 H _. inversion H; subst. rewrite E. reflexivity.
        -- intros v st2 H Hv. inversion H; subst. exists t. auto.
      * simpl. repeat apply conj.
        -- intros ty id; discriminate.
        -- intros ty id st2 H; discriminate.
        -- intros t' st2 H _. inversion H; subst. rewrite E. reflexivity.
        -- intros v st2 H Hv. inversion H; subst. congruence.
    + destruct (get_raises_builtin _ _ _ _ K) as [k ->]. simpl.
      repeat apply conj.
      * intros ty id; discriminate.
      * intros ty id st2 H; discriminate.
      * intros t' st2 H Ot. inversion H; subst.
        rewrite (get_object _ _ Ot) in K. discriminate.
      * intros v st2 H; discriminate.
  - destruct (Exn.is_ResourceNotFound e) eqn:E; simpl; repeat apply conj.
    + intros ty id; discriminate.
    + intros ty id st2 H. inversion H; subst. reflexivity.
    + intros t' st2 H; discriminate.
    + intros v st2 H Hv. inversion H; subst. congruence.
    + intros ty id H. inversion H; subst. discriminate.
    + intros ty id st2 H. inversion H; subst. discriminate.
    + intros t' st2 H; discriminate.
    + intros v st2 H; discriminate.
Qed.

(* ===================================================================== *)
(** ** Tool instances, [commands] and [connections] *)
(* ===================================================================== *)

Lemma lookup_store_same (k : string) (v : json) (d : Py.dict) :
  Py.lookup k (Py.store k v d) = Some v.
Proof.
  induction d as [|[k' v'] d IH]; simpl.
  - rewrite String.eqb_refl. reflexivity.
  - destruct (String.eqb k' k) eqn:E; simpl; rewrite E; auto.
Qed.

Lemma lookup_store_other (k k' : string) (v : json) (d : Py.dict) :
  k' <> k -> Py.lookup k' (Py.store k v d) = Py.lookup k' d.
Proof.
  intros N. induction d as [|[k0 v0] d IH]; simpl.
  - destruct (String.eqb k k') eqn:E; [|reflexivity].
    apply String.eqb_eq in E. congruence.
  - destruct (String.eqb k0 k) eqn:E; simpl.
    + apply String.eqb_eq in E. subst k0.
      destruct (String.eqb k k') eqn:E'; [|reflexivity].
      apply String.eqb_eq in E'. congruence.
    + destruct (String.eqb k0 k'); auto.
Qed.

Lemma get_or_object (j : json) (k : string) (d : json) :
  Py.is_object j = true -> Py.get j k d = Ok (Py.get_or j k d).
Proof. destruct j; simpl; intros H; try discriminate; reflexivity. Qed.

Lemma getitem_truthy (o : json) (k : string) :
  Py.is_object o = true -> Py.truthy (Py.field o k) = true ->
  Py.getitem o k = Ok (Py.field o k).
Proof.
  destruct o; simpl; intros H; try discriminate.
  destruct (Py.lookup k fields); simpl; [reflexivity | discriminate].
Qed.

(** On well-shaped tool instances the loop completes, and gathers the
    truthy values in order. *)
Lemma collect_shaped (tools cs ns : list json) :
  tools_shaped tools ->
  collect tools cs ns
  = Ok ((cs ++ collected "command" tools)%list,
        (ns ++ collected "connection" tools)%list).
Proof.
  intros H. revert cs ns. induction H as [|t tools Ht _ IH]; intros cs ns.
  - simpl. rewrite !app_nil_r. reflexivity.
  - unfold tool_shape in Ht. apply andb_true_iff in Ht as [Ot Oo].
    simpl collect. unfold overrides_of in *.
    rewrite (get_or_object _ _ _ Ot). simpl.
    rewrite !(get_object _ _ Oo). simpl.
    unfold collected. simpl. fold (overrides_of t). unfold overrides_of.
    destruct (Py.truthy (Py.field (Py.get_or t "overrides" (JObj [])) "command"))
      eqn:Tc;
      destruct (Py.truthy (Py.field (Py.get_or t "overrides" (JObj [])) "connection"))
        eqn:Tn;
      try rewrite (getitem_truthy _ _ Oo Tc);
      try rewrite (getitem_truthy _ _ Oo Tn);
      simpl; rewrite IH; unfold collected, overrides_of;
      rewrite <- ?app_assoc; reflexivity.
Qed.

Lemma list_set_hashable (l : list json) :
  forallb Py.hashable l = true -> list_set l = Ok (set_order (Py.dedup l)).
Proof. intros H. unfold list_set. rewrite H. reflexivity. Qed.

Lemma hash_eqb_refl (x : json) : Py.hashable x = true -> Py.hash_eqb x x = true.
Proof.
  destruct x; simpl; intros H; try discriminate; auto using Bool.eqb_reflx,
    Z.eqb_refl, String.eqb_refl.
Qed.

Lemma hash_eqb_str (s : string) (y : json) :
  Py.hash_eqb (JStr s) y = true -> y = JStr s.
Proof.
  destruct y; simpl; try discriminate.
  intros H. apply String.eqb_eq in H. congruence.
Qed.

Lemma dedup_from_in (seen l : list json) (x : json) :
  In x (Py.dedup_from seen l) -> In x l /\ existsb (Py.hash_eqb x) seen = false.
Proof.
  revert seen. induction l as [|y l IH]; intros seen; simpl;
    [intros []|].
  destruct (existsb (Py.hash_eqb y) seen) eqn:E.
  - intros H. destruct (IH _ H). auto.
  - intros [->|H]; [auto|].
    destruct (IH _ H) as [I N]. split; [auto|].
    simpl in N. apply orb_false_iff in N. exact (proj2 N).
Qed.

(** Every element inserted is represented in the result by an element
    equal to it in the sense of the set, unless one was there before. *)
Lemma dedup_from_covers (seen l : list json) (x : json) :
  In x l ->
  existsb (Py.hash_eqb x) seen = true
  \/ exists y, In y (Py.dedup_from seen l) /\ (Py.hash_eqb x y = true \/ x = y).
Proof.
  revert seen. induction l as [|z l IH]; intros seen; simpl; [intros []|].
  intros [->|H].
  - destruct (existsb (Py.hash_eqb x) seen) eqn:E; [auto|].
    right. exists x. simpl. auto.
  - destruct (existsb (Py.hash_eqb z) seen) eqn:E.
    + apply IH. exact H.
    + destruct (IH (z :: seen) H) as [S|[y [Hy Hxy]]].
      * simpl in S. apply orb_true_iff in S as [S|S]; [|auto].
        right. exists z. simpl. auto.
      * right. exists y. simpl. auto.
Qed.

Lemma dedup_from_NoDup (seen l : list json) :
  forallb Py.hashable l = true -> NoDup (Py.dedup_from seen l).
Proof.
  revert seen. induction l as [|y l IH]; intros seen; simpl; [constructor|].
  intros H. apply andb_true_iff in H as [Hy Hl].
  destruct (existsb (Py.hash_eqb y) seen); [auto|].
  constructor; [|auto].
  intros I. apply dedup_from_in in I as [_ N].
  simpl in N. rewrite (hash_eqb_refl y Hy) in N. discriminate.
Qed.

(** A string is in the de-duplicated list exactly when it was collected. *)
Lemma dedup_str (l : list json) (s : string) :
  In (JStr s) (Py.dedup l) <-> In (JStr s) l.
Proof.
  unfold Py.dedup. split.
  - intros H. apply dedup_from_in in H. exact (proj1 H).
  - intros H. destruct (dedup_from_covers [] l _ H) as [S|[y [I [E|E]]]].
    + discriminate.
    + apply hash_eqb_str in E. subst y. exact I.
    + subst y. exact I.
Qed.

(** [list(set(l))] has the elements of [l], each once, in some order. *)
Lemma list_set_spec (l r : list json) :
  list_set l = Ok r ->
  Permutation r (Py.dedup l) /\ NoDup r
  /\ (forall x, In x r -> In x l)
  /\ (forall s, In (JStr s) l -> In (JStr s) r).
Proof.
  unfold list_set. destruct (forallb Py.hashable l) eqn:H; [|discriminate].
  intros E. inversion E; subst r. clear E.
  pose proof (set_order_perm (Py.dedup l)) as P.
  repeat apply conj.
  - exact P.
  - eapply Permutation_NoDup; [apply Permutation_sym; exact P|].
    apply dedup_from_NoDup. exact H.
  - intros x I. eapply Permutation_in in I; [|exact P].
    apply dedup_from_in in I. exact (proj1 I).
  - intros s I. eapply Permutation_in; [apply Permutation_sym; exact P|].
    apply dedup_str. exact I.
Qed.

Lemma create_payload_shaped (name description : string)
    (tool_instances : option (list json)) (policies : option (list string)) :
  let tools := or_nil tool_instances in
  tools_shaped tools ->
  forallb Py.hashable (collected "command" tools) = true ->
  forallb Py.hashable (collected "connection" tools) = true ->
  create_payload name description tool_instances policies
  = Ok (JObj [("name", JStr name);
              ("description", JStr description);
              ("kind", JStr "mcp");
              ("commands", JArr (set_order (Py.dedup (collected "command" tools))));
              ("connections",
               JArr (set_order (Py.dedup (collected "connection" tools))));
              ("policies", Py.strs (or_nil policies));
              ("mcpTriggerInfo", JObj [("toolInstances", JArr tools)])]).
Proof.
  intros tools S Hc Hn. unfold create_payload. fold tools.
  rewrite (collect_shaped tools [] [] S). simpl.
  rewrite (list_set_hashable _ Hc), (list_set_hashable _ Hn). reflexivity.
Qed.

(** Once the payload is built, exactly one request goes out. *)
Lemma create_mcp_trigger_sent (c : Client) (name description : string)
    (tool_instances : option (list json)) (policies : option (list string))
    (payload : json) (st : state) :
  PyStr.truthy name = true ->
  create_payload name description tool_instances policies = Ok payload ->
  sent (snd (create_mcp_trigger c name description tool_instances policies st))
  = (sent st ++ [post_trigger c payload])%list.
Proof.
  intros Hn P. unfold create_mcp_trigger. rewrite Hn. simpl.
  unfold_monad. rewrite P.
  pose proof (_request_sent c "POST" "/workspace/v2/triggers" (Some payload)
                None None None st) as S.
  destruct (_request c "POST" "/workspace/v2/triggers" (Some payload)
              None None None st) as [[response|e] st1]; simpl in S.
  - destruct (Http.json response) as [result|e]; simpl.
    + destruct (Py.get result "url" JNull) as [url|e]; simpl.
      * destruct (Py.truthy url).
        -- destruct (Py.get result "apiToken" JNull); simpl; auto.
           destruct (Exn.is_APIError e); auto.
        -- destruct (Py.get result "err" JNull) as [err|e]; simpl.
           ++ destruct (Py.truthy err); simpl; auto.
              destruct (Py.getitem result "err"); simpl; auto.
              destruct (Exn.is_APIError e); auto.
           ++ destruct (Exn.is_APIError e); auto.
      * destruct (Exn.is_APIError e); auto.
    + destruct (Exn.is_APIError e); auto.
  - destruct (Exn.is_APIError e); auto.
Qed.

Lemma perm_singleton (x : json) (l : list json) :
  Permutation l [x] -> l = [x].
Proof. intros P. apply Permutation_sym in P. apply Permutation_length_1_inv in P. exact P. Qed.

(** C7.  The [commands] and [connections] of the creation request are the
    non-empty [overrides.command] / [overrides.connection] values of the
    tool instances, each value once, in an order the set decides; for two
    instances with connections "x", "x" and commands "a", "b" the request
    has the single connection "x" and both commands. *)
Theorem create_mcp_trigger_dedup (c : Client) (name description : string)
    (tool_instances : option (list json)) (policies : option (list string))
    (st : state) :
  PyStr.truthy name = true ->
  tools_shaped (or_nil tool_instances) ->
  forallb Py.hashable (collected "command" (or_nil tool_instances)) = true ->
  forallb Py.hashable (collected "connection" (or_nil tool_instances)) = true ->
  (exists payload commands connections,
     sent (snd (create_mcp_trigger c name description tool_instances policies st))
     = (sent st ++ [post_trigger c payload])%list
     /\ Py.field payload "commands" = JArr commands
     /\ Py.field payload "connections" = JArr connections
     /\ NoDup commands /\ NoDup connections
     /\ Permutation commands
          (Py.dedup (collected "command" (or_nil tool_instances)))
     /\ Permutation connections
          (Py.dedup (collected "connection" (or_nil tool_instances)))
     /\ (forall s, In (JStr s) commands
                   <-> In (JStr s) (collected "command" (or_nil tool_instances)))
     /\ (forall s, In (JStr s) connections
                   <-> In (JStr s) (collected "connection" (or_nil tool_instances))))
  /\ (exists payload commands,
        sent (snd (create_mcp_trigger c name description
                     (Some [tool_with "x" "a"; tool_with "x" "b"]) policies st))
        = (sent st ++ [post_trigger c payload])%list
        /\ Py.field payload "connections" = JArr [JStr "x"]
        /\ Py.field payload "commands" = JArr commands
        /\ length commands = 2%nat
        /\ In (JStr "a") commands /\ In (JStr "b") commands).
Proof.
  intros Hn S Hc Hx. split.
  - pose proof (create_payload_shaped name description tool_instances policies
                  S Hc Hx) as P.
    eexists. eexists. eexists.
    split; [eapply create_mcp_trigger_sent; eauto|].
    split; [reflexivity|]. split; [reflexivity|].
    destruct (list_set_spec _ _ (list_set_hashable _ Hc)) as (P1 & N1 & I1 & J1).
    destruct (list_set_spec _ _ (list_set_hashable _ Hx)) as (P2 & N2 & I2 & J2).
    repeat apply conj; auto; intros s; split; auto.
  - assert (P : create_payload name description
                  (Some [tool_with "x" "a"; tool_with "x" "b"]) policies
                = Ok (JObj [("name", JStr name);
                            ("description", JStr description);
                            ("kind", JStr "mcp");
                            ("commands", JArr (set_order [JStr "a"; JStr "b"]));
                            ("connections", JArr (set_order [JStr "x"]));
                            ("policies", Py.strs (or_nil policies));
                            ("mcpTriggerInfo",
                             JObj [("toolInstances",
                                    JArr [tool_with "x" "a"; tool_with "x" "b"])])])).
    { apply (create_payload_shaped name description
               (Some [tool_with "x" "a"; tool_with "x" "b"]) policies).
      - repeat constructor.
      - reflexivity.
      - reflexivity. }
    eexists. eexists.
    split; [eapply create_mcp_trigger_sent; eauto|].
    pose proof (set_order_perm [JStr "a"; JStr "b"]) as Pc.
    pose proof (set_order_perm [JStr "x"]) as Px.
    split; [simpl; rewrite (perm_singleton _ _ Px); reflexivity|].
    split; [reflexivity|].
    split; [apply (Permutation_length Pc)|].
    split; eapply Permutation_in;
      try (apply Permutation_sym; exact Pc); simpl; auto.
Qed.

(* ===================================================================== *)
(** ** Updating an MCP trigger *)
(* ===================================================================== *)

Lemma update_mcp_trigger_eq (c : Client) (name : string)
    (description : option string) (tool_instances : option (list json))
    (st : state) :
  PyStr.truthy name = true ->
  update_mcp_trigger c name description tool_instances st =
  match get_trigger c name st with
  | (Ok existing, st1) =>
      match Py.get existing "kind" JNull with
      | Ok kind =>
          if Py.eq_str kind "mcp" then
            match update_payload name description tool_instances existing with
            | Ok payload =>
                match _request c "PUT" ("/workspace/v2/triggers/" ++ name)
                        (Some payload) None None None st1 with
                | (Ok response, st2) => (Http.json response, st2)
                | (Raise e, st2) =>
                    if Exn.is_APIError e
                    then (Raise (MCPError ("Failed to update MCP trigger: "
                                           ++ Exn.str e) (Some name)), st2)
                    else (Raise e, st2)
                end
            | Raise e => (Raise e, st1)
            end
          else (Raise (not_mcp name), st1)
      | Raise e => (Raise e, st1)
      end
  | (Raise e, st1) => (Raise e, st1)
  end.
Proof.
  intros Hn. unfold update_mcp_trigger. rewrite Hn. simpl. unfold_monad.
  destruct (get_trigger c name st) as [[existing|e] st1]; [|reflexivity].
  destruct (Py.get existing "kind" JNull) as [kind|e]; [|reflexivity].
  destruct (Py.eq_str kind "mcp"); simpl; [|reflexivity].
  destruct (update_payload name description tool_instances existing)
    as [payload|e]; [|reflexivity].
  destruct (_request c "PUT" _ (Some payload) None None None st1)
    as [[response|e] st2]; [|reflexivity].
  destruct (Http.json response) eqn:J; [reflexivity|].
  destruct (json_raises_builtin _ _ J) as [k ->]. reflexivity.
Qed.

Lemma is_GET_not_PUT (r : Request) : Http.is_GET r = true -> Http.is_PUT r = false.
Proof.
  unfold Http.is_GET, Http.is_PUT. intros H.
  apply String.eqb_eq in H. rewrite H. reflexivity.
Qed.

(** Whatever [update_mcp_trigger] sends beyond reads is one PUT whose
    body is the payload built from the trigger it fetched. *)
Lemma update_mcp_trigger_sent (c : Client) (name : string)
    (description : option string) (tool_instances : option (list json))
    (st : state) :
  PyStr.truthy name = true ->
  exists l,
    sent (snd (update_mcp_trigger c name description tool_instances st))
    = (sent st ++ l)%list
    /\ Forall (fun r => Http.is_PUT r = true ->
                 exists existing payload,
                   r = put_request c name payload
                   /\ update_payload name description tool_instances existing
                      = Ok payload) l.
Proof.
  intros Hn. rewrite (update_mcp_trigger_eq c name _ _ st Hn).
  destruct (get_trigger_sent c name st) as (l & S & G & _).
  assert (Gp : Forall (fun r => Http.is_PUT r = true ->
                 exists existing payload,
                   r = put_request c name payload
                   /\ update_payload name description tool_instances existing
                      = Ok payload) l).
  { eapply Forall_impl; [|exact G]. simpl. intros r Hr Hp.
    rewrite (is_GET_not_PUT r Hr) in Hp. discriminate. }
  destruct (get_trigger c name st) as [[existing|e] st1]; simpl in S;
    [|exists l; auto].
  destruct (Py.get existing "kind" JNull) as [kind|e]; [|exists l; auto].
  destruct (Py.eq_str kind "mcp"); [|exists l; auto].
  destruct (update_payload name description tool_instances existing)
    as [payload|e] eqn:P; [|exists l; auto].
  pose proof (_request_sent c "PUT" ("/workspace/v2/triggers/" ++ name)
                (Some payload) None None None st1) as R.
  exists (l ++ [put_request c name payload])%list.
  split.
  - destruct (_request c "PUT" _ (Some payload) None None None st1)
      as [[response|e] st2]; simpl in R |- *;
      [|destruct (Exn.is_APIError e); simpl];
      rewrite R, S, <- app_assoc; reflexivity.
  - apply Forall_app. split; [exact Gp|].
    constructor; [|constructor]. intros _. eauto.
Qed.

(** A payload built from a supplied tool list carries exactly that list. *)
Lemma update_payload_tools (name : string) (description : option string)
    (tools : list json) (existing payload : json) :
  update_payload name description (Some tools) existing = Ok payload ->
  Py.field (Py.field payload "mcpTriggerInfo") "toolInstances" = JArr tools.
Proof.
  unfold update_payload, res_bind.
  destruct (collect tools [] []) as [p|]; [|discriminate].
  destruct (list_set (fst p)); [|discriminate].
  destruct (list_set (snd p)); [|discriminate].
  destruct description.
  - destruct (Py.get existing "mcpTriggerInfo" (JObj [])) as [info|]; [|discriminate].
    destruct info; simpl; try discriminate.
    intros H; inversion H; subst. simpl. rewrite lookup_store_same. reflexivity.
  - destruct (Py.get existing "description" (JStr "")); [|discriminate].
    destruct (Py.get existing "mcpTriggerInfo" (JObj [])) as [info|]; [|discriminate].
    destruct info; simpl; try discriminate.
    intros H; inversion H; subst. simpl. rewrite lookup_store_same. reflexivity.
Qed.

Lemma has_kind_object (K : string) (t : json) :
  has_kind K t = true -> Py.is_object t = true.
Proof. destruct t; simpl; intros H; try discriminate; reflexivity. Qed.

Lemma update_payload_kept (name : string) (description : option string)
    (existing : json) :
  Py.is_object existing = true ->
  update_payload name description None existing
  = Ok (JObj [("name", JStr name);
              ("kind", JStr "mcp");
              ("description",
               match description with
               | Some d => JStr d
               | None => Py.get_or existing "description" (JStr "")
               end);
              ("commands", Py.get_or existing "commands" (JArr []));
              ("connections", Py.get_or existing "connections" (JArr []));
              ("mcpTriggerInfo", mcp_info_of existing)]).
Proof.
  intros O. unfold update_payload, mcp_info_of.
  rewrite !(get_or_object _ _ _ O). simpl.
  destruct description; reflexivity.
Qed.

Lemma update_payload_replaced (name : string) (description : option string)
    (tools : list json) (existing : json) (info0 : Py.dict) :
  Py.is_object existing = true ->
  mcp_info_of existing = JObj info0 ->
  tools_shaped tools ->
  forallb Py.hashable (collected "command" tools) = true ->
  forallb Py.hashable (collected "connection" tools) = true ->
  update_payload name description (Some tools) existing
  = Ok (JObj [("name", JStr name);
              ("kind", JStr "mcp");
              ("description",
               match description with
               | Some d => JStr d
               | None => Py.get_or existing "description" (JStr "")
               end);
              ("commands", JArr (set_order (Py.dedup (collected "command" tools))));
              ("connections",
               JArr (set_order (Py.dedup (collected "connection" tools))));
              ("mcpTriggerInfo",
               JObj (Py.store "toolInstances" (JArr tools) info0))]).
Proof.
  intros O I S Hc Hn. unfold update_payload. unfold mcp_info_of in I.
  rewrite (collect_shaped tools [] [] S). simpl.
  rewrite (list_set_hashable _ Hc), (list_set_hashable _ Hn). simpl.
  rewrite !(get_or_object _ _ _ O), I. simpl.
  destruct description; reflexivity.
Qed.

(** When the payload is built, the update is the fetch followed by one
    PUT carrying it. *)
Lemma update_mcp_trigger_put (c : Client) (name : string)
    (description : option string) (tool_instances : option (list json))
    (st st1 : state) (existing payload : json) :
  PyStr.truthy name = true ->
  get_trigger c name st = (Ok existing, st1) ->
  has_kind "mcp" existing = true ->
  update_payload name description tool_instances existing = Ok payload ->
  sent (snd (update_mcp_trigger c name description tool_instances st))
  = (sent st1 ++ [put_request c name payload])%list.
Proof.
  intros Hn G K P. rewrite (update_mcp_trigger_eq c name _ _ st Hn), G.
  rewrite (get_object _ _ (has_kind_object _ _ K)).
  unfold has_kind in K. rewrite K, P.
  pose proof (_request_sent c "PUT" ("/workspace/v2/triggers/" ++ name)
                (Some payload) None None None st1) as R.
  destruct (_request c "PUT" _ (Some payload) None None None st1)
    as [[response|e] st2]; simpl in R |- *;
    [|destruct (Exn.is_APIError e); simpl]; exact R.
Qed.

(** C2 (as amended).  For a stored trigger of kind "mcp",
    [update_mcp_trigger] sends one PUT whose body has exactly the keys
    name, kind, description, commands, connections and mcpTriggerInfo:
    the description is the stored one unless a new one is given; without
    a new tool list, commands, connections and mcpTriggerInfo are the
    stored ones; with a new tool list, commands and connections are
    recomputed from it and mcpTriggerInfo is the stored one with
    toolInstances replaced by the new list.  No other stored field
    (policies, triggerUrl) is part of the body. *)
Theorem update_mcp_trigger_merge (c : Client) (name : string)
    (description : option string) (tool_instances : option (list json))
    (st st1 : state) (existing : json) :
  PyStr.truthy name = true ->
  get_trigger c name st = (Ok existing, st1) ->
  has_kind "mcp" existing = true ->
  match tool_instances with
  | Some tools =>
      Py.is_object (mcp_info_of existing) = true
      /\ tools_shaped tools
      /\ forallb Py.hashable (collected "command" tools) = true
      /\ forallb Py.hashable (collected "connection" tools) = true
  | None => True
  end ->
  exists payload,
    sent (snd (update_mcp_trigger c name description tool_instances st))
    = (sent st1 ++ [put_request c name (JObj payload)])%list
    /\ map fst payload
       = ["name"; "kind"; "description"; "commands"; "connections";
          "mcpTriggerInfo"]
    /\ Py.lookup "name" payload = Some (JStr name)
    /\ Py.lookup "kind" payload = Some (JStr "mcp")
    /\ Py.lookup "description" payload
       = Some (match description with
               | Some d => JStr d
               | None => Py.get_or existing "description" (JStr "")
               end)
    /\ match tool_instances with
       | None =>
           Py.lookup "commands" payload
           = Some (Py.get_or existing "commands" (JArr []))
           /\ Py.lookup "connections" payload
              = Some (Py.get_or existing "connections" (JArr []))
           /\ Py.lookup "mcpTriggerInfo" payload = Some (mcp_info_of existing)
       | Some tools =>
           exists commands connections info info0,
             Py.lookup "commands" payload = Some (JArr commands)
             /\ Permutation commands (Py.dedup (collected "command" tools))
             /\ Py.lookup "connections" payload = Some (JArr connections)
             /\ Permutation connections (Py.dedup (collected "connection" tools))
             /\ Py.lookup "mcpTriggerInfo" payload = Some (JObj info)
             /\ mcp_info_of existing = JObj info0
             /\ Py.lookup "toolInstances" info = Some (JArr tools)
             /\ (forall k, k <> "toolInstances" ->
                           Py.lookup k info = Py.lookup k info0)
       end.
Proof.
  intros Hn G K W. pose proof (has_kind_object _ _ K) as O.
  destruct tool_instances as [tools|].
  - destruct W as (Oi & S & Hc & Hx).
    destruct (mcp_info_of existing) as [| | | | |info0] eqn:I; try discriminate.
    pose proof (update_payload_replaced name description tools existing info0
                  O I S Hc Hx) as P.
    eexists. split; [eapply update_mcp_trigger_put; eauto|].
    repeat (split; [reflexivity|]).
    exists (set_order (Py.dedup (collected "command" tools))),
           (set_order (Py.dedup (collected "connection" tools))),
           (Py.store "toolInstances" (JArr tools) info0), info0.
    repeat (split; [first [reflexivity | apply set_order_perm]|]).
    split; [apply lookup_store_same|].
    intros k Hk. apply lookup_store_other. exact Hk.
  - pose proof (update_payload_kept name description existing O) as P.
    eexists. split; [eapply update_mcp_trigger_put; eauto|].
    repeat (split; [reflexivity|]). reflexivity.
Qed.

(* ===================================================================== *)
(** ** Removing a tool *)
(* ===================================================================== *)

Lemma filter_res_other_tool (n : string) (items : list json) :
  tools_shaped items ->
  filter_res (other_tool n) items = Ok (without_tool n items).
Proof.
  induction 1 as [|t l Ht _ IH]; simpl; [reflexivity|].
  unfold tool_shape in Ht. apply andb_true_iff in Ht as [Ot Oo].
  unfold other_tool at 1. unfold overrides_of in Oo.
  rewrite (get_or_object _ _ _ Ot). simpl.
  rewrite (get_object _ _ Oo). simpl.
  rewrite IH. simpl. unfold without_tool, tool_named, overrides_of. simpl.
  reflexivity.
Qed.

Lemma without_tool_same_length (n : string) (items : list json) :
  (length (without_tool n items) =? length items)%nat
  = forallb (fun t => negb (tool_named n t)) items.
Proof.
  unfold without_tool.
  destruct (forallb (fun t => negb (tool_named n t)) items) eqn:F.
  - rewrite (forallb_filter_id _ _ F). apply Nat.eqb_refl.
  - apply Nat.eqb_neq. intros E. apply filter_length_forallb in E. congruence.
Qed.

Lemma no_match_forallb (n : string) (items : list json) :
  existsb (tool_named n) items = negb (forallb (fun t => negb (tool_named n t)) items).
Proof.
  induction items as [|t l IH]; simpl; [reflexivity|].
  rewrite IH. destruct (tool_named n t); reflexivity.
Qed.

(** C4.  For a trigger of kind "mcp" fetched with valid (non-empty)
    arguments: when no tool instance is named [tool_name],
    [remove_tool_from_mcp_trigger] raises resource-not-found for
    ("Tool", tool_name) having sent nothing but the reads of the fetch, so
    no PUT; when some instance is, it runs [update_mcp_trigger] with
    exactly the instances whose name differs, every PUT it sends carries
    that list as the tool-instance list, and the PUT is sent when the
    trigger is fetched again as an "mcp" trigger. *)
Theorem remove_tool_from_mcp_trigger_spec (c : Client)
    (trigger_name tool_name : string) (st st1 : state) (trigger : json)
    (items : list json) :
  PyStr.truthy trigger_name = true ->
  PyStr.truthy tool_name = true ->
  get_trigger c trigger_name st = (Ok trigger, st1) ->
  has_kind "mcp" trigger = true ->
  Py.is_object (mcp_info_of trigger) = true ->
  tool_instances_of trigger = JArr items ->
  tools_shaped items ->
  (existsb (tool_named tool_name) items = false ->
     remove_tool_from_mcp_trigger c trigger_name tool_name st
     = (Raise (ResourceNotFoundError "Tool" tool_name), st1)
     /\ exists l, sent st1 = (sent st ++ l)%list
                  /\ Forall (fun r => Http.is_PUT r = false) l)
  /\ (existsb (tool_named tool_name) items = true ->
      let kept := without_tool tool_name items in
      let final := remove_tool_from_mcp_trigger c trigger_name tool_name st in
      final = update_mcp_trigger c trigger_name None (Some kept) st1
      /\ (exists l, sent (snd final) = (sent st1 ++ l)%list
                    /\ Forall (fun r => Http.is_PUT r = true ->
                                        carries_tools kept r) l)
      /\ (forall existing st2,
            get_trigger c trigger_name st1 = (Ok existing, st2) ->
            has_kind "mcp" existing = true ->
            Py.is_object (mcp_info_of existing) = true ->
            forallb Py.hashable (collected "command" kept) = true ->
            forallb Py.hashable (collected "connection" kept) = true ->
            exists payload,
              sent (snd final)
              = (sent st2 ++ [put_request c trigger_name payload])%list
              /\ carries_tools kept (put_request c trigger_name payload))).
Proof.
  intros Ht Hn G K Oi I S.
  assert (E : remove_tool_from_mcp_trigger c trigger_name tool_name st
              = if forallb (fun t => negb (tool_named tool_name t)) items
                then (Raise (ResourceNotFoundError "Tool" tool_name), st1)
                else update_mcp_trigger c trigger_name None
                       (Some (without_tool tool_name items)) st1).
  { unfold remove_tool_from_mcp_trigger. rewrite Ht, Hn. simpl.
    unfold bind at 1. rewrite G.
    unfold bind at 1. unfold lift at 1.
    rewrite (get_object _ _ (has_kind_object _ _ K)).
    unfold has_kind in K. rewrite K. simpl.
    unfold bind at 1. unfold lift at 1.
    rewrite (get_or_object _ _ _ (has_kind_object _ _ K)).
    fold (mcp_info_of trigger).
    unfold bind at 1. unfold lift at 1.
    rewrite (get_or_object _ _ _ Oi). fold (tool_instances_of trigger).
    rewrite I. unfold bind at 1. unfold lift at 1. simpl Py.iter.
    unfold bind at 1. unfold lift at 1.
    rewrite (filter_res_other_tool tool_name items S).
    rewrite without_tool_same_length.
    destruct (forallb _ items); reflexivity. }
  rewrite no_match_forallb. split; intros F.
  - apply negb_false_iff in F. rewrite E, F. split; [reflexivity|].
    destruct (get_trigger_sent c trigger_name st) as (l & Sl & Gl & _).
    rewrite G in Sl. simpl in Sl. exists l. split; [exact Sl|].
    eapply Forall_impl; [|exact Gl]. apply is_GET_not_PUT.
  - apply negb_true_iff in F. rewrite E, F. cbv zeta.
    split; [reflexivity|]. split.
    + destruct (update_mcp_trigger_sent c trigger_name None
                  (Some (without_tool tool_name items)) st1 Ht) as (l & Sl & Pl).
      exists l. split; [exact Sl|].
      eapply Forall_impl; [|exact Pl]. simpl.
      intros r Hr Hp. destruct (Hr Hp) as (existing & payload & -> & P).
      exists payload. split; [reflexivity|].
      eapply update_payload_tools; eauto.
    + intros existing st2 G2 K2 O2 Hc Hx.
      destruct (mcp_info_of existing) as [| | | | |info0] eqn:I2; try discriminate.
      assert (Sk : tools_shaped (without_tool tool_name items)).
      { apply Forall_forall. intros t Hin. apply filter_In in Hin as [Hin _].
        revert t Hin. apply Forall_forall. exact S. }
      pose proof (update_payload_replaced trigger_name None _ existing info0
                    (has_kind_object _ _ K2) I2 Sk Hc Hx) as P.
      eexists. split.
      * eapply update_mcp_trigger_put; eauto.
      * eexists. split; [reflexivity|].
        eapply update_payload_tools; eauto.
Qed.

(* ===================================================================== *)
(** ** File upload *)
(* ===================================================================== *)

(** C3 (as amended).  [file_upload] raises a validation error, before any
    request, when neither [file_content] nor [input_file] is given and
    when [file_content] is given without a file name; with [input_file]
    alone, a path that does not exist raises a file-operation error
    tagged "upload" before any request.  When [file_content] and a name
    are given the content is uploaded, whether or not [input_file] is
    given too: content mode takes precedence and [input_file] is not
    looked at. *)
Theorem file_upload_modes (c : Client)
    (file_content file_name input_file : option string) (st : state) :
  (file_content = None -> input_file = None ->
   file_upload c file_content file_name input_file st
   = (Raise (ValidationError
               "Either file_content or input_file must be provided" None), st))
  /\ (forall content,
        file_content = Some content -> Py.str_truthy file_name = false ->
        file_upload c file_content file_name input_file st
        = (Raise (ValidationError "file_name is required when uploading content"
                    (Some "file_name")), st))
  /\ (forall path,
        file_content = None -> input_file = Some path ->
        file_at path (world st) = Missing ->
        file_upload c file_content file_name input_file st
        = (Raise (FileOperationError ("File not found: " ++ path)
                    (Some path) (Some "upload")), st))
  /\ (forall content fname,
        file_content = Some content -> file_name = Some fname ->
        PyStr.truthy fname = true ->
        sent (snd (file_upload c file_content file_name input_file st))
        = (sent st ++ [content_upload c fname content])%list
        /\ file_upload c file_content file_name input_file st
           = file_upload c file_content file_name None st).
Proof.
  repeat apply conj.
  - intros -> ->. reflexivity.
  - intros content -> T. unfold file_upload. unfold_monad.
    destruct file_name as [fname|]; simpl in T; [rewrite T|]; reflexivity.
  - intros path -> -> F. unfold file_upload. unfold_monad.
    rewrite F. reflexivity.
  - intros content fname -> -> T. split; [|reflexivity].
    unfold file_upload. unfold_monad. rewrite T. simpl.
    pose proof (_request_sent c "POST" "/workspace/v2/files" None
                  (Some [("filename", fname)])
                  (Some [("file", mkUpload fname (Content content) "text/csv")])
                  None st) as S.
    destruct (_request c "POST" "/workspace/v2/files" None _ _ None st)
      as [[response|e] st1]; simpl in S |- *;
      [|destruct (Exn.is_APIError e); simpl]; exact S.
Qed.

(* ===================================================================== *)
(** ** Command execution *)
(* ===================================================================== *)

Lemma args_list_str (s : string) :
  args_list (Some (ArgsStr s)) = Shlex.split s.
Proof. destruct s; reflexivity. Qed.

Lemma append_snoc (tok : string) (ch : ascii) (w : string) :
  (Shlex.snoc tok ch ++ w)%string = (tok ++ String ch w)%string.
Proof.
  unfold Shlex.snoc. induction tok as [|a tok IH]; simpl; [reflexivity|].
  rewrite IH. reflexivity.
Qed.

Lemma append_empty (tok : string) : (tok ++ "")%string = tok.
Proof. induction tok as [|a tok IH]; simpl; [reflexivity | rewrite IH; reflexivity]. Qed.

(** Inside single quotes every character up to the closing quote is
    taken as it is. *)
Lemma lex_single_quoted (w tok : string) (quoted : bool) :
  lacks "'"%char w = true ->
  Shlex.lex (w ++ "'") (Shlex.Quote "'"%char) tok quoted []
  = Ok [(tok ++ w)%string].
Proof.
  revert tok quoted. induction w as [|ch w IH]; intros tok quoted L.
  - simpl. rewrite append_empty. unfold Shlex.emit.
    rewrite orb_true_r. reflexivity.
  - simpl in L. apply andb_true_iff in L as [N L].
    apply negb_true_iff in N. simpl. rewrite N.
    rewrite andb_false_r. rewrite IH by exact L.
    rewrite append_snoc. reflexivity.
Qed.

(** In structured mode [run] sends one request with the tokens. *)
Lemma run_structured (c : Client) (command_text : option string)
    (connection command : string) (args : option run_args)
    (toks : list string) (st : state) :
  Py.str_truthy command_text = false ->
  PyStr.truthy connection = true ->
  PyStr.truthy command = true ->
  args_list args = Ok toks ->
  sent (snd (run c command_text (Some connection) (Some command) args st))
  = (sent st ++ [run_request c connection command toks])%list
  /\ forall args',
       args_list args' = Ok toks ->
       run c command_text (Some connection) (Some command) args' st
       = run c command_text (Some connection) (Some command) args st.
Proof.
  intros T Hc Hm A.
  assert (E : forall a, args_list a = Ok toks ->
              run c command_text (Some connection) (Some command) a st
              = try_except
                  (bind (_request c "POST" "/trigger/v1/api"
                           (Some (JObj [("command", JStr command);
                                        ("connection", JStr connection);
                                        ("arguments", Py.strs toks)]))
                           None None None)
                        (fun response => lift (Http.json response)))
                  Exn.is_APIError
                  (fun e => raise (CommandExecutionError
                                     ("Command execution failed: " ++ Exn.str e)
                                     (or_else (Some command) command_text)
                                     (Some connection))) st).
  { intros a Ha. unfold run.
    destruct command_text as [txt|]; simpl in T; [rewrite T|];
      rewrite Hc, Hm; simpl; unfold bind at 1; unfold bind at 1;
      unfold lift at 1; rewrite Ha; reflexivity. }
  split.
  - rewrite (E args A). unfold_monad.
    pose proof (_request_sent c "POST" "/trigger/v1/api"
                  (Some (JObj [("command", JStr command);
                               ("connection", JStr connection);
                               ("arguments", Py.strs toks)]))
                  None None None st) as S.
    destruct (_request c "POST" "/trigger/v1/api" _ None None None st)
      as [[response|e] st1]; simpl in S |- *.
    + destruct (Http.json response); simpl; [exact S|].
      destruct (Exn.is_APIError e); exact S.
    + destruct (Exn.is_APIError e); exact S.
  - intros args' A'. rewrite (E args A), (E args' A'). reflexivity.
Qed.

(** Arguments that do not tokenize stop [run] before the request. *)
Lemma run_rejected (c : Client) (command_text : option string)
    (connection command : string) (args : option run_args) (e : exn)
    (st : state) :
  Py.str_truthy command_text = false ->
  PyStr.truthy connection = true ->
  PyStr.truthy command = true ->
  args_list args = Raise e ->
  run c command_text (Some connection) (Some command) args st = (Raise e, st).
Proof.
  intros T Hc Hm A. unfold run.
  destruct command_text as [txt|]; simpl in T; [rewrite T|];
    rewrite Hc, Hm; simpl; unfold bind at 1; unfold bind at 1;
    unfold lift at 1; rewrite A; reflexivity.
Qed.

(** C6.  In structured mode (no command text, non-empty connection and
    command) a string of arguments is split by [shlex.split] and the
    tokens go into the request body; a list of tokens goes in unchanged;
    a string and the list of its tokens give the same request and the
    same result; no [args] gives the empty token list; a string that
    [shlex.split] rejects (an unclosed quote) raises its [ValueError]
    before any request.  "--a b" splits
    into "--a" and "b", and a single-quoted substring is one token. *)
Theorem run_tokenizes (c : Client) (command_text : option string)
    (connection command : string) (st : state) :
  Py.str_truthy command_text = false ->
  PyStr.truthy connection = true ->
  PyStr.truthy command = true ->
  let run_with := run c command_text (Some connection) (Some command) in
  (forall s toks,
     Shlex.split s = Ok toks ->
     sent (snd (run_with (Some (ArgsStr s)) st))
     = (sent st ++ [run_request c connection command toks])%list)
  /\ (forall l,
        sent (snd (run_with (Some (ArgsList l)) st))
        = (sent st ++ [run_request c connection command l])%list)
  /\ (forall s l,
        Shlex.split s = Ok l ->
        run_with (Some (ArgsStr s)) st = run_with (Some (ArgsList l)) st)
  /\ sent (snd (run_with None st))
     = (sent st ++ [run_request c connection command []])%list
  /\ (forall s e,
        Shlex.split s = Raise e ->
        run_with (Some (ArgsStr s)) st = (Raise e, st))
  /\ Shlex.split "--a b" = Ok ["--a"; "b"]
  /\ (forall w, lacks "'"%char w = true ->
                Shlex.split ("'" ++ w ++ "'") = Ok [w]).
Proof.
  intros T Hc Hm run_with. unfold run_with. repeat apply conj.
  - intros s toks Sp.
    apply (run_structured c command_text connection command _ toks st T Hc Hm).
    rewrite args_list_str. exact Sp.
  - intros l.
    apply (run_structured c command_text connection command _ l st T Hc Hm).
    reflexivity.
  - intros s l Sp.
    apply (run_structured c command_text connection command
             (Some (ArgsList l)) l st T Hc Hm); [reflexivity|].
    rewrite args_list_str. exact Sp.
  - apply (run_structured c command_text connection command None [] st T Hc Hm).
    reflexivity.
  - intros s e Sp.
    apply (run_rejected c command_text connection command _ e st T Hc Hm).
    rewrite args_list_str. exact Sp.
  - reflexivity.
  - intros w L. unfold Shlex.split. simpl.
    apply (lex_single_quoted w "" false L).
Qed.

(* ===================================================================== *)
(** ** MCP protocol test *)
(* ===================================================================== *)

Lemma mcp_post_sent (c : Client) (mcp_url api_token : string) (body : json)
    (st : state) :
  sent (snd (mcp_post c mcp_url api_token body st))
  = (sent st ++ [mcp_request c mcp_url api_token body])%list.
Proof.
  unfold mcp_post.
  pose proof (transmit_sent (mcp_request c mcp_url api_token body) st) as T.
  destruct (transmit _ st) as [o st']; simpl in T.
  destruct o; simpl; auto.
  destruct (Http.is_error_status (status_code r)); simpl; auto.
  destruct (json_body r); simpl; auto.
Qed.

Lemma named_tool_getitem (t : json) :
  named_tool t = true -> Py.getitem t "name" = Ok (Py.field t "name").
Proof.
  destruct t; simpl; try discriminate.
  destruct (Py.lookup "name" fields); [reflexivity | discriminate].
Qed.

Lemma named_tool_truthy (t : json) : named_tool t = true -> Py.truthy t = true.
Proof.
  destruct t; simpl; try discriminate.
  destruct fields; [discriminate | reflexivity].
Qed.

Lemma first_named_find (n : string) (l : list json) :
  Forall (fun t => named_tool t = true) l ->
  first_named n l = Ok (find (has_name n) l).
Proof.
  induction 1 as [|t l Ht _ IH]; simpl; [reflexivity|].
  rewrite (named_tool_getitem t Ht). simpl. unfold has_name at 1.
  destruct (Py.eq_str (Py.field t "name") n); auto.
Qed.

Lemma find_named (n : string) (l : list json) (t : json) :
  Forall (fun t => named_tool t = true) l ->
  find (has_name n) l = Some t -> named_tool t = true.
Proof.
  intros F H. apply find_some in H as [I _].
  revert t I. apply Forall_forall. exact F.
Qed.

(** On well-formed tools the selection is [chosen_tool]. *)
Lemma select_tool_chosen (tool_name : option string) (t0 : json) (ts : list json) :
  Forall (fun t => named_tool t = true) (t0 :: ts) ->
  select_tool tool_name (JArr (t0 :: ts)) = Ok (chosen_tool tool_name t0 ts)
  /\ named_tool (chosen_tool tool_name t0 ts) = true.
Proof.
  intros F. pose proof (Forall_inv F) as H0.
  unfold select_tool, chosen_tool.
  destruct tool_name as [n|]; simpl Py.str_truthy; [|simpl; auto].
  destruct (PyStr.truthy n); [|simpl; auto].
  simpl Py.iter. unfold res_bind at 2.
  rewrite (first_named_find n (t0 :: ts) F). unfold res_bind.
  destruct (find (has_name n) (t0 :: ts)) as [t|] eqn:E; [|simpl; auto].
  pose proof (find_named n _ t F E) as Ht.
  rewrite (named_tool_truthy t Ht). auto.
Qed.

(** With tools listed, the run is decided by the tools/call exchange. *)
Lemma test_mcp_protocol_call (c : Client) (mcp_url api_token : string)
    (tool_name : option string) (st st1 st2 : state)
    (init listing t0 : json) (ts : list json) :
  PyStr.truthy mcp_url = true ->
  PyStr.truthy api_token = true ->
  mcp_post c mcp_url api_token init_request st = (Ok (inr init), st1) ->
  mcp_post c mcp_url api_token list_request st1 = (Ok (inr listing), st2) ->
  listed_tools listing = Ok (JArr (t0 :: ts)) ->
  Forall (fun t => named_tool t = true) (t0 :: ts) ->
  test_mcp_protocol c mcp_url api_token tool_name st
  = match mcp_post c mcp_url api_token
            (exec_request (Py.field (chosen_tool tool_name t0 ts) "name")) st2 with
    | (Ok (inl msg), st3) =>
        (Ok (results_of init listing (error_entry msg) false), st3)
    | (Ok (inr execution), st3) =>
        match Py.contains "result" execution with
        | Ok b => (Ok (results_of init listing execution b), st3)
        | Raise e => (Raise e, st3)
        end
    | (Raise e, st3) => (Raise e, st3)
    end.
Proof.
  intros Hu Ht P1 P2 L W.
  destruct (select_tool_chosen tool_name t0 ts W) as [Sel Nm].
  unfold test_mcp_protocol.
  rewrite Hu, Ht. cbv beta iota zeta delta [negb].
  unfold bind at 1. rewrite P1. unfold bind at 1. rewrite P2.
  unfold bind at 1. unfold lift at 1. rewrite L.
  change (Py.truthy (JArr (t0 :: ts))) with true. cbv iota.
  unfold bind at 1. unfold lift at 1. rewrite Sel.
  rewrite (named_tool_truthy _ Nm).
  unfold bind at 1. unfold lift at 1. rewrite (named_tool_getitem _ Nm).
  unfold bind at 1.
  destruct (mcp_post c mcp_url api_token _ st2)
    as [[[msg|execution]|e] st3]; reflexivity.
Qed.

(** What a step makes of the outcome of its request. *)
Lemma mcp_post_state (c : Client) (mcp_url api_token : string) (body : json)
    (st : state) (o : outcome) (w : World) :
  send (mcp_request c mcp_url api_token body) (world st) = (o, w) ->
  snd (mcp_post c mcp_url api_token body st)
  = mkState w (sent st ++ [mcp_request c mcp_url api_token body]).
Proof.
  intros S. unfold mcp_post, transmit. rewrite S.
  destruct o; simpl; try reflexivity.
  destruct (Http.is_error_status (status_code r)); [reflexivity|].
  destruct (json_body r); reflexivity.
Qed.

Lemma delivers_status (o : outcome) (r : Response) :
  delivers o r -> o = Responded r /\ Http.is_error_status (status_code r) = false.
Proof.
  intros [-> H]. split; [reflexivity|]. unfold Http.is_error_status.
  apply andb_false_iff. destruct H as [H|H]; [left | right].
  - apply Z.leb_gt. exact H.
  - apply Z.ltb_ge. exact H.
Qed.

Lemma mcp_post_fails (c : Client) (mcp_url api_token : string) (body : json)
    (st : state) (o : outcome) (w : World) (msg : string) :
  send (mcp_request c mcp_url api_token body) (world st) = (o, w) ->
  step_fails o msg ->
  mcp_post c mcp_url api_token body st
  = (Ok (inl msg), mkState w (sent st ++ [mcp_request c mcp_url api_token body])).
Proof.
  intros S F. unfold mcp_post, transmit. rewrite S.
  destruct F as [F|(r & D & B & ->)].
  - destruct F as [m|m|m|r [Lo Hi]]; try reflexivity.
    unfold Http.is_error_status.
    apply Z.leb_le in Lo. apply Z.ltb_lt in Hi. rewrite Lo, Hi. reflexivity.
  - apply delivers_status in D as [-> E]. rewrite E, B. reflexivity.
Qed.

Lemma mcp_post_answers (c : Client) (mcp_url api_token : string) (body : json)
    (st : state) (o : outcome) (w : World) (j : json) :
  send (mcp_request c mcp_url api_token body) (world st) = (o, w) ->
  step_answers o j ->
  mcp_post c mcp_url api_token body st
  = (Ok (inr j), mkState w (sent st ++ [mcp_request c mcp_url api_token body])).
Proof.
  intros S (r & D & B). unfold mcp_post, transmit. rewrite S.
  apply delivers_status in D as [-> E]. rewrite E, B. reflexivity.
Qed.

Lemma discovers_listed (listing tools : json) :
  discovers listing tools -> listed_tools listing = Ok tools.
Proof.
  intros [d r t R T|d R|d r R T]; unfold listed_tools; simpl; rewrite R; simpl;
    try rewrite T; reflexivity.
Qed.

(** The run, step by step, in terms of what each step returns. *)
Lemma test_mcp_protocol_steps (c : Client) (mcp_url api_token : string)
    (tool_name : option string) (st : state) :
  PyStr.truthy mcp_url = true ->
  PyStr.truthy api_token = true ->
  let post := mcp_post c mcp_url api_token in
  let test := test_mcp_protocol c mcp_url api_token tool_name st in
  (forall msg st1,
     post init_request st = (Ok (inl msg), st1) ->
     test = (Ok (results_of (error_entry msg) JNull JNull false), st1))
  /\ (forall init st1 msg st2,
        post init_request st = (Ok (inr init), st1) ->
        post list_request st1 = (Ok (inl msg), st2) ->
        test = (Ok (results_of init (error_entry msg) JNull false), st2))
  /\ (forall init st1 listing st2 tools,
        post init_request st = (Ok (inr init), st1) ->
        post list_request st1 = (Ok (inr listing), st2) ->
        listed_tools listing = Ok tools ->
        Py.truthy tools = false ->
        test = (Ok (results_of init listing no_tools_entry false), st2))
  /\ (forall init st1 listing st2 t0 ts,
        post init_request st = (Ok (inr init), st1) ->
        post list_request st1 = (Ok (inr listing), st2) ->
        listed_tools listing = Ok (JArr (t0 :: ts)) ->
        Forall (fun t => named_tool t = true) (t0 :: ts) ->
        let call := exec_request (Py.field (chosen_tool tool_name t0 ts) "name") in
        sent (snd test)
        = (sent st2 ++ [mcp_request c mcp_url api_token call])%list
        /\ (forall msg st3,
              post call st2 = (Ok (inl msg), st3) ->
              test = (Ok (results_of init listing (error_entry msg) false), st3))
        /\ (forall execution st3,
              post call st2 = (Ok (inr execution), st3) ->
              Py.is_object execution = true ->
              test = (Ok (results_of init listing execution
                            (has_key "result" execution)), st3))).
Proof.
  intros Hu Ht post test. subst post test. unfold test_mcp_protocol.
  rewrite Hu, Ht. cbv beta iota zeta delta [negb].
  repeat apply conj.
  - intros msg st1 P1. unfold bind at 1. rewrite P1. reflexivity.
  - intros init st1 msg st2 P1 P2.
    unfold bind at 1. rewrite P1. unfold bind at 1. rewrite P2. reflexivity.
  - intros init st1 listing st2 tools P1 P2 L F.
    unfold bind at 1. rewrite P1. unfold bind at 1. rewrite P2.
    unfold bind at 1. unfold lift at 1. rewrite L, F. reflexivity.
  - intros init st1 listing st2 t0 ts P1 P2 L W.
    pose proof (test_mcp_protocol_call c mcp_url api_token tool_name st st1 st2
                  init listing t0 ts Hu Ht P1 P2 L W) as E.
    unfold test_mcp_protocol in E. rewrite Hu, Ht in E.
    cbv beta iota zeta delta [negb] in E. rewrite E. clear E.
    set (call := exec_request (Py.field (chosen_tool tool_name t0 ts) "name")).
    pose proof (mcp_post_sent c mcp_url api_token call st2) as S.
    destruct (mcp_post c mcp_url api_token call st2)
      as [[[msg|execution]|e] st3]; simpl in S.
    + repeat apply conj.
      * exact S.
      * intros msg' st3' P3. inversion P3; subst. reflexivity.
      * intros execution st3' P3. discriminate.
    + repeat apply conj.
      * destruct (Py.contains "result" execution); exact S.
      * intros msg st3' P3. discriminate.
      * intros execution' st3' P3 O. inversion P3; subst.
        destruct execution'; try discriminate. simpl.
        destruct (Py.lookup "result" fields); reflexivity.
    + repeat apply conj.
      * exact S.
      * intros msg st3' P3. discriminate.
      * intros execution st3' P3. discriminate.
Qed.

(** C9.  With a non-empty URL and token, the three calls are posted to
    the URL with the bearer token.  A failure of the initialize or of the
    tools/list call (an exception of the transport, an error status, a
    body that is not JSON) ends the run with the error recorded for that
    step and [success] false; an empty (falsy) tool list records the "no
    tools available" marker with [success] false; when tools are listed,
    one tools/call request is sent for the tool with the requested name
    when there is one, else for the first tool, with empty arguments; a
    failure of that call is recorded with [success] false, and otherwise
    [success] is true exactly when the response has a [result] key. *)
Theorem test_mcp_protocol_spec (c : Client) (mcp_url api_token : string)
    (tool_name : option string) (st : state) (o1 : outcome) (w1 : World) :
  PyStr.truthy mcp_url = true ->
  PyStr.truthy api_token = true ->
  let test := test_mcp_protocol c mcp_url api_token tool_name st in
  let initialize := initialize_post mcp_url api_token in
  let tools_list := tools_list_post mcp_url api_token in
  let failure (msg : string) := JObj [("error", JStr msg)] in
  send initialize (world st) = (o1, w1) ->
  (forall msg,
     step_fails o1 msg ->
     test = (Ok (results_of (failure msg) JNull JNull false),
             mkState w1 (sent st ++ [initialize])))
  /\ (forall init o2 w2,
        step_answers o1 init ->
        send tools_list w1 = (o2, w2) ->
        let listed := mkState w2 (sent st ++ [initialize; tools_list]) in
        (forall msg,
           step_fails o2 msg ->
           test = (Ok (results_of init (failure msg) JNull false), listed))
        /\ (forall listing tools,
              step_answers o2 listing ->
              discovers listing tools ->
              Py.truthy tools = false ->
              test
              = (Ok (results_of init listing
                       (JObj [("message", JStr "No tools available to execute")])
                       false), listed))
        /\ (forall listing t0 ts o3 w3,
              step_answers o2 listing ->
              discovers listing (JArr (t0 :: ts)) ->
              Forall (fun t => named_tool t = true) (t0 :: ts) ->
              let call :=
                tools_call_post mcp_url api_token
                  (Py.field (chosen_tool tool_name t0 ts) "name") in
              send call w2 = (o3, w3) ->
              let called :=
                mkState w3 (sent st ++ [initialize; tools_list; call]) in
              snd test = called
              /\ (forall msg,
                    step_fails o3 msg ->
                    test = (Ok (results_of init listing (failure msg) false),
                            called))
              /\ (forall execution,
                    step_answers o3 execution ->
                    Py.is_object execution = true ->
                    test = (Ok (results_of init listing execution
                                  (has_key "result" execution)), called)))).
Proof.
  intros Hu Ht test initialize tools_list failure S1.
  destruct (test_mcp_protocol_steps c mcp_url api_token tool_name st Hu Ht)
    as (F1 & F2 & F3 & F4).
  split.
  - intros msg Hf.
    exact (F1 msg _ (mcp_post_fails c mcp_url api_token init_request st
                       o1 w1 msg S1 Hf)).
  - intros init o2 w2 A1 S2 listed.
    pose proof (mcp_post_answers c mcp_url api_token init_request st
                  o1 w1 init S1 A1) as P1.
    set (st1 := mkState w1 (sent st ++ [mcp_request c mcp_url api_token
                                          init_request])) in P1.
    assert (L : mkState w2 (sent st1 ++ [mcp_request c mcp_url api_token
                                           list_request]) = listed).
    { subst st1 listed initialize tools_list. simpl sent.
      rewrite <- app_assoc. reflexivity. }
    repeat apply conj.
    + intros msg Hf.
      pose proof (mcp_post_fails c mcp_url api_token list_request st1
                    o2 w2 msg S2 Hf) as P2.
      rewrite L in P2. exact (F2 init st1 msg _ P1 P2).
    + intros listing tools A2 D T.
      pose proof (mcp_post_answers c mcp_url api_token list_request st1
                    o2 w2 listing S2 A2) as P2.
      rewrite L in P2.
      exact (F3 init st1 listing _ tools P1 P2 (discovers_listed _ _ D) T).
    + intros listing t0 ts o3 w3 A2 D W call S3 called.
      pose proof (mcp_post_answers c mcp_url api_token list_request st1
                    o2 w2 listing S2 A2) as P2.
      rewrite L in P2.
      destruct (F4 init st1 listing listed t0 ts P1 P2
                  (discovers_listed _ _ D) W) as (_ & G1 & G2).
      assert (C : mkState w3
                    (sent listed
                     ++ [mcp_request c mcp_url api_token
                           (exec_request
                              (Py.field (chosen_tool tool_name t0 ts) "name"))])
                  = called).
      { subst listed called call initialize tools_list. simpl sent.
        rewrite <- app_assoc. reflexivity. }
      pose proof (test_mcp_protocol_call c mcp_url api_token tool_name st st1
                    listed init listing t0 ts Hu Ht P1 P2
                    (discovers_listed _ _ D) W) as E.
      pose proof (mcp_post_state c mcp_url api_token
                    (exec_request (Py.field (chosen_tool tool_name t0 ts) "name"))
                    listed o3 w3 S3) as St.
      rewrite C in St.
      repeat apply conj.
      * subst test. rewrite E.
        destruct (mcp_post c mcp_url api_token _ listed)
          as [[[msg|execution]|e] st3]; cbn [snd] in St |- *; try exact St.
        destruct (Py.contains "result" execution); exact St.
      * intros msg Hf.
        pose proof (mcp_post_fails c mcp_url api_token
                      (exec_request
                         (Py.field (chosen_tool tool_name t0 ts) "name"))
                      listed o3 w3 msg S3 Hf) as P3.
        rewrite C in P3. exact (G1 msg _ P3).
      * intros execution A3 O.
        pose proof (mcp_post_answers c mcp_url api_token
                      (exec_request
                         (Py.field (chosen_tool tool_name t0 ts) "name"))
                      listed o3 w3 execution S3 A3) as P3.
        rewrite C in P3. exact (G2 execution _ P3 O).
Qed.

(* ===================================================================== *)
(** ** Construction and the transport layer, continued *)
(* ===================================================================== *)

Lemma rstrip_slash_spec (s : string) :
  exists k,
    s = (Session.rstrip_slash s ++ Session.slashes k)%string
    /\ Session.ends_with "/"%char (Session.rstrip_slash s) = false.
Proof.
  induction s as [|ch s (k & E & N)]; [exists O; auto|].
  simpl. destruct (Session.rstrip_slash s) as [|a t] eqn:R.
  - destruct (Ascii.eqb ch "/"%char) eqn:C.
    + apply Ascii.eqb_eq in C. subst ch. exists (S k). simpl in *.
      rewrite <- E. auto.
    + exists k. simpl in *. rewrite <- E, C. auto.
  - exists k. split.
    + simpl in *. rewrite <- E. reflexivity.
    + exact N.
Qed.

(** X1.  The constructor rejects an empty domain, then an empty token;
    otherwise it stores the domain without its trailing slashes (what it
    stores does not end with a slash, and the domain given is what it
    stores followed by slashes only), and the base URL is "https://"
    followed by the stored domain. *)
Theorem init_strips_trailing_slashes (domain token : string) (seconds : Q)
    (verbose : bool) :
  (PyStr.truthy domain = false ->
   Session.init domain token seconds verbose
   = Raise (ValidationError "api_domain is required" (Some "api_domain")))
  /\ (PyStr.truthy domain = true -> PyStr.truthy token = false ->
      Session.init domain token seconds verbose
      = Raise (ValidationError "api_token is required" (Some "api_token")))
  /\ (PyStr.truthy domain = true -> PyStr.truthy token = true ->
      exists c k,
        Session.init domain token seconds verbose = Ok c
        /\ domain = (api_domain c ++ Session.slashes k)%string
        /\ Session.ends_with "/"%char (api_domain c) = false
        /\ base_url c = ("https://" ++ api_domain c)%string
        /\ api_token c = token /\ timeout c = seconds /\ debug c = verbose).
Proof.
  unfold Session.init. repeat apply conj.
  - intros ->. reflexivity.
  - intros -> ->. reflexivity.
  - intros -> ->. simpl.
    destruct (rstrip_slash_spec domain) as (k & E & N).
    eexists. exists k. split; [reflexivity|]. simpl. repeat split; auto.
Qed.

(** From status 400 on the handler always raises. *)
Lemma _handle_response_error_raises (r : Response) :
  400 <= status_code r -> exists e, _handle_response_error r = Raise e.
Proof.
  intros H. unfold _handle_response_error. cbv zeta.
  destruct (status_code r =? 401); [eauto|].
  destruct (status_code r =? 403); [eauto|].
  destruct (status_code r =? 404); [eauto|].
  destruct (status_code r =? 429).
  { destruct (Http.header "Retry-After" (headers r)) as [v|];
      [destruct (PyStr.truthy v); [destruct (PyStr.to_int v)|]|]; eauto. }
  apply Z.leb_le in H. rewrite H. unfold res_bind, Http.json.
  destruct (json_body r) as [j|]; simpl; [destruct j; simpl|]; eauto.
Qed.

(** X2.  The handler returns normally exactly below status 400 and raises
    from 400 on; 401 and 403 give the two authentication errors and
    nothing else does; 404 gives the API error tagged 404 with the body. *)
Theorem handle_response_error_classes (r : Response) :
  (status_code r < 400 -> _handle_response_error r = Ok tt)
  /\ (400 <= status_code r -> exists e, _handle_response_error r = Raise e)
  /\ (status_code r = 401 ->
      _handle_response_error r
      = Raise (AuthenticationError Exn.default_auth_message))
  /\ (status_code r = 403 ->
      _handle_response_error r
      = Raise (AuthenticationError
                 "Access forbidden. Check your API token permissions."))
  /\ (status_code r = 404 ->
      _handle_response_error r
      = Raise (APIError "Resource not found" (Some 404) (Some (text r))))
  /\ (forall m,
        _handle_response_error r = Raise (AuthenticationError m) ->
        status_code r = 401 \/ status_code r = 403).
Proof.
  unfold _handle_response_error. cbv zeta.
  destruct (status_code r =? 401) eqn:E1.
  { apply Z.eqb_eq in E1. repeat apply conj; intros; try lia; eauto. }
  destruct (status_code r =? 403) eqn:E3.
  { apply Z.eqb_eq in E3. repeat apply conj; intros; try lia; eauto. }
  destruct (status_code r =? 404) eqn:E4.
  { apply Z.eqb_eq in E4. repeat apply conj; intros; try lia; eauto.
    discriminate. }
  apply Z.eqb_neq in E1, E3, E4.
  destruct (status_code r =? 429) eqn:E9.
  { apply Z.eqb_eq in E9.
    destruct (Http.header "Retry-After" (headers r)) as [v|];
      [destruct (PyStr.truthy v); [destruct (PyStr.to_int v)|]|];
      repeat apply conj; intros; try lia; eauto; discriminate. }
  destruct (400 <=? status_code r) eqn:E.
  - apply Z.leb_le in E. unfold res_bind, Http.json.
    destruct (json_body r) as [j|]; simpl.
    + destruct j; simpl;
        repeat apply conj; intros; try lia; eauto; discriminate.
    + repeat apply conj; intros; try lia; eauto; discriminate.
  - apply Z.leb_gt in E. repeat apply conj; intros; try lia; eauto.
    discriminate.
Qed.

(** X3.  For any other status from 400 on, the API error carries the
    status, the raw body and a message taken from the [err] field of a
    JSON object body, else from its [error] field, else from the raw
    text; a body that is not JSON gives the raw text; a JSON body that is
    not an object makes [.get] fail and [AttributeError] leaves the
    handler. *)
Theorem api_error_message_precedence (r : Response) :
  400 <= status_code r ->
  status_code r <> 401 -> status_code r <> 403 ->
  status_code r <> 404 -> status_code r <> 429 ->
  (forall d,
     json_body r = Some (JObj d) ->
     _handle_response_error r
     = Raise (APIError ("API error: " ++ py_str (error_field d (text r)))
                (Some (status_code r)) (Some (text r))))
  /\ (json_body r = None ->
      _handle_response_error r
      = Raise (APIError ("API error: " ++ text r)
                 (Some (status_code r)) (Some (text r))))
  /\ (forall j,
        json_body r = Some j -> Py.is_object j = false ->
        _handle_response_error r = Raise (Builtin AttributeError)).
Proof.
  intros H N1 N3 N4 N9. unfold _handle_response_error. cbv zeta.
  apply Z.eqb_neq in N1, N3, N4, N9. apply Z.leb_le in H.
  rewrite N1, N3, N4, N9, H. unfold Http.json, res_bind, error_field.
  repeat apply conj.
  - intros d ->. simpl.
    destruct (Py.lookup "err" d); destruct (Py.lookup "error" d); reflexivity.
  - intros ->. reflexivity.
  - intros j -> O. destruct j; simpl in *; try discriminate; reflexivity.
Qed.

(** X4.  [_request] returns a response only when the transport gave one
    that is [ok]; a connection failure becomes a connection error naming
    the URL, a timeout a timeout error carrying the configured timeout,
    any other transport exception an API error with no status. *)
Theorem _request_outcomes (c : Client) (method endpoint : string)
    (json_data : option json) (st : state) :
  let req := api_request c method endpoint json_data in
  let call := _request c method endpoint json_data None None None st in
  (forall r st', call = (Ok r, st') ->
     Http.ok r = true /\ send req (world st) = (Responded r, world st'))
  /\ (forall m w, send req (world st) = (ConnectionFailed m, w) ->
        fst call = Raise (ConnectionError ("Failed to connect to "
                                           ++ base_url c ++ endpoint)))
  /\ (forall m w, send req (world st) = (TimedOut m, w) ->
        fst call = Raise (TimeoutError Exn.default_timeout_message
                            (Some (timeout c))))
  /\ (forall m w, send req (world st) = (RequestFailed m, w) ->
        fst call = Raise (APIError ("Request failed: " ++ m) None None))
  /\ (forall r w, send req (world st) = (Responded r, w) ->
        Http.ok r = false -> exists e, fst call = Raise e).
Proof.
  intros req call. subst req call. unfold _request, transmit, api_request.
  destruct (send _ (world st)) as [o w] eqn:S. repeat apply conj.
  - intros r st' H. destruct o; try discriminate.
    destruct (Http.ok r0) eqn:K.
    + inversion H; subst. simpl. split; [assumption | reflexivity].
    + unfold Http.ok, Http.is_error_status in K.
      apply negb_false_iff, andb_true_iff in K as [K _].
      apply Z.leb_le in K.
      destruct (_handle_response_error_raises r0 K) as [e E]. rewrite E in H.
      discriminate.
  - intros m w' H. inversion H; subst. reflexivity.
  - intros m w' H. inversion H; subst. reflexivity.
  - intros m w' H. inversion H; subst. reflexivity.
  - intros r w' H K. inversion H; subst. rewrite K.
    unfold Http.ok, Http.is_error_status in K.
    apply negb_false_iff, andb_true_iff in K as [K _].
    apply Z.leb_le in K.
    destruct (_handle_response_error_raises r K) as [e E]. rewrite E.
    simpl. eauto.
Qed.

(* ===================================================================== *)
(** ** Resource accessors *)
(* ===================================================================== *)

Ltac reads_array_tac :=
  intros c st; unfold bind, lift;
  match goal with
  | |- context [_request c "GET" ?ep None None None None st] =>
      let Hs := fresh "Hs" in
      let Hr := fresh "Hr" in
      pose proof (_request_sent c "GET" ep None None None None st) as Hs;
      destruct (_request c "GET" ep None None None None st)
        as [[? | ?] ?] eqn:Hr; cbn [snd] in Hs
  end;
  [ repeat apply conj;
    [ unfold Http.json;
      match goal with
      | |- context [json_body ?x] =>
          destruct (json_body x) as [[]|]; assumption
      end
    | intros r' st' d H B; inversion H; subst; unfold Http.json; rewrite B;
      reflexivity
    | intros e' st' H; discriminate ]
  | repeat apply conj;
    [ assumption
    | intros r' st' d H; discriminate
    | intros e' st' H; inversion H; subst; reflexivity ] ].

(** X5.  [commands], [connections], [users], [groups] and [policies] each
    send one GET to their endpoint and return the array under their key,
    the empty list when the key is missing; a failure of the request is
    passed on unchanged. *)
Theorem list_accessors_read_one_array :
  reads_array commands "/workspace/v2/commands" "commands"
  /\ reads_array connections "/workspace/v2/connections" "connections"
  /\ reads_array users "/workspace/v2/users" "users"
  /\ reads_array groups "/workspace/v2/policy/group" "groups"
  /\ reads_array policies "/workspace/v2/policy" "policies".
Proof.
  repeat apply conj.
  - unfold reads_array, commands. reads_array_tac.
  - unfold reads_array, connections. reads_array_tac.
  - unfold reads_array, users. reads_array_tac.
  - unfold reads_array, groups. reads_array_tac.
  - unfold reads_array, policies. reads_array_tac.
Qed.

Ltac rejected_tac := eexists; eexists; reflexivity.

(** X6.  Every operation that takes an identifier or a payload rejects an
    empty one with a validation error before anything is sent. *)
Theorem empty_input_rejected (c : Client) (st : state) :
  (forall user, Py.truthy user = false -> rejected (add_user c user) st)
  /\ rejected (delete_user c "") st
  /\ (forall group, Py.truthy group = false -> rejected (add_group c group) st)
  /\ rejected (delete_group c "") st
  /\ rejected (get_file_download_url c "") st
  /\ (forall dest, rejected (file_download c "" dest) st)
  /\ rejected (get_trigger c "") st
  /\ (forall d tools pols, rejected (create_mcp_trigger c "" d tools pols) st)
  /\ (forall d tools, rejected (update_mcp_trigger c "" d tools) st)
  /\ rejected (delete_trigger c "") st
  /\ rejected (get_mcp_trigger_url c "") st
  /\ (forall cfg, rejected (add_tool_to_mcp_trigger c "" cfg) st)
  /\ (forall name cfg,
        Py.truthy cfg = false -> rejected (add_tool_to_mcp_trigger c name cfg) st)
  /\ (forall tool, rejected (remove_tool_from_mcp_trigger c "" tool) st)
  /\ (forall name, rejected (remove_tool_from_mcp_trigger c name "") st)
  /\ (forall token tool, rejected (test_mcp_protocol c "" token tool) st)
  /\ (forall url tool, rejected (test_mcp_protocol c url "" tool) st)
  /\ (forall d cs ns, rejected (create_policy c "" d cs ns) st)
  /\ rejected (get_policy c "") st
  /\ rejected (delete_policy c "") st.
Proof.
  repeat apply conj; intros; unfold rejected; try rejected_tac.
  - unfold add_user. rewrite H. rejected_tac.
  - unfold add_group. rewrite H. rejected_tac.
  - unfold add_tool_to_mcp_trigger. rewrite H.
    destruct (PyStr.truthy name); rejected_tac.
  - unfold remove_tool_from_mcp_trigger.
    destruct (PyStr.truthy name); rejected_tac.
  - unfold test_mcp_protocol. destruct (PyStr.truthy url); rejected_tac.
Qed.

Ltac deletes_tac :=
  intros c id st T; rewrite T; cbv beta iota delta [negb]; unfold bind, ret;
  match goal with
  | |- context [_request c "DELETE" ?ep None None None None st] =>
      let Hs := fresh "Hs" in
      let Hr := fresh "Hr" in
      pose proof (_request_sent c "DELETE" ep None None None None st) as Hs;
      destruct (_request c "DELETE" ep None None None None st)
        as [[? | ?] ?] eqn:Hr; cbn [snd] in Hs
  end;
  repeat apply conj;
  [ assumption | intros r' st' H; inversion H; subst; reflexivity
  | intros e' st' H; discriminate
  | assumption | intros r' st' H; discriminate
  | intros e' st' H; inversion H; subst; reflexivity ].

(** X7.  [delete_user], [delete_group], [delete_trigger] and
    [delete_policy], given a non-empty identifier, send exactly one
    DELETE to the resource's URL, without fetching it first; they return
    [True] for every response the transport layer accepts, without
    reading its body, and pass an error on unwrapped. *)
Theorem delete_operations :
  deletes delete_user "/workspace/v2/users/"
  /\ deletes delete_group "/workspace/v2/policy/group/"
  /\ deletes delete_trigger "/workspace/v2/triggers/"
  /\ deletes delete_policy "/workspace/v2/policy/".
Proof.
  repeat apply conj.
  - unfold deletes, delete_user. deletes_tac.
  - unfold deletes, delete_group. deletes_tac.
  - unfold deletes, delete_trigger. deletes_tac.
  - unfold deletes, delete_policy. deletes_tac.
Qed.

(* ===================================================================== *)
(** ** Downloading files *)
(* ===================================================================== *)

(** X8.  Given the JSON object the service answers with,
    [get_file_download_url] raises a file-operation error tagged
    "get_download_url", carrying the file id and the [err] field
    ("Unknown error" when there is none), unless [success] is truthy; with
    a truthy [success] it returns the [url] field, and [KeyError] escapes
    when that field is missing. *)
Theorem get_file_download_url_cases (c : Client) (file_id : string)
    (st st' : state) (r : Response) (d : Py.dict) :
  PyStr.truthy file_id = true ->
  _request c "GET" ("/workspace/v2/file-url/" ++ file_id) None None None None st
  = (Ok r, st') ->
  json_body r = Some (JObj d) ->
  (Py.truthy (Py.get_or (JObj d) "success" (JBool false)) = false ->
   get_file_download_url c file_id st
   = (Raise (FileOperationError
               (py_str (Py.get_or (JObj d) "err" (JStr "Unknown error")))
               (Some file_id) (Some "get_download_url")), st'))
  /\ (Py.truthy (Py.get_or (JObj d) "success" (JBool false)) = true ->
      forall u, Py.lookup "url" d = Some u ->
                get_file_download_url c file_id st = (Ok u, st'))
  /\ (Py.truthy (Py.get_or (JObj d) "success" (JBool false)) = true ->
      Py.lookup "url" d = None ->
      get_file_download_url c file_id st = (Raise (Builtin KeyError), st')).
Proof.
  intros T R B. unfold get_file_download_url. rewrite T.
  cbv beta iota delta [negb]. unfold bind, lift, raise. rewrite R.
  unfold Http.json. rewrite B. simpl.
  repeat apply conj; [intros F | intros F u U | intros F U];
    rewrite F; simpl; try rewrite U; reflexivity.
Qed.

Lemma fetch_sent (url : json) (st : state) :
  sent (snd (fetch url st))
  = (sent st ++ [mkRequest "GET" (py_str url) None None None None])%list.
Proof.
  unfold fetch.
  pose proof (transmit_sent (mkRequest "GET" (py_str url) None None None None) st)
    as T.
  destruct (transmit _ st) as [o st1]; simpl in T.
  destruct o; simpl; auto.
  destruct (Http.is_error_status (status_code r)); simpl; auto.
Qed.

Lemma fetch_never_raises (url : json) (st : state) :
  exists x, fst (fetch url st) = Ok x.
Proof.
  unfold fetch. destruct (transmit _ st) as [o st1].
  destruct o; simpl; eauto.
  destruct (Http.is_error_status (status_code r)); simpl; eauto.
Qed.

Lemma fetch_fails (url : json) (st : state) (o : outcome) (w : World)
    (msg : string) :
  send (mkRequest "GET" (py_str url) None None None None) (world st) = (o, w) ->
  request_fails o msg ->
  fetch url st
  = (Ok (inl msg),
     mkState w (sent st ++ [mkRequest "GET" (py_str url) None None None None])).
Proof.
  intros S F. unfold fetch, transmit. rewrite S.
  destruct F as [m|m|m|r [Lo Hi]]; try reflexivity.
  unfold Http.is_error_status.
  apply Z.leb_le in Lo. apply Z.ltb_lt in Hi. rewrite Lo, Hi. reflexivity.
Qed.

Lemma fetch_delivers (url : json) (st : state) (o : outcome) (w : World)
    (r : Response) :
  send (mkRequest "GET" (py_str url) None None None None) (world st) = (o, w) ->
  delivers o r ->
  fetch url st
  = (Ok (inr r),
     mkState w (sent st ++ [mkRequest "GET" (py_str url) None None None None])).
Proof.
  intros S D. unfold fetch, transmit. rewrite S.
  apply delivers_status in D as [-> E]. rewrite E. reflexivity.
Qed.

(** The download, in terms of what the fetch returns. *)
Lemma file_download_steps (c : Client) (file_name : string)
    (destination_path : option string) (st : state) :
  PyStr.truthy file_name = true ->
  let dest := download_destination file_name destination_path in
  let download := file_download c file_name destination_path st in
  (forall e st1,
     get_file_download_url c file_name st = (Raise e, st1) ->
     download = (Raise e, st1))
  /\ (forall url st1,
        get_file_download_url c file_name st = (Ok url, st1) ->
        sent (snd download)
        = (sent st1 ++ [mkRequest "GET" (py_str url) None None None None])%list
        /\ (forall msg st2,
              fetch url st1 = (Ok (inl msg), st2) ->
              download = (Raise (FileOperationError
                              ("Failed to download file: " ++ msg)
                              (Some file_name) (Some "download")), st2))
        /\ (forall response st2 w,
              fetch url st1 = (Ok (inr response), st2) ->
              write_bytes dest (response_content response) (world st2) = Some w ->
              download = (Ok true, mkState w (sent st2)))
        /\ (forall response st2,
              fetch url st1 = (Ok (inr response), st2) ->
              write_bytes dest (response_content response) (world st2) = None ->
              download = (Raise (Builtin OSError), st2))).
Proof.
  intros T dest download. subst dest download. split.
  - intros e st1 G. unfold file_download. rewrite T.
    cbv beta iota delta [negb]. unfold bind at 1. rewrite G. reflexivity.
  - intros url st1 G.
    assert (E : file_download c file_name destination_path st
                = match fetch url st1 with
                  | (Ok (inl msg), st2) =>
                      (Raise (FileOperationError
                                ("Failed to download file: " ++ msg)
                                (Some file_name) (Some "download")), st2)
                  | (Ok (inr response), st2) =>
                      match write_bytes
                              (download_destination file_name destination_path)
                              (response_content response) (world st2) with
                      | Some w => (Ok true, mkState w (sent st2))
                      | None => (Raise (Builtin OSError), st2)
                      end
                  | (Raise e, st2) => (Raise e, st2)
                  end).
    { unfold file_download, download_destination. rewrite T.
      cbv beta iota delta [negb]. unfold bind at 1. rewrite G.
      cbv zeta. unfold bind at 1.
      destruct (fetch url st1) as [[[msg|response]|e] st2]; reflexivity. }
    rewrite E. clear E.
    pose proof (fetch_sent url st1) as S.
    destruct (fetch_never_raises url st1) as [x X].
    destruct (fetch url st1) as [[[msg|response]|e] st2]; simpl in X, S;
      try discriminate.
    + repeat apply conj.
      * exact S.
      * intros msg' st2' H. inversion H; subst. reflexivity.
      * intros response st2' w H. discriminate.
      * intros response st2' H. discriminate.
    + repeat apply conj.
      * destruct (write_bytes _ _ (world st2)); exact S.
      * intros msg st2' H. discriminate.
      * intros response' st2' w H W. inversion H; subst. rewrite W. reflexivity.
      * intros response' st2' H W. inversion H; subst. rewrite W. reflexivity.
Qed.

(** X9.  Once the download URL is obtained, [file_download] sends one GET
    to that URL and writes the body to the destination given, or to the
    file name when none (or an empty one) is given; a failure of that GET
    (an exception of the transport, or a status from 400 to 599) is
    raised as a file-operation error tagged "download" carrying the file
    name, while a failure of the local write escapes as [OSError]; a
    failure to obtain the URL is passed on as it is, with nothing
    fetched. *)
Theorem file_download_composes (c : Client) (file_name : string)
    (destination_path : option string) (st : state) :
  PyStr.truthy file_name = true ->
  let dest := download_destination file_name destination_path in
  let download := file_download c file_name destination_path st in
  (forall e st1,
     get_file_download_url c file_name st = (Raise e, st1) ->
     download = (Raise e, st1))
  /\ (forall url st1 o w1,
        get_file_download_url c file_name st = (Ok url, st1) ->
        let get := mkRequest "GET" (py_str url) None None None None in
        send get (world st1) = (o, w1) ->
        let fetched := mkState w1 (sent st1 ++ [get]) in
        (forall msg,
           request_fails o msg ->
           download = (Raise (FileOperationError
                                ("Failed to download file: " ++ msg)
                                (Some file_name) (Some "download")), fetched))
        /\ (forall response w,
              delivers o response ->
              write_bytes dest (response_content response) w1 = Some w ->
              download = (Ok true, mkState w (sent st1 ++ [get])))
        /\ (forall response,
              delivers o response ->
              write_bytes dest (response_content response) w1 = None ->
              download = (Raise (Builtin OSError), fetched))).
Proof.
  intros T dest download.
  destruct (file_download_steps c file_name destination_path st T) as (F1 & F2).
  split; [exact F1|].
  intros url st1 o w1 G get S fetched.
  destruct (F2 url st1 G) as (_ & H1 & H2 & H3).
  repeat apply conj.
  - intros msg Hf. exact (H1 msg _ (fetch_fails url st1 o w1 msg S Hf)).
  - intros response w D W.
    exact (H2 response _ w (fetch_delivers url st1 o w1 response S D) W).
  - intros response D W.
    exact (H3 response _ (fetch_delivers url st1 o w1 response S D) W).
Qed.

(* ===================================================================== *)
(** ** Command execution, continued *)
(* ===================================================================== *)

(** The [try] block of [run], for a body already built. *)
Lemma run_try_raises (c : Client) (body : json)
    (command_text connection command : option string) (st st' : state) (e : exn) :
  try_except
    (bind (_request c "POST" "/trigger/v1/api" (Some body) None None None)
          (fun response => lift (Http.json response)))
    Exn.is_APIError
    (fun x => raise (CommandExecutionError
                       ("Command execution failed: " ++ Exn.str x)
                       (or_else command command_text) connection)) st
  = (Raise e, st') ->
  (exists x, Exn.is_APIError x = true
             /\ e = CommandExecutionError
                      ("Command execution failed: " ++ Exn.str x)
                      (or_else command command_text) connection)
  \/ (transport_error e = true /\ Exn.is_APIError e = false).
Proof.
  unfold_monad.
  destruct (_request c "POST" "/trigger/v1/api" (Some body) None None None st)
    as [[response|x] st1] eqn:R.
  - destruct (Http.json response) eqn:J; [discriminate|].
    destruct (json_raises_builtin _ _ J) as [k ->]. simpl.
    intros H; inversion H; subst. right. auto.
  - destruct (Exn.is_APIError x) eqn:A.
    + intros H; inversion H; subst. left. eauto.
    + intros H; inversion H; subst. right. split; [|exact A].
      eapply _request_raises; eauto.
Qed.

(** In free-text mode [run] sends the command line and nothing else. *)
Lemma run_text_sent (c : Client) (txt : string)
    (connection command : option string) (args : option run_args) (st : state) :
  PyStr.truthy txt = true ->
  sent (snd (run c (Some txt) connection command args st))
  = (sent st ++ [text_request c txt])%list.
Proof.
  intros T. unfold run. rewrite T. unfold_monad.
  pose proof (_request_sent c "POST" "/trigger/v1/api"
                (Some (JObj [("commandLine", JStr txt)])) None None None st) as S.
  destruct (_request c "POST" "/trigger/v1/api" _ None None None st)
    as [[response|e] st1]; cbn [snd] in S |- *.
  - destruct (Http.json response); simpl; [exact S|].
    destruct (Exn.is_APIError e); exact S.
  - destruct (Exn.is_APIError e); exact S.
Qed.

(** X10.  With a non-empty command text, [run] is in free-text mode
    whatever else is passed: it sends one request whose body is the
    command line alone, and [args] is never tokenized, so a string of
    arguments that [shlex] would reject changes nothing. *)
Theorem run_free_text_precedence (c : Client) (txt : string)
    (connection command : option string) (args : option run_args) (st : state) :
  PyStr.truthy txt = true ->
  sent (snd (run c (Some txt) connection command args st))
  = (sent st ++ [text_request c txt])%list
  /\ run c (Some txt) connection command args st
     = run c (Some txt) connection command None st.
Proof.
  intros T. split; [apply run_text_sent; exact T|].
  unfold run. rewrite T. reflexivity.
Qed.

(** X11.  Without a command text, [run] needs both a connection and a
    command: when either is missing or empty it raises the validation
    error before anything is sent, and before looking at [args]. *)
Theorem run_rejects_incomplete (c : Client)
    (command_text connection command : option string) (args : option run_args)
    (st : state) :
  Py.str_truthy command_text = false ->
  Py.str_truthy connection = false \/ Py.str_truthy command = false ->
  run c command_text connection command args st = (Raise run_invalid, st).
Proof.
  intros T H. unfold run, run_invalid.
  assert (E : match command, connection with
              | Some cmd, Some conn => PyStr.truthy cmd && PyStr.truthy conn
              | _, _ => false
              end = false).
  { destruct command as [cmd|]; destruct connection as [conn|]; simpl in *;
      auto; destruct H as [H|H]; rewrite H; auto using andb_false_r. }
  destruct command_text as [txt|]; simpl in T; [rewrite T|];
    destruct command as [cmd|]; destruct connection as [conn|];
    try rewrite E; reflexivity.
Qed.

(** The only exception of the tokenizer is [ValueError]. *)
Lemma lex_raises_value_error (s : string) (st : Shlex.state) (tok : string)
    (quoted : bool) (acc : list string) (e : exn) :
  Shlex.lex s st tok quoted acc = Raise e -> e = Builtin ValueError.
Proof.
  revert st tok quoted acc. induction s as [|ch r IH]; intros st tok quoted acc.
  - destruct st; simpl; intros H; inversion H; reflexivity.
  - destruct st; simpl;
      repeat match goal with
             | |- (if ?b then _ else _) = _ -> _ => destruct b
             end; apply IH.
Qed.

Lemma args_list_raises_value_error (args : option run_args) (e : exn) :
  args_list args = Raise e -> e = Builtin ValueError.
Proof.
  destruct args as [[s|l]|]; simpl; try discriminate.
  destruct (PyStr.truthy s); [|discriminate].
  apply lex_raises_value_error.
Qed.

(** Every way [run] can raise. *)
Lemma run_raises_cases (c : Client)
    (command_text connection command : option string) (args : option run_args)
    (st st' : state) (e : exn) :
  run c command_text connection command args st = (Raise e, st') ->
  (e = run_invalid /\ st' = st /\ Py.str_truthy command_text = false
   /\ (Py.str_truthy connection = false \/ Py.str_truthy command = false))
  \/ (args_list args = Raise e /\ e = Builtin ValueError /\ st' = st)
  \/ (exists x, Exn.is_APIError x = true
                /\ e = CommandExecutionError
                         ("Command execution failed: " ++ Exn.str x)
                         (or_else command command_text) connection)
  \/ (transport_error e = true /\ Exn.is_APIError e = false).
Proof.
  unfold run, run_invalid. cbv zeta.
  set (structured :=
         match command, connection with
         | Some cmd, Some conn =>
             if PyStr.truthy cmd && PyStr.truthy conn
             then bind (lift (args_list args))
                    (fun toks =>
                       ret (JObj [("command", JStr cmd);
                                  ("connection", JStr conn);
                                  ("arguments", Py.strs toks)]))
             else raise _
         | _, _ => raise _
         end).
  assert (Hs : forall body st1, structured st = (Ok body, st1) -> st1 = st).
  { subst structured. intros body st1.
    destruct command as [cmd|]; [|discriminate].
    destruct connection as [conn|]; [|discriminate].
    destruct (PyStr.truthy cmd && PyStr.truthy conn); [|discriminate].
    unfold bind, lift, ret. destruct (args_list args); [|discriminate].
    intros H; inversion H; reflexivity. }
  assert (Hr : forall x st1, structured st = (Raise x, st1) ->
               (x = run_invalid /\ st1 = st
                /\ (Py.str_truthy connection = false
                    \/ Py.str_truthy command = false))
               \/ (args_list args = Raise x /\ x = Builtin ValueError
                   /\ st1 = st)).
  { subst structured. unfold run_invalid. intros x st1.
    destruct command as [cmd|];
      [|intros H; inversion H; left; auto].
    destruct connection as [conn|];
      [|intros H; inversion H; left; auto].
    destruct (PyStr.truthy cmd && PyStr.truthy conn) eqn:B.
    - unfold bind, lift, ret.
      destruct (args_list args) as [toks|y] eqn:A; [discriminate|].
      intros H; inversion H; subst. right.
      split; [reflexivity|]. split; [|reflexivity].
      eapply args_list_raises_value_error; exact A.
    - intros H; inversion H; subst. left.
      split; [reflexivity|]. split; [reflexivity|].
      apply andb_false_iff in B. simpl.
      destruct B as [B|B]; [right | left]; exact B. }
  assert (Main : forall (build : M json),
             (forall body st1, build st = (Ok body, st1) -> st1 = st) ->
             (forall x st1, build st = (Raise x, st1) ->
                Py.str_truthy command_text = false
                /\ ((x = run_invalid /\ st1 = st
                     /\ (Py.str_truthy connection = false
                         \/ Py.str_truthy command = false))
                    \/ (args_list args = Raise x /\ x = Builtin ValueError
                        /\ st1 = st))) ->
             bind build
               (fun body =>
                  try_except
                    (bind (_request c "POST" "/trigger/v1/api" (Some body)
                             None None None)
                          (fun response => lift (Http.json response)))
                    Exn.is_APIError
                    (fun x => raise (CommandExecutionError
                                       ("Command execution failed: "
                                        ++ Exn.str x)
                                       (or_else command command_text)
                                       connection))) st = (Raise e, st') ->
             (e = run_invalid /\ st' = st
              /\ Py.str_truthy command_text = false
              /\ (Py.str_truthy connection = false
                  \/ Py.str_truthy command = false))
             \/ (args_list args = Raise e /\ e = Builtin ValueError /\ st' = st)
             \/ (exists x, Exn.is_APIError x = true
                           /\ e = CommandExecutionError
                                    ("Command execution failed: " ++ Exn.str x)
                                    (or_else command command_text) connection)
             \/ (transport_error e = true /\ Exn.is_APIError e = false)).
  { intros build Hok Hraise. unfold bind at 1.
    destruct (build st) as [[body|x] st1] eqn:B.
    - pose proof (Hok body st1 eq_refl) as Q. subst st1. intros H.
      apply run_try_raises in H. destruct H; auto.
    - intros H; inversion H; subst.
      destruct (Hraise _ _ eq_refl) as [T [(-> & -> & D)|D]]; auto. }
  destruct command_text as [txt|]; [destruct (PyStr.truthy txt) eqn:T|].
  - apply Main.
    + intros body st1 H; inversion H; reflexivity.
    + intros x st1 H; discriminate.
  - apply Main; [assumption|]. intros x st1 H. split; [exact T | auto].
  - apply Main; [assumption|]. intros x st1 H. split; [reflexivity | auto].
Qed.

(** X12.  Whatever [run] raises is one of four things: the validation
    error, with nothing sent, and only when there is no command text and
    the connection or the command is missing; the [ValueError] of [shlex]
    on the arguments, with nothing sent; a command-execution error
    wrapping an API error of the request (rate-limit errors included),
    carrying the command, or the command text when there is no command,
    and the connection; or an exception of the transport layer that is not
    an API error (authentication, connection, timeout, a body that is not
    JSON), passed on unwrapped.  So [run] never raises an API error. *)
Theorem run_raises_only (c : Client)
    (command_text connection command : option string) (args : option run_args)
    (st st' : state) (e : exn) :
  run c command_text connection command args st = (Raise e, st') ->
  ((e = run_invalid /\ st' = st /\ Py.str_truthy command_text = false
    /\ (Py.str_truthy connection = false \/ Py.str_truthy command = false))
   \/ (args_list args = Raise e /\ e = Builtin ValueError /\ st' = st)
   \/ (exists x, Exn.is_APIError x = true
                 /\ e = CommandExecutionError
                          ("Command execution failed: " ++ Exn.str x)
                          (or_else command command_text) connection)
   \/ (transport_error e = true /\ Exn.is_APIError e = false))
  /\ Exn.is_APIError e = false.
Proof.
  intros H. pose proof (run_raises_cases _ _ _ _ _ _ _ _ H) as C.
  split; [exact C|].
  destruct C as [(-> & _)|[(_ & -> & _)|[(x & _ & ->)|[_ A]]]];
    try reflexivity; exact A.
Qed.

(* ===================================================================== *)
(** ** Triggers, continued *)
(* ===================================================================== *)

(** X13.  The fallback of [get_trigger] is taken for API errors only (any
    of them, a rate-limit error too): then the listing is requested.  Any
    other failure of the direct lookup (authentication, connection,
    timeout) is passed on after that single request. *)
Theorem get_trigger_falls_back_on_api_errors_only (c : Client) (name : string)
    (st st1 : state) (e : exn) :
  PyStr.truthy name = true ->
  _request c "GET" ("/workspace/v2/triggers/" ++ name) None None None None st
  = (Raise e, st1) ->
  (Exn.is_APIError e = false ->
   get_trigger c name st = (Raise e, st1)
   /\ sent st1 = (sent st ++ [direct_get c name])%list)
  /\ (Exn.is_APIError e = true ->
      sent (snd (get_trigger c name st))
      = (sent st ++ [direct_get c name; list_get c])%list).
Proof.
  intros T R. rewrite (get_trigger_eq c name st T), R.
  pose proof (_request_sent c "GET" ("/workspace/v2/triggers/" ++ name)
                None None None None st) as S.
  rewrite R in S. cbn [snd] in S. split; intros A; rewrite A.
  - split; [reflexivity | exact S].
  - pose proof (triggers_sent c None st1) as L.
    destruct (triggers c None st1) as [[all|x] st2]; cbn [snd] in L |- *;
      rewrite L, S, <- app_assoc; reflexivity.
Qed.

(** X14.  On a trigger whose kind is not "mcp", [update_mcp_trigger],
    [add_tool_to_mcp_trigger] and [remove_tool_from_mcp_trigger] raise the
    MCP error naming the trigger, and nothing but the reads of the fetch
    has been sent. *)
Theorem mcp_operations_require_mcp_kind (c : Client) (name : string)
    (st st1 : state) (trigger : json) :
  PyStr.truthy name = true ->
  get_trigger c name st = (Ok trigger, st1) ->
  Py.is_object trigger = true ->
  has_kind "mcp" trigger = false ->
  let refused :=
    MCPError ("'" ++ name ++ "' is not an MCP trigger") (Some name) in
  (forall description tools,
     update_mcp_trigger c name description tools st = (Raise refused, st1))
  /\ (forall tool_config,
        Py.truthy tool_config = true ->
        add_tool_to_mcp_trigger c name tool_config st = (Raise refused, st1))
  /\ (forall tool_name,
        PyStr.truthy tool_name = true ->
        remove_tool_from_mcp_trigger c name tool_name st = (Raise refused, st1))
  /\ exists l, sent st1 = (sent st ++ l)%list
               /\ Forall (fun r => Http.is_GET r = true) l.
Proof.
  intros T G O K refused. subst refused. unfold has_kind in K.
  repeat apply conj.
  - intros description tools.
    rewrite (update_mcp_trigger_eq c name _ _ st T), G, (get_object _ _ O), K.
    reflexivity.
  - intros cfg Tc. unfold add_tool_to_mcp_trigger. rewrite T, Tc.
    cbv beta iota delta [negb]. unfold bind at 1. rewrite G.
    unfold bind at 1. unfold lift at 1. rewrite (get_object _ _ O), K.
    reflexivity.
  - intros tool Tt. unfold remove_tool_from_mcp_trigger. rewrite T, Tt.
    cbv beta iota delta [negb]. unfold bind at 1. rewrite G.
    unfold bind at 1. unfold lift at 1. rewrite (get_object _ _ O), K.
    reflexivity.
  - destruct (get_trigger_sent c name st) as (l & S & F & _).
    rewrite G in S. exists l. auto.
Qed.

(** X15.  Once the creation request is answered with a JSON object,
    [create_mcp_trigger] returns the success envelope when the object has
    a truthy [url] (even if it also has an [err]), raises the MCP error
    with the [err] field and the trigger name when it has a truthy [err]
    and no [url], and returns the object as it is otherwise; an API error
    of the request is raised as an MCP error naming the trigger, any other
    exception is passed on. *)
Theorem create_mcp_trigger_response (c : Client) (name description : string)
    (tools : option (list json)) (pols : option (list string))
    (payload : json) (st : state) :
  PyStr.truthy name = true ->
  create_payload name description tools pols = Ok payload ->
  (forall r st' d,
     _request c "POST" "/workspace/v2/triggers" (Some payload) None None None st
     = (Ok r, st') ->
     json_body r = Some (JObj d) ->
     create_mcp_trigger c name description tools pols st
     = (if Py.truthy (Py.field (JObj d) "url")
        then Ok (created name (Py.field (JObj d) "url")
                   (Py.field (JObj d) "apiToken"))
        else if Py.truthy (Py.field (JObj d) "err")
             then Raise (MCPError (py_str (Py.field (JObj d) "err")) (Some name))
             else Ok (JObj d), st'))
  /\ (forall e st',
        _request c "POST" "/workspace/v2/triggers" (Some payload) None None None st
        = (Raise e, st') ->
        create_mcp_trigger c name description tools pols st
        = (if Exn.is_APIError e
           then Raise (MCPError ("Failed to create MCP trigger: " ++ Exn.str e)
                         (Some name))
           else Raise e, st')).
Proof.
  intros T P. unfold create_mcp_trigger. rewrite T.
  cbv beta iota delta [negb]. unfold_monad. rewrite P. split.
  - intros r st' d R B. rewrite R. unfold Http.json. rewrite B.
    unfold created. simpl.
    destruct (Py.lookup "url" d) as [u|]; simpl.
    + destruct (Py.truthy u); [destruct (Py.lookup "apiToken" d); reflexivity|].
      destruct (Py.lookup "err" d) as [x|]; simpl; [|reflexivity].
      destruct (Py.truthy x); reflexivity.
    + destruct (Py.lookup "err" d) as [x|]; simpl; [|reflexivity].
      destruct (Py.truthy x); reflexivity.
  - intros e st' R. rewrite R. destruct (Exn.is_APIError e); reflexivity.
Qed.

(* ===================================================================== *)
(** ** File upload, continued *)
(* ===================================================================== *)

(** X16.  With [input_file] alone, a path that exists but cannot be
    opened makes [OSError] escape before anything is sent; a file that
    opens is uploaded in one request under the name given, or under the
    last component of the path when no name is given, as
    application/octet-stream; when that request fails with an API error,
    the file-operation error carries the [file_name] argument as it was
    passed, so no name at all when none was given. *)
Theorem file_upload_from_path (c : Client) (file_name : option string)
    (path : string) (st : state) :
  (file_at path (world st) = Unreadable ->
   file_upload c None file_name (Some path) st = (Raise (Builtin OSError), st))
  /\ (file_at path (world st) = Readable ->
      sent (snd (file_upload c None file_name (Some path) st))
      = (sent st ++ [path_upload c (upload_name file_name path) path])%list
      /\ (forall e st',
            _request c "POST" "/workspace/v2/files" None
              (Some [("filename", upload_name file_name path)])
              (Some [("file", mkUpload (upload_name file_name path)
                                (OpenFile path) "application/octet-stream")])
              None st = (Raise e, st') ->
            Exn.is_APIError e = true ->
            file_upload c None file_name (Some path) st
            = (Raise (FileOperationError
                        ("Failed to upload file: " ++ Exn.str e)
                        file_name (Some "upload")), st'))).
Proof.
  unfold file_upload, upload_name, path_upload. split.
  - intros F. unfold bind at 1. rewrite F. reflexivity.
  - intros F. split.
    + unfold bind at 1. rewrite F. unfold try_except, bind, ret. cbn [fst snd].
      match goal with
      | |- context [_request c "POST" "/workspace/v2/files" None ?d ?f None st] =>
          pose proof (_request_sent c "POST" "/workspace/v2/files" None d f None st)
            as S;
          destruct (_request c "POST" "/workspace/v2/files" None d f None st)
            as [[response|e] st1]
      end; cbn [snd] in S |- *.
      * exact S.
      * destruct (Exn.is_APIError e); exact S.
    + intros e st' R A. unfold bind at 1. rewrite F.
      unfold try_except, bind, ret. cbn [fst snd]. rewrite R, A. reflexivity.
Qed.

Lemma getitem_raises_builtin (j : json) (k : string) :
  raises_builtin (Py.getitem j k).
Proof.
  intros e; destruct j; simpl; intros H; inversion H; eauto.
  destruct (Py.lookup k fields); inversion H; eauto.
Qed.

Ltac builtin_step lem :=
  let H := fresh "H" in
  intros H; inversion H; subst; eapply lem; eauto.

Lemma collect_raises_builtin (tools cs ns : list json) :
  raises_builtin (collect tools cs ns).
Proof.
  revert cs ns. induction tools as [|t l IH]; intros cs ns e; simpl;
    [discriminate|].
  unfold res_bind.
  destruct (Py.get t "overrides" (JObj [])) as [o|] eqn:G1;
    [|builtin_step get_raises_builtin].
  destruct (Py.get o "command" JNull) as [cmd|] eqn:G2;
    [|builtin_step get_raises_builtin].
  destruct (Py.truthy cmd).
  - destruct (Py.getitem o "command") as [v|] eqn:I1;
      [|builtin_step getitem_raises_builtin].
    destruct (Py.get o "connection" JNull) as [conn|] eqn:G3;
      [|builtin_step get_raises_builtin].
    destruct (Py.truthy conn); [|apply IH].
    destruct (Py.getitem o "connection") as [v'|] eqn:I2;
      [apply IH | builtin_step getitem_raises_builtin].
  - destruct (Py.get o "connection" JNull) as [conn|] eqn:G3;
      [|builtin_step get_raises_builtin].
    destruct (Py.truthy conn); [|apply IH].
    destruct (Py.getitem o "connection") as [v'|] eqn:I2;
      [apply IH | builtin_step getitem_raises_builtin].
Qed.

Lemma list_set_raises_builtin (l : list json) : raises_builtin (list_set l).
Proof.
  intros e. unfold list_set. destruct (forallb Py.hashable l);
    intros H; inversion H; eauto.
Qed.

Lemma create_payload_raises_builtin (name description : string)
    (tools : option (list json)) (pols : option (list string)) :
  raises_builtin (create_payload name description tools pols).
Proof.
  intros e. unfold create_payload, res_bind.
  destruct (collect (or_nil tools) [] []) as [p|] eqn:C;
    [|builtin_step collect_raises_builtin].
  destruct (list_set (fst p)) eqn:L1; [|builtin_step list_set_raises_builtin].
  destruct (list_set (snd p)) eqn:L2; [|builtin_step list_set_raises_builtin].
  discriminate.
Qed.

(** X17.  [file_upload] and [create_mcp_trigger] never raise an API
    error (nor its rate-limit subclass): the ones of their request are
    re-raised as a file-operation error and as an MCP error. *)
Theorem wrappers_hide_api_errors (c : Client) (st st' : state) (e : exn) :
  (forall file_content file_name input_file,
     file_upload c file_content file_name input_file st = (Raise e, st') ->
     Exn.is_APIError e = false)
  /\ (forall name description tools pols,
        create_mcp_trigger c name description tools pols st = (Raise e, st') ->
        Exn.is_APIError e = false).
Proof.
  split.
  - intros file_content file_name input_file. unfold file_upload.
    unfold bind at 1.
    match goal with
    | |- context [match ?form st with _ => _ end] =>
        destruct (form st) as [[form_ok|x] st1] eqn:B
    end.
    + unfold try_except, bind, ret.
      destruct (_request c "POST" "/workspace/v2/files" None _ _ None st1)
        as [[response|x] st2] eqn:R.
      * discriminate.
      * destruct (Exn.is_APIError x) eqn:A;
          intros H; inversion H; subst; auto.
    + intros H; inversion H; subst.
      destruct file_content as [content|].
      * destruct file_name as [fname|]; [destruct (PyStr.truthy fname)|];
          inversion B; reflexivity.
      * destruct input_file as [path|]; [|inversion B; reflexivity].
        destruct (file_at path (world st)); inversion B; reflexivity.
  - intros name description tools pols. unfold create_mcp_trigger.
    destruct (PyStr.truthy name) eqn:T; cbv beta iota delta [negb];
      [|intros H; inversion H; reflexivity].
    unfold bind at 1. unfold lift at 1.
    destruct (create_payload name description tools pols) as [payload|x] eqn:P.
    + unfold try_except.
      match goal with
      | |- context [match ?m st with _ => _ end] =>
          destruct (m st) as [[a|x] st1] eqn:B
      end.
      * discriminate.
      * destruct (Exn.is_APIError x) eqn:A; intros H; inversion H; subst;
          [reflexivity | exact A].
    + intros H; inversion H; subst.
      destruct (create_payload_raises_builtin _ _ _ _ _ P) as [k ->].
      reflexivity.
Qed.

(* ===================================================================== *)
(** ** Adding a tool *)
(* ===================================================================== *)

Lemma new_tool_object (id : string) (count : nat) (cfg : Py.dict) :
  new_tool id count (JObj cfg)
  = Ok (JObj [("instanceId", JStr id); ("templateId", JStr id);
              ("overrides", JObj (new_overrides count cfg))]).
Proof. reflexivity. Qed.

Lemma without_tool_app (n : string) (l1 l2 : list json) :
  without_tool n (l1 ++ l2) = (without_tool n l1 ++ without_tool n l2)%list.
Proof. unfold without_tool. apply filter_app. Qed.

(** X18.  The tool instance built from a tool configuration has the
    fresh identifier as both [instanceId] and [templateId]; its overrides
    take name, description, connection and command from the
    configuration, and the configuration's [arguments] under the key
    [argumentOverrides]; a configuration without a name is named
    "tool_N", N being one more than the number of tools the trigger has.
    Removing, by its name, a tool just appended to a list in which no
    other tool has that name gives the list back. *)
Theorem new_tool_fields (id : string) (count : nat) (cfg : Py.dict) :
  exists tool overrides,
    new_tool id count (JObj cfg) = Ok tool
    /\ Py.field tool "instanceId" = JStr id
    /\ Py.field tool "templateId" = JStr id
    /\ overrides_of tool = JObj overrides
    /\ tool_shape tool = true
    /\ (forall k, In k ["name"; "description"; "connection"; "command"] ->
                  forall v, Py.lookup k cfg = Some v ->
                            Py.lookup k overrides = Some v)
    /\ (forall v, Py.lookup "arguments" cfg = Some v ->
                  Py.lookup "argumentOverrides" overrides = Some v)
    /\ (Py.lookup "name" cfg = None ->
        Py.lookup "name" overrides
        = Some (JStr ("tool_" ++ PyStr.of_Z (Z.of_nat count + 1))))
    /\ (forall n items,
          Py.lookup "name" cfg = Some (JStr n) ->
          existsb (tool_named n) items = false ->
          tool_named n tool = true
          /\ without_tool n (items ++ [tool]) = items).
Proof.
  eexists. exists (new_overrides count cfg).
  split; [apply new_tool_object|].
  repeat apply conj; try reflexivity.
  - intros k Hk v L. unfold new_overrides. simpl in Hk.
    destruct Hk as [<-|[<-|[<-|[<-|[]]]]]; simpl; rewrite L; reflexivity.
  - intros v L. unfold new_overrides. simpl. rewrite L. reflexivity.
  - intros L. unfold new_overrides. simpl. rewrite L. reflexivity.
  - intros n items L E.
    assert (N : tool_named n
                  (JObj [("instanceId", JStr id); ("templateId", JStr id);
                         ("overrides", JObj (new_overrides count cfg))]) = true).
    { unfold tool_named, overrides_of, new_overrides. simpl. rewrite L.
      simpl. apply String.eqb_refl. }
    split; [exact N|].
    rewrite without_tool_app. unfold without_tool at 2. simpl.
    rewrite N. simpl. rewrite app_nil_r.
    unfold without_tool. apply forallb_filter_id.
    rewrite no_match_forallb in E. apply negb_false_iff in E. exact E.
Qed.

(** X19.  On a trigger of kind "mcp", [add_tool_to_mcp_trigger] runs
    [update_mcp_trigger] with the stored tool instances, in their order,
    followed by the new one; every PUT it sends carries exactly that list
    as the tool-instance list. *)
Theorem add_tool_appends (c : Client) (name : string) (cfg : Py.dict)
    (st st1 : state) (trigger : json) (items : list json)
    (id : string) (w : World) :
  PyStr.truthy name = true ->
  Py.truthy (JObj cfg) = true ->
  get_trigger c name st = (Ok trigger, st1) ->
  has_kind "mcp" trigger = true ->
  Py.is_object (mcp_info_of trigger) = true ->
  tool_instances_of trigger = JArr items ->
  uuid4 (world st1) = (id, w) ->
  let tool := JObj [("instanceId", JStr id); ("templateId", JStr id);
                    ("overrides", JObj (new_overrides (length items) cfg))] in
  let added := add_tool_to_mcp_trigger c name (JObj cfg) st in
  added = update_mcp_trigger c name None (Some (items ++ [tool])%list)
            (mkState w (sent st1))
  /\ exists l, sent (snd added) = (sent st1 ++ l)%list
               /\ Forall (fun r => Http.is_PUT r = true ->
                                   carries_tools (items ++ [tool]) r) l.
Proof.
  intros T Tc G K Oi I U tool added.
  assert (E : added = update_mcp_trigger c name None
                        (Some (items ++ [tool])%list) (mkState w (sent st1))).
  { subst added. unfold add_tool_to_mcp_trigger. rewrite T, Tc.
    cbv beta iota delta [negb]. unfold bind at 1. rewrite G.
    unfold bind at 1. unfold lift at 1.
    rewrite (get_object _ _ (has_kind_object _ _ K)).
    unfold has_kind in K. rewrite K. cbv beta iota delta [negb].
    unfold bind at 1. unfold lift at 1.
    rewrite (get_or_object _ _ _ (has_kind_object _ _ K)).
    fold (mcp_info_of trigger).
    unfold bind at 1. unfold lift at 1.
    rewrite (get_or_object _ _ _ Oi). fold (tool_instances_of trigger).
    rewrite I. unfold bind at 1. unfold lift at 1. simpl Py.iter. cbv iota.
    unfold bind at 1. rewrite U.
    unfold bind at 1. unfold lift at 1. rewrite new_tool_object.
    reflexivity. }
  split; [exact E|]. rewrite E.
  destruct (update_mcp_trigger_sent c name None (Some (items ++ [tool])%list)
              (mkState w (sent st1)) T) as (l & Sl & Pl).
  exists l. split; [exact Sl|].
  eapply Forall_impl; [|exact Pl]. simpl.
  intros r Hr Hp. destruct (Hr Hp) as (existing & payload & -> & P).
  exists payload. split; [reflexivity|].
  eapply update_payload_tools; eauto.
Qed.

(* ===================================================================== *)
(** ** Tokens that need no quoting *)
(* ===================================================================== *)

Lemma lex_plain_word (w rest tok : string) (quoted : bool) (acc : list string) :
  plain w = true ->
  Shlex.lex (w ++ rest) Shlex.Word tok quoted acc
  = Shlex.lex rest Shlex.Word (tok ++ w) quoted acc.
Proof.
  revert tok. induction w as [|ch w IH]; intros tok P.
  - simpl. rewrite append_empty. reflexivity.
  - simpl in P. apply andb_true_iff in P as [Pc Pw].
    unfold plain_char in Pc. apply negb_true_iff in Pc.
    apply orb_false_iff in Pc as [Pc Pe]. apply orb_false_iff in Pc as [Pw' Pq].
    simpl. rewrite Pw', Pq, Pe. rewrite IH by exact Pw.
    rewrite append_snoc. reflexivity.
Qed.

Lemma lex_plain_tokens (tokens acc : list string) :
  forallb plain_token tokens = true ->
  Shlex.lex (join_spaces tokens) Shlex.Space EmptyString false acc
  = Ok (rev acc ++ tokens)%list.
Proof.
  revert acc. induction tokens as [|t r IH]; intros acc F.
  - simpl. rewrite app_nil_r. reflexivity.
  - simpl in F. apply andb_true_iff in F as [Ft Fr].
    unfold plain_token in Ft. apply andb_true_iff in Ft as [Tt Pt].
    destruct t as [|ch t]; [discriminate|].
    simpl in Pt. apply andb_true_iff in Pt as [Pc Pt].
    pose proof Pc as Pc'. unfold plain_char in Pc'. apply negb_true_iff in Pc'.
    apply orb_false_iff in Pc' as [Pc' Pe].
    apply orb_false_iff in Pc' as [Pw Pq].
    destruct r as [|t' r'].
    + simpl. rewrite Pw, Pe, Pq.
      rewrite <- (append_empty t) at 1. rewrite lex_plain_word by exact Pt.
      simpl. unfold Shlex.emit. simpl. reflexivity.
    + change (join_spaces (String ch t :: t' :: r'))
        with (String ch (t ++ String " "%char (join_spaces (t' :: r'))))%string.
      set (rest := join_spaces (t' :: r')) in *.
      simpl. rewrite Pw, Pe, Pq.
      rewrite lex_plain_word by exact Pt.
      simpl. subst rest. rewrite (IH (String ch t :: acc) Fr).
      simpl. rewrite <- app_assoc. reflexivity.
Qed.

(** X20.  Tokens that are not empty and contain no whitespace, quote or
    backslash survive the trip through a string: joined by single spaces
    and passed to [run] as a string, they give the same request and the
    same result as passed as a list. *)
Theorem run_joined_tokens (c : Client) (command_text : option string)
    (connection command : string) (tokens : list string) (st : state) :
  Py.str_truthy command_text = false ->
  PyStr.truthy connection = true ->
  PyStr.truthy command = true ->
  forallb plain_token tokens = true ->
  Shlex.split (join_spaces tokens) = Ok tokens
  /\ run c command_text (Some connection) (Some command)
       (Some (ArgsStr (join_spaces tokens))) st
     = run c command_text (Some connection) (Some command)
         (Some (ArgsList tokens)) st.
Proof.
  intros T Hc Hm F.
  assert (S : Shlex.split (join_spaces tokens) = Ok tokens)
    by (apply (lex_plain_tokens tokens [] F)).
  split; [exact S|].
  apply (run_structured c command_text connection command
           (Some (ArgsList tokens)) tokens st T Hc Hm); [reflexivity|].
  rewrite args_list_str. exact S.
Qed.

(* ===================================================================== *)
(** ** Policies *)
(* ===================================================================== *)

Lemma get_policy_eq (c : Client) (name : string) (st : state) :
  PyStr.truthy name = true ->
  get_policy c name st =
  match _request c "GET" ("/workspace/v2/policy/" ++ name)
          None None None None st with
  | (Ok response, st1) => (Http.json response, st1)
  | (Raise e, st1) =>
      if Exn.is_APIError e then
        match policies c st1 with
        | (Ok all, st2) =>
            (match Py.iter all with
             | Ok items =>
                 match scan_by_name name items with
                 | Ok (Some t) => Ok t
                 | Ok None => Raise (ResourceNotFoundError "Policy" name)
                 | Raise x => Raise x
                 end
             | Raise x => Raise x
             end, st2)
        | (Raise x, st2) => (Raise x, st2)
        end
      else (Raise e, st1)
  end.
Proof.
  intros Hn. unfold get_policy. rewrite Hn. simpl. unfold_monad.
  destruct (_request c "GET" _ None None None None st) as [[response|e] st1].
  - destruct (Http.json response) eqn:J; [reflexivity|].
    destruct (json_raises_builtin _ _ J) as [k ->]. reflexivity.
  - destruct (Exn.is_APIError e); [|reflexivity].
    destruct (policies c st1) as [[all|x] st2]; [|reflexivity].
    destruct (Py.iter all) as [items|x]; [|reflexivity].
    destruct (scan_by_name name items) as [[t|]|x]; reflexivity.
Qed.

Lemma policies_sent (c : Client) (st : state) :
  sent (snd (policies c st)) = (sent st ++ [list_get_policies c])%list.
Proof.
  unfold policies, list_get_policies, api_request. unfold_monad.
  pose proof (_request_sent c "GET" "/workspace/v2/policy" None None None None st)
    as S.
  destruct (_request c "GET" "/workspace/v2/policy" None None None None st)
    as [[response|e] st1]; cbn [snd] in S |- *; [|exact S].
  destruct (Http.json response); [|exact S].
  destruct (Py.get _ _ _); exact S.
Qed.

(** X21.  [get_policy] works as [get_trigger] does: the direct lookup
    first, whose body it returns; on an API error the listing of policies,
    from which it returns the first entry with that name, or raises
    resource-not-found for ("Policy", name); any other failure of the
    direct lookup is passed on without listing. *)
Theorem get_policy_fallback (c : Client) (name : string) (st : state) :
  PyStr.truthy name = true ->
  (forall response st1,
     _request c "GET" ("/workspace/v2/policy/" ++ name) None None None None st
     = (Ok response, st1) ->
     get_policy c name st = (Http.json response, st1))
  /\ (forall e st1 items st2,
        _request c "GET" ("/workspace/v2/policy/" ++ name) None None None None st
        = (Raise e, st1) ->
        Exn.is_APIError e = true ->
        policies c st1 = (Ok (JArr items), st2) ->
        objects items ->
        get_policy c name st
        = (match find (has_name name) items with
           | Some p => Ok p
           | None => Raise (ResourceNotFoundError "Policy" name)
           end, st2)
        /\ sent st2
           = (sent st ++ [direct_get_policy c name; list_get_policies c])%list)
  /\ (forall e st1,
        _request c "GET" ("/workspace/v2/policy/" ++ name) None None None None st
        = (Raise e, st1) ->
        Exn.is_APIError e = false ->
        get_policy c name st = (Raise e, st1)
        /\ sent st1 = (sent st ++ [direct_get_policy c name])%list).
Proof.
  intros Hn.
  pose proof (_request_sent c "GET" ("/workspace/v2/policy/" ++ name)
                None None None None st) as S.
  repeat apply conj.
  - intros response st1 R. rewrite (get_policy_eq c name st Hn), R. reflexivity.
  - intros e st1 items st2 R A P O. rewrite R in S. cbn [snd] in S. split.
    + rewrite (get_policy_eq c name st Hn), R, A, P. simpl.
      rewrite (scan_by_name_find name items O).
      destruct (find (has_name name) items); reflexivity.
    + pose proof (policies_sent c st1) as Sp. rewrite P in Sp.
      cbn [snd] in Sp. rewrite Sp, S, <- app_assoc. reflexivity.
  - intros e st1 R A. rewrite R in S. cbn [snd] in S. split; [|exact S].
    rewrite (get_policy_eq c name st Hn), R, A. reflexivity.
Qed.

(* ===================================================================== *)
(** ** MCP protocol test, continued *)
(* ===================================================================== *)

Lemma mcp_post_never_raises (c : Client) (mcp_url api_token : string)
    (body : json) (st : state) :
  exists x, fst (mcp_post c mcp_url api_token body st) = Ok x.
Proof.
  unfold mcp_post. destruct (transmit _ st) as [o st1].
  destruct o; simpl; eauto.
  destruct (Http.is_error_status (status_code r)); simpl; eauto.
  destruct (json_body r); simpl; eauto.
Qed.

(** X22.  Whatever the endpoint answers, [test_mcp_protocol] sends one,
    two or three requests and no more: initialize, then tools/list, then
    a single tools/call with empty arguments, each a POST to the given URL
    carrying the given bearer token; and when it returns, the result has
    exactly the keys initialize, tools, execution and success, with
    [success] true only after all three requests. *)
Theorem test_mcp_protocol_sequence (c : Client) (mcp_url api_token : string)
    (tool_name : option string) (st : state) :
  PyStr.truthy mcp_url = true ->
  PyStr.truthy api_token = true ->
  let initialize := initialize_post mcp_url api_token in
  let tools_list := tools_list_post mcp_url api_token in
  exists l,
    sent (snd (test_mcp_protocol c mcp_url api_token tool_name st))
    = (sent st ++ l)%list
    /\ (l = [initialize]
        \/ l = [initialize; tools_list]
        \/ exists n,
             l = [initialize; tools_list; tools_call_post mcp_url api_token n])
    /\ (forall results st',
          test_mcp_protocol c mcp_url api_token tool_name st = (Ok results, st') ->
          exists i t e s,
            results = results_of i t e s
            /\ (s = true -> length l = 3%nat)).
Proof.
  intros Hu Ht initialize tools_list. subst initialize tools_list.
  destruct (test_mcp_protocol c mcp_url api_token tool_name st)
    as [outcome final] eqn:H. cbn [snd].
  assert (G : exists l,
             sent final = (sent st ++ l)%list
             /\ (l = [mcp_request c mcp_url api_token init_request]
                 \/ l = [mcp_request c mcp_url api_token init_request;
                         mcp_request c mcp_url api_token list_request]
                 \/ exists n,
                      l = [mcp_request c mcp_url api_token init_request;
                           mcp_request c mcp_url api_token list_request;
                           mcp_request c mcp_url api_token (exec_request n)])
             /\ (forall results,
                   outcome = Ok results ->
                   exists i t e s,
                     results = results_of i t e s
                     /\ (s = true -> length l = 3%nat))).
  { unfold test_mcp_protocol in H. rewrite Hu, Ht in H.
    cbv beta iota zeta delta [negb] in H.
    unfold bind at 1 in H.
    pose proof (mcp_post_sent c mcp_url api_token init_request st) as S1.
    destruct (mcp_post_never_raises c mcp_url api_token init_request st)
      as [x1 X1].
    destruct (mcp_post c mcp_url api_token init_request st)
      as [[[m1|init]|e1] st1]; cbn [fst snd] in S1, X1; try discriminate.
    { inversion H; subst. eexists. split; [exact S1|]. split; [auto|].
      intros results R. inversion R; subst.
      do 4 eexists. split; [reflexivity|]. discriminate. }
    unfold bind at 1 in H.
    pose proof (mcp_post_sent c mcp_url api_token list_request st1) as S2.
    destruct (mcp_post_never_raises c mcp_url api_token list_request st1)
      as [x2 X2].
    destruct (mcp_post c mcp_url api_token list_request st1)
      as [[[m2|listing]|e2] st2]; cbn [fst snd] in S2, X2; try discriminate.
    { inversion H; subst. eexists.
      split; [rewrite S2, S1, <- app_assoc; reflexivity|].
      split; [auto|].
      intros results R. inversion R; subst.
      do 4 eexists. split; [reflexivity|]. discriminate. }
    assert (S12 : sent st2
                  = (sent st ++ [mcp_request c mcp_url api_token init_request;
                                 mcp_request c mcp_url api_token list_request])%list)
      by (rewrite S2, S1, <- app_assoc; reflexivity).
    unfold bind at 1 in H. unfold lift at 1 in H.
    destruct (listed_tools listing) as [tools|e].
    2:{ inversion H; subst. eexists. split; [exact S12|]. split; [auto|].
        intros; discriminate. }
    destruct (Py.truthy tools).
    2:{ inversion H; subst. eexists. split; [exact S12|]. split; [auto|].
        intros results R. inversion R; subst.
        do 4 eexists. split; [reflexivity|]. discriminate. }
    unfold bind at 1 in H. unfold lift at 1 in H.
    destruct (select_tool tool_name tools) as [tool|e].
    2:{ inversion H; subst. eexists. split; [exact S12|]. split; [auto|].
        intros; discriminate. }
    destruct (Py.truthy tool).
    2:{ inversion H; subst. eexists. split; [exact S12|]. split; [auto|].
        intros results R. inversion R; subst.
        do 4 eexists. split; [reflexivity|]. discriminate. }
    unfold bind at 1 in H. unfold lift at 1 in H.
    destruct (Py.getitem tool "name") as [n|e].
    2:{ inversion H; subst. eexists. split; [exact S12|]. split; [auto|].
        intros; discriminate. }
    unfold bind at 1 in H.
    pose proof (mcp_post_sent c mcp_url api_token (exec_request n) st2) as S3.
    destruct (mcp_post_never_raises c mcp_url api_token (exec_request n) st2)
      as [x3 X3].
    destruct (mcp_post c mcp_url api_token (exec_request n) st2)
      as [[[m3|execution]|e3] st3]; cbn [fst snd] in S3, X3; try discriminate.
    - inversion H; subst. eexists.
      split; [rewrite S3, S12, <- app_assoc; reflexivity|].
      split; [right; right; eexists; reflexivity|].
      intros results R. inversion R; subst.
      do 4 eexists. split; [reflexivity|]. discriminate.
    - unfold bind, lift, ret in H.
      destruct (Py.contains "result" execution) as [b|e];
        inversion H; subst; eexists;
        (split; [rewrite S3, S12, <- app_assoc; reflexivity|]);
        (split; [right; right; eexists; reflexivity|]).
      + intros results R. inversion R; subst.
        do 4 eexists. split; [reflexivity|]. reflexivity.
      + intros; discriminate. }
  destruct G as (l & Sl & Shape & Res). exists l.
  split; [exact Sl|]. split; [exact Shape|].
  intros results st' E. inversion E; subst. apply Res. reflexivity.
Qed.

(* ===================================================================== *)
(** ** The Lambda handler *)
(* ===================================================================== *)

Lemma contains_raises_builtin (k : string) (j : json) :
  raises_builtin (Py.contains k j).
Proof. intros e; destruct j; simpl; intros H; inversion H; eauto. Qed.

Lemma respond_raises_builtin (response : json) :
  raises_builtin (respond response).
Proof.
  intros e. unfold respond, res_bind.
  destruct (Py.contains "error" response) as [b|x] eqn:C;
    [|builtin_step contains_raises_builtin].
  destruct b.
  - destruct (Py.getitem response "error") eqn:G;
      [discriminate | builtin_step getitem_raises_builtin].
  - destruct (Py.get response "success" JNull) as [s|x] eqn:G1;
      [|builtin_step get_raises_builtin].
    destruct (is_False s); [|discriminate].
    destruct (Py.get response "response" (JStr "Command execution failed"))
      eqn:G2; [discriminate | builtin_step get_raises_builtin].
Qed.

Lemma optional_text_truthy (j : json) :
  optional_text j = true -> Py.truthy j = true ->
  exists s, j = JStr s /\ PyStr.truthy s = true.
Proof. destruct j; simpl; try discriminate. eauto. Qed.

(** The handler, once the event is read. *)
Lemma lambda_handler_eq (ob : Client) (event : Py.dict) (st : state) :
  lambda_handler ob (JObj event) st
  = if Py.truthy (Py.field (JObj event) "commandLine") then
      bind (run ob (as_text (Py.field (JObj event) "commandLine")) None None None)
           (fun response => lift (respond response)) st
    else if Py.truthy (Py.field (JObj event) "command")
            && Py.truthy (Py.field (JObj event) "connection") then
      bind (run ob None (as_text (Py.field (JObj event) "connection"))
              (as_text (Py.field (JObj event) "command"))
              (as_args (Py.get_or (JObj event) "arguments" (JArr []))))
           (fun response => lift (respond response)) st
    else (Ok missing_parameters, st).
Proof.
  unfold lambda_handler, bind, lift, ret.
  cbn [Py.get Py.field Py.get_or].
  destruct (match Py.lookup "commandLine" event with
            | Some v => v
            | None => JNull
            end) as [|b|n|s|l|d] eqn:L;
    try reflexivity;
    try (destruct (Py.truthy _) eqn:T; [reflexivity|]);
    destruct (Py.lookup "command" event) as [cmd|];
    destruct (Py.lookup "connection" event) as [conn|];
    cbn [Py.truthy PyStr.truthy negb orb andb];
    try destruct (Py.truthy cmd); try destruct (Py.truthy conn);
    reflexivity.
Qed.

(** X23.  The handler looks at [commandLine] first: a non-empty one is
    run as free text, in one request, and the other fields of the event
    are ignored.  Without it, an event whose command or connection is
    missing or empty is answered with status 400 and nothing is sent;
    otherwise the command is run in structured mode, in one request
    carrying the tokens of [arguments].  In both modes the answer is what
    the handler makes of the response of [run]. *)
Theorem lambda_handler_dispatch (ob : Client) (event : Py.dict) (st : state) :
  documented event = true ->
  let handled := lambda_handler ob (JObj event) st in
  let arguments := Py.get_or (JObj event) "arguments" (JArr []) in
  (forall txt,
     Py.lookup "commandLine" event = Some (JStr txt) ->
     PyStr.truthy txt = true ->
     handled = lambda_handler ob (JObj [("commandLine", JStr txt)]) st
     /\ sent (snd handled) = (sent st ++ [text_request ob txt])%list
     /\ forall response st',
          run ob (Some txt) None None None st = (Ok response, st') ->
          handled = (respond response, st'))
  /\ (Py.truthy (Py.field (JObj event) "commandLine") = false ->
      Py.truthy (Py.field (JObj event) "command") = false
      \/ Py.truthy (Py.field (JObj event) "connection") = false ->
      handled
      = (Ok (answer 400
               [("error",
                 JStr "Missing required parameters: command and connection")]),
         st))
  /\ (forall command connection tokens,
        Py.truthy (Py.field (JObj event) "commandLine") = false ->
        Py.lookup "command" event = Some (JStr command) ->
        PyStr.truthy command = true ->
        Py.lookup "connection" event = Some (JStr connection) ->
        PyStr.truthy connection = true ->
        args_list (as_args arguments) = Ok tokens ->
        sent (snd handled)
        = (sent st ++ [run_request ob connection command tokens])%list
        /\ forall response st',
             run ob None (Some connection) (Some command) (as_args arguments) st
             = (Ok response, st') ->
             handled = (respond response, st')).
Proof.
  intros _ handled arguments. subst handled arguments.
  repeat apply conj.
  - intros txt L T.
    assert (E : lambda_handler ob (JObj event) st
                = bind (run ob (Some txt) None None None)
                       (fun response => lift (respond response)) st).
    { rewrite lambda_handler_eq. simpl. rewrite L. simpl. rewrite T.
      reflexivity. }
    rewrite E. repeat apply conj.
    + rewrite lambda_handler_eq. simpl. rewrite T. reflexivity.
    + pose proof (run_text_sent ob txt None None None st T) as S.
      unfold bind, lift.
      destruct (run ob (Some txt) None None None st) as [[response|e] st1];
        exact S.
    + intros response st' R. unfold bind, lift. rewrite R. reflexivity.
  - intros F M. rewrite lambda_handler_eq, F.
    destruct M as [M|M]; rewrite M; [|rewrite andb_false_r]; reflexivity.
  - intros command connection tokens F Lm Tm Lc Tc A.
    assert (E : lambda_handler ob (JObj event) st
                = bind (run ob None (Some connection) (Some command)
                          (as_args (Py.get_or (JObj event) "arguments" (JArr []))))
                       (fun response => lift (respond response)) st).
    { rewrite lambda_handler_eq, F. simpl. rewrite Lm, Lc. simpl.
      rewrite Tm, Tc. reflexivity. }
    rewrite E.
    destruct (run_structured ob None connection command _ tokens st
                eq_refl Tc Tm A) as (S & _).
    split.
    + unfold bind, lift.
      destruct (run ob None (Some connection) (Some command) _ st)
        as [[response|e] st1]; exact S.
    + intros response st' R. unfold bind, lift. rewrite R. reflexivity.
Qed.

(** X24.  No failure becomes an answer: for an event of the documented
    structure, whatever the handler raises is a command-execution error
    wrapping an API error of the request, or an exception that is not one
    of the SDK's API errors (authentication, connection, timeout, or a
    built-in one).  The handler never raises the validation error of
    [run]: its own check comes first. *)
Theorem lambda_handler_raises_only (ob : Client) (event : Py.dict)
    (st st' : state) (e : exn) :
  documented event = true ->
  lambda_handler ob (JObj event) st = (Raise e, st') ->
  Exn.is_ValidationError e = false
  /\ Exn.is_APIError e = false
  /\ ((exists x command connection,
         Exn.is_APIError x = true
         /\ e = CommandExecutionError
                  ("Command execution failed: " ++ Exn.str x) command connection)
      \/ transport_error e = true).
Proof.
  intros D. unfold documented in D.
  apply andb_true_iff in D as [D Da]. apply andb_true_iff in D as [D Dc].
  apply andb_true_iff in D as [Dl Dm].
  assert (Tail : forall command_text connection command args,
             (Py.str_truthy command_text = true
              \/ (Py.str_truthy connection = true
                  /\ Py.str_truthy command = true)) ->
             bind (run ob command_text connection command args)
                  (fun response => lift (respond response)) st = (Raise e, st') ->
             Exn.is_ValidationError e = false
             /\ Exn.is_APIError e = false
             /\ ((exists x command connection,
                    Exn.is_APIError x = true
                    /\ e = CommandExecutionError
                             ("Command execution failed: " ++ Exn.str x)
                             command connection)
                 \/ transport_error e = true)).
  { intros command_text connection command args V. unfold bind, lift.
    destruct (run ob command_text connection command args st)
      as [[response|x] st1] eqn:R.
    - intros H. inversion H as [[Hr Hs]].
      destruct (respond_raises_builtin _ _ Hr) as [k ->]. auto.
    - intros H. inversion H; subst.
      destruct (run_raises_cases _ _ _ _ _ _ _ _ R)
        as [(_ & _ & T & C)|[(_ & -> & _)|[(x & Ax & ->)|[Tr Ae]]]].
      + destruct V as [V|[Vc Vm]]; [congruence|].
        destruct C; congruence.
      + auto.
      + split; [reflexivity|]. split; [reflexivity|]. left. eauto.
      + split; [|auto]. destruct e; simpl in *; congruence. }
  rewrite lambda_handler_eq.
  destruct (Py.truthy (Py.field (JObj event) "commandLine")) eqn:Tl.
  - destruct (optional_text_truthy _ Dl Tl) as (txt & El & Tt).
    rewrite El. apply Tail. left. exact Tt.
  - destruct (Py.truthy (Py.field (JObj event) "command")) eqn:Tm;
      [|simpl; discriminate].
    destruct (Py.truthy (Py.field (JObj event) "connection")) eqn:Tc;
      [|simpl; discriminate].
    destruct (optional_text_truthy _ Dm Tm) as (cmd & Em & Tcmd).
    destruct (optional_text_truthy _ Dc Tc) as (conn & Ec & Tconn).
    rewrite Em, Ec. simpl andb. cbv iota. apply Tail. right.
    split; assumption.
Qed.

(** X25.  What the handler makes of a response that is a JSON object:
    status 500 exactly when the object has an [error] key (whatever
    [success] says), the body carrying that error; status 400 exactly when
    it has none and its [success] is the boolean false; status 200
    otherwise, so also for a missing or null [success]; below 500 the body
    carries the response as [result].  A response that is not an object
    gives no answer: a built-in exception leaves the handler. *)
Theorem respond_status_codes (response : json) :
  (forall d,
     response = JObj d ->
     exists status body,
       respond response = Ok (answer status body)
       /\ (status = 200 \/ status = 400 \/ status = 500)
       /\ (status = 500 <-> Py.lookup "error" d <> None)
       /\ (status = 400 <->
           Py.lookup "error" d = None
           /\ Py.lookup "success" d = Some (JBool false))
       /\ (status = 500 -> Py.lookup "error" body = Py.lookup "error" d)
       /\ (status <> 500 -> Py.lookup "result" body = Some response))
  /\ (Py.is_object response = false ->
      exists k, respond response = Raise (Builtin k)).
Proof.
  split.
  - intros d ->. unfold respond, res_bind, answer. simpl.
    destruct (Py.lookup "error" d) as [err|] eqn:E.
    + exists 500, [("error", err); ("message", JStr "Command execution failed")].
      repeat apply conj; try reflexivity; auto; try (intros; lia);
        try (intros; discriminate).
      intros [H _]; discriminate.
    + destruct (Py.lookup "success" d) as [[|[|]| | | |]|] eqn:S; simpl;
        eexists; eexists; (split; [reflexivity|]);
        repeat apply conj; auto; try (intros; lia); try reflexivity;
        try (intros H; exfalso; apply H; reflexivity);
        try (intros [_ H]; discriminate).
  - destruct response as [|b|n|s|l|d]; simpl; try discriminate; intros _;
      unfold respond, res_bind; simpl; eauto.
    + destruct (PyStr.contains "error" s); simpl; eauto.
    + destruct (existsb _ l); simpl; eauto.
Qed.

(* ===================================================================== *)
(** ** Creating users, groups and policies; rendering of API errors *)
(* ===================================================================== *)

Ltac posts_tac :=
  intros st; unfold bind, lift;
  match goal with
  | |- context [_request ?c "POST" ?ep ?p None None None st] =>
      let Hs := fresh "Hs" in
      let Hr := fresh "Hr" in
      pose proof (_request_sent c "POST" ep p None None None st) as Hs;
      destruct (_request c "POST" ep p None None None st)
        as [[? | ?] ?] eqn:Hr; cbn [snd] in Hs
  end;
  repeat apply conj;
  [ match goal with
    | |- context [Http.json ?x] => destruct (Http.json x); assumption
    end
  | intros r' st' H; inversion H; subst; reflexivity
  | intros e' st' H; discriminate
  | assumption
  | intros r' st' H; discriminate
  | intros e' st' H; inversion H; subst; reflexivity ].

(** X26.  [add_user], [add_group] and [create_policy], given a non-empty
    payload or name, send exactly one POST and return the decoded body of
    the answer as it is; an error of the request is passed on unwrapped.
    [add_user] and [add_group] post the value they are given;
    [create_policy] posts name, description, commands and connections, a
    list that is not given being posted as the empty list. *)
Theorem create_operations (c : Client) :
  (forall user,
     Py.truthy user = true ->
     posts (add_user c user) c "/workspace/v2/users" user)
  /\ (forall group,
        Py.truthy group = true ->
        posts (add_group c group) c "/workspace/v2/policy/group" group)
  /\ (forall name description cmds conns,
        PyStr.truthy name = true ->
        posts (create_policy c name description cmds conns) c
          "/workspace/v2/policy"
          (JObj [("name", JStr name);
                 ("description", JStr description);
                 ("commands", Py.strs (or_nil cmds));
                 ("connections", Py.strs (or_nil conns))])).
Proof.
  repeat apply conj.
  - intros user T. unfold posts, add_user. rewrite T.
    cbv beta iota delta [negb]. posts_tac.
  - intros group T. unfold posts, add_group. rewrite T.
    cbv beta iota delta [negb]. posts_tac.
  - intros name description cmds conns T. unfold posts, create_policy.
    rewrite T. cbv beta iota delta [negb]. posts_tac.
Qed.

(** X27.  An API error raised for an HTTP response carries the status of
    that response, and its text ends with it: [str] of the error is its
    message followed by " (status: N)".  This holds for the rate-limit
    error too. *)
Theorem api_errors_render_status (r : Response) (e : exn) :
  _handle_response_error r = Raise e ->
  Exn.is_APIError e = true ->
  Exn.status_code e = Some (status_code r)
  /\ Exn.str e
     = (Exn.message e ++ " (status: " ++ PyStr.of_Z (status_code r) ++ ")")%string.
Proof.
  unfold _handle_response_error. cbv zeta.
  destruct (status_code r =? 401) eqn:E1;
    [intros H; inversion H; subst; discriminate|].
  destruct (status_code r =? 403) eqn:E3;
    [intros H; inversion H; subst; discriminate|].
  destruct (status_code r =? 404) eqn:E4.
  { apply Z.eqb_eq in E4. intros H _. inversion H; subst.
    unfold Exn.str. simpl. rewrite E4. split; reflexivity. }
  destruct (status_code r =? 429) eqn:E9.
  { apply Z.eqb_eq in E9. rewrite E9.
    destruct (Http.header "Retry-After" (headers r)) as [v|];
      [destruct (PyStr.truthy v); [destruct (PyStr.to_int v)|]|];
      intros H A; inversion H; subst; try discriminate;
      split; reflexivity. }
  destruct (400 <=? status_code r) eqn:E; [|discriminate].
  apply Z.leb_le in E.
  assert (Z0 : (status_code r =? 0) = false) by (apply Z.eqb_neq; lia).
  unfold res_bind, Http.json.
  destruct (json_body r) as [j|]; simpl.
  - destruct j; simpl; intros H A; inversion H; subst; try discriminate;
      unfold Exn.str; simpl; rewrite Z0; split; reflexivity.
  - intros H A; inversion H; subst. unfold Exn.str. simpl. rewrite Z0.
    split; reflexivity.
Qed.
End Sdk.

(* ===================================================================== *)
(** ** The statements at work on the scripted service *)
(* ===================================================================== *)

Local Notation "'the_client'" := Mock.client.
Local Notation "'fresh' w" := (mkState Mock.world w []) (at level 10).
Local Notation "'after' w l" := (mkState Mock.world w l)
  (at level 10, w at level 9, l at level 9).
Local Notation "'at_service'" := (mkState Mock.world Scenario.service []).

Lemma mock_set_order_perm (l : list json) : Permutation (Mock.set_order l) l.
Proof. apply Permutation_refl. Defined.

(** The end-to-end scenario: the service lists [t1] (mcp) and [t2]
    (webHook); [mcp_triggers()] returns [t1] alone. *)
Lemma triggers_kind_filter_witness :
  triggers Mock.world Mock.send Mock.py_repr the_client None
    (fresh Scenario.listing_service)
  = (Ok (JArr [Scenario.s1; Scenario.s2]),
     after Scenario.listing_service [list_get the_client])
  /\ objects [Scenario.s1; Scenario.s2]
  /\ mcp_triggers Mock.world Mock.send Mock.py_repr the_client
       (fresh Scenario.listing_service)
     = (Ok (JArr [Scenario.s1]),
        after Scenario.listing_service [list_get the_client])
  /\ triggers Mock.world Mock.send Mock.py_repr the_client (Some "")
       (fresh Scenario.listing_service)
     = (Ok (JArr [Scenario.s1; Scenario.s2]),
        after Scenario.listing_service [list_get the_client]).
Proof.
  assert (O : objects [Scenario.s1; Scenario.s2]) by (repeat constructor).
  split; [reflexivity|]. split; [exact O|].
  destruct (triggers_kind_filter Mock.world Mock.send Mock.py_repr the_client
              "mcp" (fresh Scenario.listing_service)
              (after Scenario.listing_service [list_get the_client])
              [Scenario.s1; Scenario.s2] eq_refl O) as (F & N & _ & M).
  split; [rewrite M; exact (F eq_refl) | exact N].
Defined.

(** C8, as stated, fails for the empty kind: [triggers(kind="")] returns
    every trigger, although no trigger has the kind "". *)
Lemma triggers_empty_kind_unfiltered :
  triggers Mock.world Mock.send Mock.py_repr the_client None
    (fresh Scenario.listing_service)
  = (Ok (JArr [Scenario.s1; Scenario.s2]),
     after Scenario.listing_service [list_get the_client])
  /\ filter (has_kind "") [Scenario.s1; Scenario.s2] = []
  /\ triggers Mock.world Mock.send Mock.py_repr the_client (Some "")
       (fresh Scenario.listing_service)
     = (Ok (JArr [Scenario.s1; Scenario.s2]),
        after Scenario.listing_service [list_get the_client])
  /\ triggers Mock.world Mock.send Mock.py_repr the_client (Some "")
       (fresh Scenario.listing_service)
     <> (Ok (JArr (filter (has_kind "") [Scenario.s1; Scenario.s2])),
         after Scenario.listing_service [list_get the_client]).
Proof.
  repeat split; try reflexivity. vm_compute. discriminate.
Qed.

(** The direct lookup of "t1" is answered 404; the listing has it. *)
Lemma get_trigger_fallback_witness :
  PyStr.truthy "t1" = true
  /\ get_trigger Mock.world Mock.send Mock.py_repr the_client "t1" at_service
     = (Ok Scenario.t1,
        after Scenario.service [direct_get the_client "t1"; list_get the_client]).
Proof.
  split; [reflexivity|].
  destruct (get_trigger_fallback Mock.world Mock.send Mock.py_repr the_client
              "t1" at_service eq_refl) as (_ & _ & _ & F & _).
  apply (F (APIError "Resource not found" (Some 404) (Some "Not Found"))
           (after Scenario.service [direct_get the_client "t1"])
           [Scenario.t1; Scenario.t2]
           (after Scenario.service
                  [direct_get the_client "t1"; list_get the_client])).
  - reflexivity.
  - reflexivity.
  - reflexivity.
  - repeat constructor.
Defined.

(** The URL of the MCP trigger "t1". *)
Lemma get_mcp_trigger_url_total_witness :
  PyStr.truthy "t1" = true
  /\ get_mcp_trigger_url Mock.world Mock.send Mock.py_repr the_client "t1"
       at_service
     = (Ok (JStr "https://mcp.example.com/t1"),
        after Scenario.service [direct_get the_client "t1"; list_get the_client]).
Proof.
  split; [reflexivity|].
  destruct (get_mcp_trigger_url_total Mock.world Mock.send Mock.py_repr
              the_client "t1" at_service eq_refl) as (_ & _ & F & _).
  apply (F Scenario.t1
           (after Scenario.service
                  [direct_get the_client "t1"; list_get the_client])).
  - reflexivity.
  - reflexivity.
Defined.

(** Creating a trigger with the tools "a" (connection "x", command
    "c1") and "b" (connection "x", command "c2"). *)
Lemma create_mcp_trigger_dedup_witness :
  PyStr.truthy "t3" = true
  /\ tools_shaped [Scenario.tool_a; Scenario.tool_b]
  /\ forallb Py.hashable
       (collected "command" [Scenario.tool_a; Scenario.tool_b]) = true
  /\ forallb Py.hashable
       (collected "connection" [Scenario.tool_a; Scenario.tool_b]) = true
  /\ exists payload connections,
       sent Mock.world
         (snd (create_mcp_trigger Mock.world Mock.send Mock.py_repr
                 Mock.set_order the_client "t3" ""
                 (Some [Scenario.tool_a; Scenario.tool_b]) None at_service))
       = [post_trigger the_client payload]
       /\ Py.field payload "connections" = JArr connections
       /\ NoDup connections
       /\ In (JStr "x") connections.
Proof.
  assert (S : tools_shaped [Scenario.tool_a; Scenario.tool_b])
    by (repeat constructor).
  split; [reflexivity|]. split; [exact S|].
  split; [reflexivity|]. split; [reflexivity|].
  destruct (create_mcp_trigger_dedup Mock.world Mock.send Mock.py_repr
              Mock.set_order mock_set_order_perm the_client "t3" ""
              (Some [Scenario.tool_a; Scenario.tool_b]) None at_service
              eq_refl S eq_refl eq_refl)
    as [(payload & cs & ns & St & _ & Fn & _ & Nn & _ & _ & _ & In_) _].
  exists payload, ns. split; [exact St|]. split; [exact Fn|].
  split; [exact Nn|]. apply In_. simpl. auto.
Defined.

(** Replacing the tools of "t1" by the single tool "b", with a new
    description. *)
Lemma update_mcp_trigger_merge_witness :
  PyStr.truthy "t1" = true
  /\ get_trigger Mock.world Mock.send Mock.py_repr the_client "t1" at_service
     = (Ok Scenario.t1,
        after Scenario.service [direct_get the_client "t1"; list_get the_client])
  /\ has_kind "mcp" Scenario.t1 = true
  /\ (Py.is_object (mcp_info_of Scenario.t1) = true
      /\ tools_shaped [Scenario.tool_b]
      /\ forallb Py.hashable (collected "command" [Scenario.tool_b]) = true
      /\ forallb Py.hashable (collected "connection" [Scenario.tool_b]) = true)
  /\ exists payload info,
       sent Mock.world
         (snd (update_mcp_trigger Mock.world Mock.send Mock.py_repr
                 Mock.set_order the_client "t1" (Some "second")
                 (Some [Scenario.tool_b]) at_service))
       = [direct_get the_client "t1"; list_get the_client;
          put_request the_client "t1" (JObj payload)]
       /\ Py.lookup "description" payload = Some (JStr "second")
       /\ Py.lookup "policies" payload = None
       /\ Py.lookup "mcpTriggerInfo" payload = Some (JObj info)
       /\ Py.lookup "toolInstances" info = Some (JArr [Scenario.tool_b]).
Proof.
  assert (W : Py.is_object (mcp_info_of Scenario.t1) = true
              /\ tools_shaped [Scenario.tool_b]
              /\ forallb Py.hashable (collected "command" [Scenario.tool_b]) = true
              /\ forallb Py.hashable (collected "connection" [Scenario.tool_b])
                 = true)
    by (repeat split; repeat constructor).
  split; [reflexivity|]. split; [reflexivity|]. split; [reflexivity|].
  split; [exact W|].
  destruct (update_mcp_trigger_merge Mock.world Mock.send Mock.py_repr
              Mock.set_order mock_set_order_perm the_client "t1"
              (Some "second") (Some [Scenario.tool_b]) at_service
              (after Scenario.service
                     [direct_get the_client "t1"; list_get the_client])
              Scenario.t1 eq_refl eq_refl eq_refl W)
    as (payload & St & Keys & _ & _ & D & cs & ns & info & info0 & _ & _ & _ & _
        & I & _ & T & _).
  exists payload, info. split; [exact St|]. split; [exact D|].
  split; [|split; [exact I | exact T]].
  destruct payload as [|[k1 v1] [|[k2 v2] [|[k3 v3] [|[k4 v4] [|[k5 v5]
    [|[k6 v6] [|? ?]]]]]]]; try discriminate Keys.
  simpl in Keys. inversion Keys; subst. reflexivity.
Defined.

(** C2, as stated, fails on the [policies] field: updating "t1" with
    nothing overridden sends a body without it, although the stored
    trigger has policies. *)
Lemma update_mcp_trigger_drops_policies :
  sent Mock.world
    (snd (update_mcp_trigger Mock.world Mock.send Mock.py_repr Mock.set_order
            the_client "t1" None None at_service))
  = [direct_get the_client "t1"; list_get the_client;
     put_request the_client "t1" (JObj Scenario.t1_unchanged)]
  /\ Py.lookup "policies" Scenario.t1_fields = Some (Py.strs ["p"])
  /\ Py.lookup "policies" Scenario.t1_unchanged = None
  /\ Py.lookup "policies" Scenario.t1_unchanged
     <> Py.lookup "policies" Scenario.t1_fields.
Proof. repeat split; try reflexivity. vm_compute. discriminate. Qed.

(** Removing "ghost" from "t1" raises resource-not-found after the two
    reads; removing "a" leaves the tool "b" in the update request. *)
Lemma remove_tool_from_mcp_trigger_spec_witness :
  PyStr.truthy "t1" = true
  /\ PyStr.truthy "ghost" = true
  /\ get_trigger Mock.world Mock.send Mock.py_repr the_client "t1" at_service
     = (Ok Scenario.t1,
        after Scenario.service [direct_get the_client "t1"; list_get the_client])
  /\ has_kind "mcp" Scenario.t1 = true
  /\ Py.is_object (mcp_info_of Scenario.t1) = true
  /\ tool_instances_of Scenario.t1 = JArr [Scenario.tool_a; Scenario.tool_b]
  /\ tools_shaped [Scenario.tool_a; Scenario.tool_b]
  /\ remove_tool_from_mcp_trigger Mock.world Mock.send Mock.py_repr
       Mock.set_order the_client "t1" "ghost" at_service
     = (Raise (ResourceNotFoundError "Tool" "ghost"),
        after Scenario.service [direct_get the_client "t1"; list_get the_client])
  /\ remove_tool_from_mcp_trigger Mock.world Mock.send Mock.py_repr
       Mock.set_order the_client "t1" "a" at_service
     = update_mcp_trigger Mock.world Mock.send Mock.py_repr Mock.set_order
         the_client "t1" None (Some [Scenario.tool_b])
         (after Scenario.service
                [direct_get the_client "t1"; list_get the_client]).
Proof.
  assert (S : tools_shaped [Scenario.tool_a; Scenario.tool_b])
    by (repeat constructor).
  do 7 (split; [first [exact S | reflexivity]|]).
  split.
  - apply (remove_tool_from_mcp_trigger_spec Mock.world Mock.send Mock.py_repr
             Mock.set_order the_client "t1" "ghost" at_service
             (after Scenario.service
                    [direct_get the_client "t1"; list_get the_client])
             Scenario.t1 [Scenario.tool_a; Scenario.tool_b]
             eq_refl eq_refl eq_refl eq_refl eq_refl eq_refl S).
    reflexivity.
  - apply (remove_tool_from_mcp_trigger_spec Mock.world Mock.send Mock.py_repr
             Mock.set_order the_client "t1" "a" at_service
             (after Scenario.service
                    [direct_get the_client "t1"; list_get the_client])
             Scenario.t1 [Scenario.tool_a; Scenario.tool_b]
             eq_refl eq_refl eq_refl eq_refl eq_refl eq_refl S).
    reflexivity.
Defined.

(** C3, as stated, fails when both modes are supplied: the content is
    uploaded and the path, which does not exist, is never looked at. *)
Lemma file_upload_both_modes_uploads :
  Mock.file_at "/missing.csv" Scenario.service = Missing
  /\ file_upload Mock.world Mock.send Mock.file_at Mock.path_name Mock.py_repr
       the_client (Some "a,b") (Some "f.csv") (Some "/missing.csv") at_service
     = (Ok "stored",
        after Scenario.service [content_upload the_client "f.csv" "a,b"])
  /\ forall m f,
       fst (file_upload Mock.world Mock.send Mock.file_at Mock.path_name
              Mock.py_repr the_client (Some "a,b") (Some "f.csv")
              (Some "/missing.csv") at_service)
       <> Raise (ValidationError m f).
Proof. repeat split; try reflexivity. intros m f. vm_compute. discriminate. Qed.

(** Neither mode, and a path that does not exist. *)
Lemma file_upload_modes_witness :
  file_upload Mock.world Mock.send Mock.file_at Mock.path_name Mock.py_repr
    the_client None None None at_service
  = (Raise (ValidationError
              "Either file_content or input_file must be provided" None),
     at_service)
  /\ file_upload Mock.world Mock.send Mock.file_at Mock.path_name Mock.py_repr
       the_client None None (Some "/missing.csv") at_service
     = (Raise (FileOperationError "File not found: /missing.csv"
                 (Some "/missing.csv") (Some "upload")), at_service).
Proof.
  split.
  - apply (file_upload_modes Mock.world Mock.send Mock.file_at Mock.path_name
             Mock.py_repr the_client None None None at_service); reflexivity.
  - apply (file_upload_modes Mock.world Mock.send Mock.file_at Mock.path_name
             Mock.py_repr the_client None None (Some "/missing.csv") at_service);
      reflexivity.
Defined.

(** Running "ls" on "srv" with the arguments as a string and as a list. *)
Lemma run_tokenizes_witness :
  Py.str_truthy None = false
  /\ PyStr.truthy "srv" = true
  /\ PyStr.truthy "ls" = true
  /\ sent Mock.world
       (snd (run Mock.world Mock.send Mock.py_repr the_client None
               (Some "srv") (Some "ls") (Some (ArgsStr "--a 'b c'")) at_service))
     = [run_request the_client "srv" "ls" ["--a"; "b c"]]
  /\ run Mock.world Mock.send Mock.py_repr the_client None
       (Some "srv") (Some "ls") (Some (ArgsStr "--a b")) at_service
     = run Mock.world Mock.send Mock.py_repr the_client None
         (Some "srv") (Some "ls") (Some (ArgsList ["--a"; "b"])) at_service.
Proof.
  do 3 (split; [reflexivity|]).
  destruct (run_tokenizes Mock.world Mock.send Mock.py_repr the_client None
              "srv" "ls" at_service eq_refl eq_refl eq_refl)
    as (Fs & _ & Fe & _).
  split.
  - apply (Fs "--a 'b c'" ["--a"; "b c"]). reflexivity.
  - apply (Fe "--a b" ["--a"; "b"]). reflexivity.
Defined.

(** The protocol test against the endpoint of "t1", asking for the tool
    "mem": the three exchanges succeed and the run is a success. *)
Lemma test_mcp_protocol_spec_witness :
  PyStr.truthy Scenario.mcp_url = true
  /\ PyStr.truthy "tok" = true
  /\ Mock.send (initialize_post Scenario.mcp_url "tok") Scenario.service
     = (Mock.replies Scenario.handshake, Scenario.service)
  /\ chosen_tool (Some "mem") Scenario.disk [Scenario.mem] = Scenario.mem
  /\ test_mcp_protocol Mock.world Mock.send Mock.http_error_str
       Mock.json_error_str the_client Scenario.mcp_url "tok" (Some "mem")
       at_service
     = (Ok (results_of Scenario.handshake Scenario.listing Scenario.executed true),
        after Scenario.service
          [initialize_post Scenario.mcp_url "tok";
           tools_list_post Scenario.mcp_url "tok";
           tools_call_post Scenario.mcp_url "tok" (JStr "mem")]).
Proof.
  do 4 (split; [reflexivity|]).
  assert (A : forall j, step_answers (Mock.replies j) j).
  { intros j. exists (mkResponse 200 [] "" (Some j)).
    split; [split; [reflexivity | left; reflexivity] | reflexivity]. }
  destruct (test_mcp_protocol_spec Mock.world Mock.send Mock.http_error_str
              Mock.json_error_str the_client Scenario.mcp_url "tok" (Some "mem")
              at_service (Mock.replies Scenario.handshake) Scenario.service
              eq_refl eq_refl eq_refl) as (_ & F).
  destruct (F Scenario.handshake (Mock.replies Scenario.listing)
              Scenario.service (A _) eq_refl) as (_ & _ & G).
  assert (D : discovers Scenario.listing (JArr [Scenario.disk; Scenario.mem])).
  { apply (discovers_tools
             [("result", JObj [("tools", JArr [Scenario.disk; Scenario.mem])])]
             [("tools", JArr [Scenario.disk; Scenario.mem])]); reflexivity. }
  destruct (G Scenario.listing Scenario.disk [Scenario.mem]
              (Mock.replies Scenario.executed) Scenario.service (A _) D
              ltac:(repeat constructor) eq_refl) as (_ & _ & H).
  apply (H Scenario.executed (A _)). reflexivity.
Defined.

(* ===================================================================== *)
(** ** The further statements at work *)
(* ===================================================================== *)

Local Notation "'at_outage'" := (mkState Mock.world Scenario2.outage []).

(** A 500 answer whose JSON body has an [error] field. *)
Lemma api_error_message_precedence_witness :
  400 <= status_code Scenario2.failure
  /\ status_code Scenario2.failure <> 401
  /\ status_code Scenario2.failure <> 403
  /\ status_code Scenario2.failure <> 404
  /\ status_code Scenario2.failure <> 429
  /\ _handle_response_error Mock.py_repr Scenario2.failure
     = Raise (APIError "API error: bad" (Some 500) (Some "boom")).
Proof.
  assert (H0 : 400 <= status_code Scenario2.failure) by (simpl; lia).
  assert (H1 : status_code Scenario2.failure <> 401) by (simpl; lia).
  assert (H3 : status_code Scenario2.failure <> 403) by (simpl; lia).
  assert (H4 : status_code Scenario2.failure <> 404) by (simpl; lia).
  assert (H9 : status_code Scenario2.failure <> 429) by (simpl; lia).
  do 5 (split; [assumption|]).
  destruct (api_error_message_precedence Mock.py_repr Scenario2.failure
              H0 H1 H3 H4 H9) as (F & _).
  apply (F [("error", JStr "bad")]). reflexivity.
Defined.

(** The download URL of "report.csv". *)
Lemma get_file_download_url_cases_witness :
  PyStr.truthy "report.csv" = true
  /\ get_file_download_url Mock.world Mock.send Mock.py_repr the_client
       "report.csv" at_outage
     = (Ok (JStr Scenario2.file_url),
        after Scenario2.outage
          [api_request the_client "GET" "/workspace/v2/file-url/report.csv" None]).
Proof.
  split; [reflexivity|].
  destruct (get_file_download_url_cases Mock.world Mock.send Mock.py_repr
              the_client "report.csv" at_outage
              (after Scenario2.outage
                 [api_request the_client "GET"
                    "/workspace/v2/file-url/report.csv" None])
              (mkResponse 200 [] ""
                 (Some (JObj [("success", JBool true);
                              ("url", JStr Scenario2.file_url)])))
              [("success", JBool true); ("url", JStr Scenario2.file_url)]
              eq_refl eq_refl eq_refl) as (_ & F & _).
  apply (F eq_refl (JStr Scenario2.file_url)). reflexivity.
Defined.

(** Downloading "report.csv" with no destination writes "report.csv". *)
Lemma file_download_composes_witness :
  PyStr.truthy "report.csv" = true
  /\ download_destination "report.csv" None = "report.csv"
  /\ file_download Mock.world Mock.send Mock.py_repr Mock.http_error_str
       MockExt.response_content MockExt.write_bytes the_client
       "report.csv" None at_outage
     = (Ok true,
        after (Mock.mkWorld (Mock.routes Scenario2.outage)
                 (Mock.rpc_routes Scenario2.outage)
                 [("report.csv", Readable)])
          [api_request the_client "GET" "/workspace/v2/file-url/report.csv" None;
           mkRequest "GET" Scenario2.file_url None None None None]).
Proof.
  split; [reflexivity|]. split; [reflexivity|].
  destruct (file_download_composes Mock.world Mock.send Mock.py_repr
              Mock.http_error_str MockExt.response_content MockExt.write_bytes
              the_client "report.csv" None at_outage eq_refl) as (_ & F).
  destruct (F (JStr Scenario2.file_url)
              (after Scenario2.outage
                 [api_request the_client "GET"
                    "/workspace/v2/file-url/report.csv" None])
              (Mock.says "a,b") Scenario2.outage eq_refl eq_refl)
    as (_ & W & _).
  apply (W (mkResponse 200 [] "a,b" None)).
  - split; [reflexivity | left; reflexivity].
  - reflexivity.
Defined.

(** A command line together with a string of arguments that does not
    tokenize. *)
Lemma run_free_text_precedence_witness :
  PyStr.truthy "srv: ls" = true
  /\ Shlex.split "'" = Raise (Builtin ValueError)
  /\ sent Mock.world
       (snd (run Mock.world Mock.send Mock.py_repr the_client (Some "srv: ls")
               (Some "srv") None (Some (ArgsStr "'")) at_service))
     = [text_request the_client "srv: ls"].
Proof.
  split; [reflexivity|]. split; [reflexivity|].
  apply (run_free_text_precedence Mock.world Mock.send Mock.py_repr the_client
           "srv: ls" (Some "srv") None (Some (ArgsStr "'")) at_service eq_refl).
Defined.

(** A connection without a command. *)
Lemma run_rejects_incomplete_witness :
  Py.str_truthy None = false
  /\ (Py.str_truthy (Some "srv") = false \/ Py.str_truthy None = false)
  /\ run Mock.world Mock.send Mock.py_repr the_client None (Some "srv") None
       (Some (ArgsStr "'")) at_service
     = (Raise run_invalid, at_service).
Proof.
  split; [reflexivity|]. split; [right; reflexivity|].
  apply (run_rejects_incomplete Mock.world Mock.send Mock.py_repr the_client
           None (Some "srv") None (Some (ArgsStr "'")) at_service eq_refl).
  right. reflexivity.
Defined.

(** An execution that is rate limited: the rate-limit error is wrapped,
    and its retry delay with it. *)
Lemma run_raises_only_witness :
  run Mock.world Mock.send Mock.py_repr the_client None (Some "srv") (Some "ls")
    None at_outage
  = (Raise (CommandExecutionError
              "Command execution failed: Rate limit exceeded. Please retry later. (status: 429)"
              (Some "ls") (Some "srv")),
     after Scenario2.outage [run_request the_client "srv" "ls" []])
  /\ Exn.is_APIError
       (CommandExecutionError
          "Command execution failed: Rate limit exceeded. Please retry later. (status: 429)"
          (Some "ls") (Some "srv")) = false.
Proof.
  assert (R : run Mock.world Mock.send Mock.py_repr the_client None (Some "srv")
                (Some "ls") None at_outage
              = (Raise (CommandExecutionError
                          "Command execution failed: Rate limit exceeded. Please retry later. (status: 429)"
                          (Some "ls") (Some "srv")),
                 after Scenario2.outage [run_request the_client "srv" "ls" []]))
    by reflexivity.
  split; [exact R|].
  exact (proj2 (run_raises_only Mock.world Mock.send Mock.py_repr the_client
                  None (Some "srv") (Some "ls") None at_outage _ _ R)).
Defined.

(** The lookup of "t1" is refused with 401: no listing follows. *)
Lemma get_trigger_falls_back_on_api_errors_only_witness :
  PyStr.truthy "t1" = true
  /\ Exn.is_APIError (AuthenticationError Exn.default_auth_message) = false
  /\ get_trigger Mock.world Mock.send Mock.py_repr the_client "t1" at_outage
     = (Raise (AuthenticationError Exn.default_auth_message),
        after Scenario2.outage [direct_get the_client "t1"]).
Proof.
  split; [reflexivity|]. split; [reflexivity|].
  apply (get_trigger_falls_back_on_api_errors_only Mock.world Mock.send
           Mock.py_repr the_client "t1" at_outage
           (after Scenario2.outage [direct_get the_client "t1"])
           (AuthenticationError Exn.default_auth_message) eq_refl eq_refl).
  reflexivity.
Defined.

(** "t2" is a webHook trigger. *)
Lemma mcp_operations_require_mcp_kind_witness :
  PyStr.truthy "t2" = true
  /\ get_trigger Mock.world Mock.send Mock.py_repr the_client "t2" at_service
     = (Ok Scenario.t2,
        after Scenario.service [direct_get the_client "t2"; list_get the_client])
  /\ Py.is_object Scenario.t2 = true
  /\ has_kind "mcp" Scenario.t2 = false
  /\ update_mcp_trigger Mock.world Mock.send Mock.py_repr Mock.set_order
       the_client "t2" (Some "new") None at_service
     = (Raise (MCPError "'t2' is not an MCP trigger" (Some "t2")),
        after Scenario.service [direct_get the_client "t2"; list_get the_client])
  /\ add_tool_to_mcp_trigger Mock.world Mock.send Mock.py_repr Mock.set_order
       MockExt.uuid4 the_client "t2" (JObj Scenario2.uptime) at_service
     = (Raise (MCPError "'t2' is not an MCP trigger" (Some "t2")),
        after Scenario.service [direct_get the_client "t2"; list_get the_client]).
Proof.
  do 4 (split; [reflexivity|]).
  destruct (mcp_operations_require_mcp_kind Mock.world Mock.send Mock.py_repr
              Mock.set_order MockExt.uuid4 the_client "t2" at_service
              (after Scenario.service
                 [direct_get the_client "t2"; list_get the_client])
              Scenario.t2 eq_refl eq_refl eq_refl eq_refl) as (U & A & _).
  split; [apply U | apply A; reflexivity].
Defined.

(** Creating "t3" without tools: the service answers with a URL and a
    token. *)
Lemma create_mcp_trigger_response_witness :
  PyStr.truthy "t3" = true
  /\ create_payload Mock.set_order "t3" "" None None
     = Ok (JObj [("name", JStr "t3"); ("description", JStr "");
                 ("kind", JStr "mcp"); ("commands", JArr []);
                 ("connections", JArr []); ("policies", JArr []);
                 ("mcpTriggerInfo", JObj [("toolInstances", JArr [])])])
  /\ fst (create_mcp_trigger Mock.world Mock.send Mock.py_repr Mock.set_order
            the_client "t3" "" None None at_service)
     = Ok (created "t3" (JStr "https://mcp.example.com/t3") (JStr "secret")).
Proof.
  split; [reflexivity|]. split; [reflexivity|].
  destruct (create_mcp_trigger_response Mock.world Mock.send Mock.py_repr
              Mock.set_order the_client "t3" "" None None _ at_service
              eq_refl eq_refl) as (F & _).
  rewrite (F (mkResponse 200 [] ""
                (Some (JObj [("url", JStr "https://mcp.example.com/t3");
                             ("apiToken", JStr "secret")])))
             (after Scenario.service
                [post_trigger the_client
                   (JObj [("name", JStr "t3"); ("description", JStr "");
                          ("kind", JStr "mcp"); ("commands", JArr []);
                          ("connections", JArr []); ("policies", JArr []);
                          ("mcpTriggerInfo",
                           JObj [("toolInstances", JArr [])])])])
             [("url", JStr "https://mcp.example.com/t3");
              ("apiToken", JStr "secret")] eq_refl eq_refl).
  reflexivity.
Defined.

(** Adding the tool "uptime" to "t1", which has the tools "a" and "b". *)
Lemma add_tool_appends_witness :
  PyStr.truthy "t1" = true
  /\ Py.truthy (JObj Scenario2.uptime) = true
  /\ get_trigger Mock.world Mock.send Mock.py_repr the_client "t1" at_service
     = (Ok Scenario.t1,
        after Scenario.service [direct_get the_client "t1"; list_get the_client])
  /\ has_kind "mcp" Scenario.t1 = true
  /\ Py.is_object (mcp_info_of Scenario.t1) = true
  /\ tool_instances_of Scenario.t1 = JArr [Scenario.tool_a; Scenario.tool_b]
  /\ MockExt.uuid4 Scenario.service
     = ("123e4567-e89b-42d3-a456-426614174000", Scenario.service)
  /\ add_tool_to_mcp_trigger Mock.world Mock.send Mock.py_repr Mock.set_order
       MockExt.uuid4 the_client "t1" (JObj Scenario2.uptime) at_service
     = update_mcp_trigger Mock.world Mock.send Mock.py_repr Mock.set_order
         the_client "t1" None
         (Some [Scenario.tool_a; Scenario.tool_b;
                JObj [("instanceId", JStr "123e4567-e89b-42d3-a456-426614174000");
                      ("templateId", JStr "123e4567-e89b-42d3-a456-426614174000");
                      ("overrides", JObj (new_overrides 2 Scenario2.uptime))]])
         (after Scenario.service
            [direct_get the_client "t1"; list_get the_client]).
Proof.
  do 7 (split; [reflexivity|]).
  apply (add_tool_appends Mock.world Mock.send Mock.py_repr Mock.set_order
           MockExt.uuid4 the_client "t1" Scenario2.uptime at_service
           (after Scenario.service
              [direct_get the_client "t1"; list_get the_client])
           Scenario.t1 [Scenario.tool_a; Scenario.tool_b]
           "123e4567-e89b-42d3-a456-426614174000" Scenario.service
           eq_refl eq_refl eq_refl eq_refl eq_refl eq_refl eq_refl).
Defined.

(** The tokens "--verbose", "--path", "/var". *)
Lemma run_joined_tokens_witness :
  Py.str_truthy None = false
  /\ PyStr.truthy "srv" = true
  /\ PyStr.truthy "ls" = true
  /\ forallb plain_token ["--verbose"; "--path"; "/var"] = true
  /\ join_spaces ["--verbose"; "--path"; "/var"] = "--verbose --path /var"
  /\ Shlex.split "--verbose --path /var" = Ok ["--verbose"; "--path"; "/var"].
Proof.
  do 5 (split; [reflexivity|]).
  apply (run_joined_tokens Mock.world Mock.send Mock.py_repr the_client None
           "srv" "ls" ["--verbose"; "--path"; "/var"] at_service
           eq_refl eq_refl eq_refl eq_refl).
Defined.

(** The direct lookup of the policy is answered 404; the listing has it. *)
Lemma get_policy_fallback_witness :
  PyStr.truthy "default-policy" = true
  /\ get_policy Mock.world Mock.send Mock.py_repr the_client "default-policy"
       at_outage
     = (Ok Scenario2.policy,
        after Scenario2.outage
          [direct_get_policy the_client "default-policy";
           list_get_policies the_client]).
Proof.
  split; [reflexivity|].
  destruct (get_policy_fallback Mock.world Mock.send Mock.py_repr the_client
              "default-policy" at_outage eq_refl) as (_ & F & _).
  apply (F (APIError "Resource not found" (Some 404) (Some "Not Found"))
           (after Scenario2.outage
              [direct_get_policy the_client "default-policy"])
           [Scenario2.policy]
           (after Scenario2.outage
              [direct_get_policy the_client "default-policy";
               list_get_policies the_client])).
  - reflexivity.
  - reflexivity.
  - reflexivity.
  - repeat constructor.
Defined.

(** The protocol test against an endpoint that does not exist: one
    request, and a result with [success] false. *)
Lemma test_mcp_protocol_sequence_witness :
  PyStr.truthy "https://mcp.example.com/none" = true
  /\ PyStr.truthy "tok" = true
  /\ exists l,
       sent Mock.world
         (snd (test_mcp_protocol Mock.world Mock.send Mock.http_error_str
                 Mock.json_error_str the_client "https://mcp.example.com/none"
                 "tok" None at_service))
       = l
       /\ (length l <= 3)%nat.
Proof.
  split; [reflexivity|]. split; [reflexivity|].
  destruct (test_mcp_protocol_sequence Mock.world Mock.send Mock.http_error_str
              Mock.json_error_str the_client "https://mcp.example.com/none"
              "tok" None at_service eq_refl eq_refl)
    as (l & S & [->|[->|[n ->]]] & _);
    eexists; (split; [exact S|]); simpl; lia.
Defined.

(** A structured event: one request, carrying the argument. *)
Lemma lambda_handler_dispatch_witness :
  documented [("command", JStr "ls"); ("connection", JStr "srv");
              ("arguments", JArr [JStr "-l"])] = true
  /\ sent Mock.world
       (snd (lambda_handler Mock.world Mock.send Mock.py_repr the_client
               (JObj [("command", JStr "ls"); ("connection", JStr "srv");
                      ("arguments", JArr [JStr "-l"])]) at_service))
     = [run_request the_client "srv" "ls" ["-l"]].
Proof.
  split; [reflexivity|].
  destruct (lambda_handler_dispatch Mock.world Mock.send Mock.py_repr the_client
              [("command", JStr "ls"); ("connection", JStr "srv");
               ("arguments", JArr [JStr "-l"])] at_service eq_refl)
    as (_ & _ & F).
  destruct (F "ls" "srv" ["-l"] eq_refl eq_refl eq_refl eq_refl eq_refl eq_refl)
    as (S & _).
  exact S.
Defined.

(** The same event while the service is rate limiting: the handler
    raises, it does not answer with a status. *)
Lemma lambda_handler_raises_only_witness :
  documented [("command", JStr "ls"); ("connection", JStr "srv")] = true
  /\ lambda_handler Mock.world Mock.send Mock.py_repr the_client
       (JObj [("command", JStr "ls"); ("connection", JStr "srv")]) at_outage
     = (Raise (CommandExecutionError
                 "Command execution failed: Rate limit exceeded. Please retry later. (status: 429)"
                 (Some "ls") (Some "srv")),
        after Scenario2.outage [run_request the_client "srv" "ls" []])
  /\ Exn.is_ValidationError
       (CommandExecutionError
          "Command execution failed: Rate limit exceeded. Please retry later. (status: 429)"
          (Some "ls") (Some "srv")) = false.
Proof.
  split; [reflexivity|].
  assert (R : lambda_handler Mock.world Mock.send Mock.py_repr the_client
                (JObj [("command", JStr "ls"); ("connection", JStr "srv")])
                at_outage
              = (Raise (CommandExecutionError
                          "Command execution failed: Rate limit exceeded. Please retry later. (status: 429)"
                          (Some "ls") (Some "srv")),
                 after Scenario2.outage [run_request the_client "srv" "ls" []]))
    by reflexivity.
  split; [exact R|].
  exact (proj1 (lambda_handler_raises_only Mock.world Mock.send Mock.py_repr
                  the_client
                  [("command", JStr "ls"); ("connection", JStr "srv")]
                  at_outage _ _ eq_refl R)).
Defined.

(** The 500 answer: its error reads "API error: bad (status: 500)". *)
Lemma api_errors_render_status_witness :
  _handle_response_error Mock.py_repr Scenario2.failure
  = Raise (APIError "API error: bad" (Some 500) (Some "boom"))
  /\ Exn.str (APIError "API error: bad" (Some 500) (Some "boom"))
     = "API error: bad (status: 500)".
Proof.
  split; [reflexivity|].
  exact (proj2 (api_errors_render_status Mock.py_repr Scenario2.failure
                  (APIError "API error: bad" (Some 500) (Some "boom"))
                  eq_refl eq_refl)).
Defined.
